(** * Colour-blindness correction: a shallow embedding and its properties

    The development follows the three Python modules of the repository:

    - [colourblind_correction.py]: class [ColorBlindnessCorrector]
      (RGB<->LMS transforms, simulation, [daltonize], [process_frame],
      [set_mode]);
    - [correction.py]: class [ColorCorrector] ([apply_correction]);
    - [main.py]: the camera loop (detection every [SKIP_FRAMES] frames,
      clamping of the detected boxes, correction of each region).

    numpy arrays are records of a shape and row-major data.  Python
    exceptions are values of [result].  Floating-point numbers are
    rationals; the floating-point operations are the fields of the class
    [FloatOps], and [FloatSpec] states the usual rounding-error model for
    them (each operation returns the exact result up to a relative error
    of one unit roundoff).  The instance [exact_ops] computes without
    rounding and can be evaluated. *)

From Stdlib Require Import String Ascii Bool.
From Stdlib Require Import ZArith QArith Qabs Qround Qminmax.
From Stdlib Require Import List Lia Lqa.
Import ListNotations.

Set Implicit Arguments.

(* ================================================================= *)
(** ** Python exceptions *)

Inductive exn : Type :=
| ValueError      (* numpy: bad reshape, tuple unpacking of the shape *)
| cv2_error.      (* OpenCV assertion failure *)

Inductive result (A : Type) : Type :=
| Ok (a : A)
| Raise (e : exn).

Arguments Ok {A} a.
Arguments Raise {A} e.

Definition bind {A B : Type} (r : result A) (k : A -> result B) : result B :=
  match r with
  | Ok a => k a
  | Raise e => Raise e
  end.

Notation "x <- r ;; k" := (bind r (fun x => k))
  (at level 61, r at next level, right associativity).
Notation "' p <- r ;; k" := (bind r (fun x => match x with p => k end))
  (at level 61, p pattern, r at next level, right associativity).

(* ================================================================= *)
(** ** numpy arrays *)

Record ndarray (A : Type) : Type := mk_ndarray {
  shape : list nat;
  data  : list A          (* row-major *)
}.

Definition size_of (s : list nat) : nat := fold_right Nat.mul 1%nat s.

Definition size {A} (a : ndarray A) : nat := size_of (shape a).

(** The array holds as many elements as its shape says. *)
Definition wf_ndarray {A} (a : ndarray A) : Prop :=
  length (data a) = size a.

(** A camera image: height x width x 3. *)
Definition is_image {A} (a : ndarray A) : Prop :=
  exists h w, shape a = [h; w; 3%nat] /\ length (data a) = (h * w * 3)%nat.

(** [h, w, c = a.shape] *)
Definition unpack3 (s : list nat) : result (nat * nat * nat) :=
  match s with
  | [h; w; c] => Ok (h, w, c)
  | _ => Raise ValueError
  end.

Fixpoint rows3 {A} (l : list A) : list (A * A * A) :=
  match l with
  | a :: b :: c :: t => (a, b, c) :: rows3 t
  | _ => []
  end.

Definition flatten3 {A} (rows : list (A * A * A)) : list A :=
  flat_map (fun '(a, b, c) => [a; b; c]) rows.

(** [a.reshape(-1, 3)]: the rows of an (n, 3) array. *)
Definition reshape_rows3 {A} (a : ndarray A) : result (list (A * A * A)) :=
  if (size a mod 3 =? 0)%nat then Ok (rows3 (data a)) else Raise ValueError.

(** [rows.reshape(h, w, 3)] for an (n, 3) array. *)
Definition reshape_hw3 {A} (rows : list (A * A * A)) (h w : nat)
  : result (ndarray A) :=
  if (length rows * 3 =? h * w * 3)%nat
  then Ok (mk_ndarray [h; w; 3%nat] (flatten3 rows))
  else Raise ValueError.

Fixpoint zip_with {A B C} (f : A -> B -> C) (l : list A) (m : list B) : list C :=
  match l, m with
  | a :: l', b :: m' => f a b :: zip_with f l' m'
  | _, _ => []
  end.

(** Elementwise operations on arrays of equal shape. *)
Definition arr_map {A B} (f : A -> B) (a : ndarray A) : ndarray B :=
  mk_ndarray (shape a) (map f (data a)).

Definition arr_zip {A B C} (f : A -> B -> C) (a : ndarray A) (b : ndarray B)
  : ndarray C :=
  mk_ndarray (shape a) (zip_with f (data a) (data b)).

(* ================================================================= *)
(** ** Numbers *)

Definition vec3 : Type := (Q * Q * Q)%type.
Definition matrix : Type := (vec3 * vec3 * vec3)%type.   (* three rows *)

Definition row0 (m : matrix) : vec3 := fst (fst m).
Definition row1 (m : matrix) : vec3 := snd (fst m).
Definition row2 (m : matrix) : vec3 := snd m.

(** The floating-point operations the programs use. *)
Class FloatOps : Type := {
  fdiv32 : Q -> Q -> Q;          (* float32 [/] *)
  fadd   : Q -> Q -> Q;          (* float64 [+] *)
  fsub   : Q -> Q -> Q;          (* float64 [-] *)
  fmul   : Q -> Q -> Q;          (* float64 [*] *)
  fdot3  : vec3 -> vec3 -> Q;    (* float64 inner product of length 3,
                                    as computed inside [@] and [np.dot] *)
  linalg_inv : matrix -> matrix  (* [np.linalg.inv] on a 3x3 matrix *)
}.

Definition dot3 (a b : vec3) : Q :=
  let '(a0, a1, a2) := a in
  let '(b0, b1, b2) := b in
  a0 * b0 + a1 * b1 + a2 * b2.

Definition absdot3 (a b : vec3) : Q :=
  let '(a0, a1, a2) := a in
  let '(b0, b1, b2) := b in
  Qabs (a0 * b0) + Qabs (a1 * b1) + Qabs (a2 * b2).

Definition det3 (m : matrix) : Q :=
  let '((a, b, c), (d, e, f), (g, h, i)) := m in
  a * (e * i - f * h) - b * (d * i - f * g) + c * (d * h - e * g).

(** The inverse in exact arithmetic (adjugate over determinant). *)
Definition inv3_exact (m : matrix) : matrix :=
  let '((a, b, c), (d, e, f), (g, h, i)) := m in
  let dt := det3 m in
  (((e * i - f * h) / dt, (c * h - b * i) / dt, (b * f - c * e) / dt),
   ((f * g - d * i) / dt, (a * i - c * g) / dt, (c * d - a * f) / dt),
   ((d * h - e * g) / dt, (b * g - a * h) / dt, (a * e - b * d) / dt)).

Definition exact_ops : FloatOps := {|
  fdiv32 := Qdiv;
  fadd := Qplus;
  fsub := Qminus;
  fmul := Qmult;
  fdot3 := dot3;
  linalg_inv := inv3_exact
|}.

(** Unit roundoffs of binary32 and binary64, and the constant of a
    rounded inner product of three terms. *)
Definition u32 : Q := 1 # (2 ^ 24).
Definition u64 : Q := 1 # (2 ^ 53).
Definition gamma3 : Q := (3 * u64) / (1 - 3 * u64).

Definition vec_close (eta : Q) (a b : vec3) : Prop :=
  let '(a0, a1, a2) := a in
  let '(b0, b1, b2) := b in
  Qabs (a0 - b0) <= eta /\ Qabs (a1 - b1) <= eta /\ Qabs (a2 - b2) <= eta.

Definition matrix_close (eta : Q) (m n : matrix) : Prop :=
  vec_close eta (row0 m) (row0 n) /\
  vec_close eta (row1 m) (row1 n) /\
  vec_close eta (row2 m) (row2 n).

(** RGB to LMS, the matrix of both modules. *)
Definition RGB2LMS : matrix :=
  ((17.8824, 43.5161, 4.11935),
   (3.45565, 27.1554, 3.86714),
   (0.0299566, 0.184309, 1.46709)).

(** Entrywise accuracy asked of [np.linalg.inv] on [RGB2LMS]. *)
Definition inv_tol : Q := 1 # 1000000000.

(** The standard model of floating-point arithmetic: every operation
    returns the exact result with a relative error of at most one unit
    roundoff; an inner product of three terms is within [gamma3] of the
    exact one weighted by the absolute values, in whatever order (and with
    or without fused multiply-add) it is summed; the computed inverse of
    [RGB2LMS] is within [inv_tol] of the exact inverse. *)
Class FloatSpec (F : FloatOps) : Prop := {
  fdiv32_spec : forall x y, ~ y == 0 ->
    Qabs (fdiv32 x y - x / y) <= u32 * Qabs (x / y);
  fadd_spec : forall x y, Qabs (fadd x y - (x + y)) <= u64 * Qabs (x + y);
  fsub_spec : forall x y, Qabs (fsub x y - (x - y)) <= u64 * Qabs (x - y);
  fmul_spec : forall x y, Qabs (fmul x y - x * y) <= u64 * Qabs (x * y);
  fdot3_spec : forall a b, Qabs (fdot3 a b - dot3 a b) <= gamma3 * absdot3 a b;
  linalg_inv_spec : matrix_close inv_tol (linalg_inv RGB2LMS) (inv3_exact RGB2LMS)
}.

(** [rows @ m.T]: every row [v] becomes [(v . m0, v . m1, v . m2)]. *)
Definition matmul_T `{FloatOps} (rows : list vec3) (m : matrix) : list vec3 :=
  map (fun v => (fdot3 v (row0 m), fdot3 v (row1 m), fdot3 v (row2 m))) rows.

(** [np.dot(m, cols)] for a 3 x N array given by its columns. *)
Definition dot_cols `{FloatOps} (m : matrix) (cols : list vec3) : list vec3 :=
  map (fun v => (fdot3 (row0 m) v, fdot3 (row1 m) v, fdot3 (row2 m) v)) cols.

(** [np.clip(x, lo, hi)] is [minimum(maximum(x, lo), hi)]. *)
Definition clip (x lo hi : Q) : Q := Qmin (Qmax x lo) hi.

(** Conversion of a float to an integer truncates toward zero. *)
Definition Qtrunc (x : Q) : Z :=
  if Qle_bool 0 x then Qfloor x else Qceiling x.

(** [astype(np.uint8)]: the result is a byte.  Both programs clip before
    they cast, so the value cast lies in the range of a byte and the
    residue below leaves it as it is. *)
Definition to_uint8 (z : Z) : Z := (z mod 256)%Z.
Definition astype_uint8 (x : Q) : Z := to_uint8 (Qtrunc x).

(** [astype(float)] and [astype(np.float32)] of a byte are exact. *)
Definition astype_float (z : Z) : Q := inject_Z z.

Definition vmap {A B} (f : A -> B) (v : A * A * A) : B * B * B :=
  let '(a, b, c) := v in (f a, f b, f c).

Definition vzip {A B C} (f : A -> B -> C) (a : A * A * A) (b : B * B * B)
  : C * C * C :=
  let '(a0, a1, a2) := a in
  let '(b0, b1, b2) := b in
  (f a0 b0, f a1 b1, f a2 b2).

(* ================================================================= *)
(** ** colourblind_correction.py: class ColorBlindnessCorrector *)

Definition PROTANOPIA_SIM : matrix :=
  ((0, 2.02344, -2.52581),
   (0, 1, 0),
   (0, 0, 1)).

Definition DEUTERANOPIA_SIM : matrix :=
  ((1, 0, 0),
   (0.494207, 0, 1.24827),
   (0, 0, 1)).

Definition TRITANOPIA_SIM : matrix :=
  ((1, 0, 0),
   (0, 1, 0),
   (-0.395913, 0.801109, 0)).

(** The error-correction matrices built inside [daltonize]. *)
Definition protanopia_correction : matrix :=
  ((0, 0, 0),
   (0.7, 1, 0),
   (0.7, 0, 1)).

Definition deuteranopia_correction : matrix :=
  ((1, 0.7, 0),
   (0, 0, 0),
   (0, 0.7, 1)).

Definition tritanopia_correction : matrix :=
  ((1, 0, 0.7),
   (0, 1, 0.7),
   (0, 0, 0)).

Record ColorBlindnessCorrector : Type := {
  rgb2lms : matrix;
  lms2rgb : matrix;
  protanopia_sim : matrix;
  deuteranopia_sim : matrix;
  tritanopia_sim : matrix;
  current_mode : string
}.

Section ColourBlindCorrection.

Context {F : FloatOps}.

(** [ColorBlindnessCorrector.__init__] *)
Definition corrector_init : ColorBlindnessCorrector := {|
  rgb2lms := RGB2LMS;
  lms2rgb := linalg_inv RGB2LMS;
  protanopia_sim := PROTANOPIA_SIM;
  deuteranopia_sim := DEUTERANOPIA_SIM;
  tritanopia_sim := TRITANOPIA_SIM;
  current_mode := "normal"
|}.

Definition rgb_to_lms (self : ColorBlindnessCorrector) (rgb_image : ndarray Z)
  : result (ndarray Q) :=
  let rgb_normalized := arr_map (fun x => fdiv32 (astype_float x) 255) rgb_image in
  '(h, w, c) <- unpack3 (shape rgb_normalized) ;;
  rgb_reshaped <- reshape_rows3 rgb_normalized ;;
  let lms := matmul_T rgb_reshaped (rgb2lms self) in
  reshape_hw3 lms h w.

Definition lms_to_rgb (self : ColorBlindnessCorrector) (lms_image : ndarray Q)
  : result (ndarray Z) :=
  '(h, w, c) <- unpack3 (shape lms_image) ;;
  lms_reshaped <- reshape_rows3 lms_image ;;
  let rgb := matmul_T lms_reshaped (lms2rgb self) in
  let rgb := map (vmap (fun x => clip x 0 1)) rgb in
  let rgb := map (vmap (fun x => astype_uint8 (fmul x 255))) rgb in
  reshape_hw3 rgb h w.

Definition simulate_colorblindness (self : ColorBlindnessCorrector)
  (lms_image : ndarray Q) (cb_type : string) : result (ndarray Q) :=
  '(h, w, c) <- unpack3 (shape lms_image) ;;
  lms_reshaped <- reshape_rows3 lms_image ;;
  let apply sim_matrix := reshape_hw3 (matmul_T lms_reshaped sim_matrix) h w in
  if (cb_type =? "protanopia")%string then apply (protanopia_sim self)
  else if (cb_type =? "deuteranopia")%string then apply (deuteranopia_sim self)
  else if (cb_type =? "tritanopia")%string then apply (tritanopia_sim self)
  else Ok lms_image.

Definition daltonize (self : ColorBlindnessCorrector) (rgb_image : ndarray Z)
  (cb_type : string) : result (ndarray Z) :=
  lms_original <- rgb_to_lms self rgb_image ;;
  lms_simulated <- simulate_colorblindness self lms_original cb_type ;;
  let lms_error := arr_zip fsub lms_original lms_simulated in
  let continue error_correction :=
    '(h, w, c) <- unpack3 (shape lms_error) ;;
    lms_error_reshaped <- reshape_rows3 lms_error ;;
    lms_corrected_error <-
      reshape_hw3 (matmul_T lms_error_reshaped error_correction) h w ;;
    let lms_corrected := arr_zip fadd lms_original lms_corrected_error in
    lms_to_rgb self lms_corrected in
  if (cb_type =? "protanopia")%string then continue protanopia_correction
  else if (cb_type =? "deuteranopia")%string then continue deuteranopia_correction
  else if (cb_type =? "tritanopia")%string then continue tritanopia_correction
  else Ok rgb_image.

Definition process_frame (self : ColorBlindnessCorrector) (frame : ndarray Z)
  : result (ndarray Z) :=
  if (current_mode self =? "normal")%string then Ok frame
  else if existsb (String.eqb (current_mode self))
            ["protanopia"; "deuteranopia"; "tritanopia"]%string
  then daltonize self frame (current_mode self)
  else Ok frame.

End ColourBlindCorrection.

(** Python's [str.upper] on ASCII text. *)
Definition upper_ascii (c : ascii) : ascii :=
  let n := nat_of_ascii c in
  if ((97 <=? n) && (n <=? 122))%nat then ascii_of_nat (n - 32) else c.

Fixpoint upper (s : string) : string :=
  match s with
  | EmptyString => EmptyString
  | String c s' => String (upper_ascii c) (upper s')
  end.

Definition valid_modes : list string :=
  ["normal"; "protanopia"; "deuteranopia"; "tritanopia"]%string.

Definition with_mode (self : ColorBlindnessCorrector) (mode : string)
  : ColorBlindnessCorrector := {|
  rgb2lms := rgb2lms self;
  lms2rgb := lms2rgb self;
  protanopia_sim := protanopia_sim self;
  deuteranopia_sim := deuteranopia_sim self;
  tritanopia_sim := tritanopia_sim self;
  current_mode := mode
|}.

(** [set_mode] returns the object after the call and the line it prints;
    it never raises. *)
Definition set_mode (self : ColorBlindnessCorrector) (mode : string)
  : ColorBlindnessCorrector * string :=
  if existsb (String.eqb mode) valid_modes
  then (with_mode self mode, ("Mode changed to: " ++ upper mode)%string)
  else (self, ("Invalid mode: " ++ mode)%string).

(* ================================================================= *)
(** ** correction.py: class ColorCorrector *)

Record ColorCorrector : Type := {
  mode : string;
  lms_matrix : matrix;
  rgb_matrix_inv : matrix;
  sim_deuteranopia : matrix;
  err_mod : matrix
}.

Fixpoint rows4 {A} (l : list A) : list (A * A * A * A) :=
  match l with
  | a :: b :: c :: d :: t => (a, b, c, d) :: rows4 t
  | _ => []
  end.

(** [cv2.cvtColor(src, cv2.COLOR_BGR2RGB)] and [cv2.COLOR_RGB2BGR] on
    bytes: the source must not be empty and must have 3 or 4 channels;
    the first and third channel are exchanged and a fourth is dropped. *)
Definition cvtColor_swap (src : ndarray Z) : result (ndarray Z) :=
  match shape src with
  | [h; w; c] =>
      if (h * w =? 0)%nat then Raise cv2_error
      else if (c =? 3)%nat then
        Ok (mk_ndarray [h; w; 3%nat]
              (flatten3 (map (fun '(x, y, z) => (z, y, x)) (rows3 (data src)))))
      else if (c =? 4)%nat then
        Ok (mk_ndarray [h; w; 3%nat]
              (flatten3 (map (fun '(x, y, z, _) => (z, y, x)) (rows4 (data src)))))
      else Raise cv2_error
  | _ => Raise cv2_error
  end.

(** [h, w = a.shape[:2]] *)
Definition shape2 (s : list nat) : result (nat * nat) :=
  match s with
  | [h; w] | h :: w :: _ => Ok (h, w)
  | _ => Raise ValueError
  end.


Section Correction.

Context {F : FloatOps}.

(** [ColorCorrector.__init__] *)
Definition color_corrector_init (mode : string) : ColorCorrector := {|
  mode := mode;
  lms_matrix := RGB2LMS;
  rgb_matrix_inv := linalg_inv RGB2LMS;
  sim_deuteranopia := ((1, 0, 0), (0.494207, 0, 1.24827), (0, 0, 1));
  err_mod := ((0, 0, 0), (0.7, 1, 0), (0.7, 0, 1))
|}.

Definition apply_correction (self : ColorCorrector) (image : ndarray Z)
  : result (ndarray Z) :=
  let img_float := arr_map astype_float image in
  img_rgb8 <- cvtColor_swap (arr_map astype_uint8 img_float) ;;
  let img_rgb := arr_map astype_float img_rgb8 in
  '(h, w) <- shape2 (shape img_rgb) ;;
  img_flat <- reshape_rows3 img_rgb ;;       (* the columns of the 3 x N array *)
  let lms := dot_cols (lms_matrix self) img_flat in
  let lms_sim := dot_cols (sim_deuteranopia self) lms in
  let rgb_sim := dot_cols (rgb_matrix_inv self) lms_sim in
  let error := zip_with (vzip fsub) img_flat rgb_sim in
  let correction := dot_cols (err_mod self) error in
  let dtpn := zip_with (vzip fadd) img_flat correction in
  let dtpn := map (vmap (fun x => clip x 0 255)) dtpn in
  dtpn <- reshape_hw3 dtpn h w ;;
  cvtColor_swap (arr_map astype_uint8 dtpn).

End Correction.

(* ================================================================= *)
(** ** main.py: the camera loop *)

(** A detection [(x1, y1, x2, y2, cls_id, conf)]. *)
Definition detection : Type := (Z * Z * Z * Z * Z * Q)%type.

(** Python's adjustment of a slice bound to a sequence of length [len]. *)
Definition adjust_index (i len : Z) : Z :=
  if (i <? 0)%Z then Z.max 0 (i + len) else Z.min i len.

(** The rows and columns that [frame[y1:y2, x1:x2]] selects. *)
Record roi : Type := mk_roi {
  row_start : Z; row_stop : Z;
  col_start : Z; col_stop : Z
}.

Definition slice2 (h w y1 y2 x1 x2 : Z) : roi :=
  mk_roi (adjust_index y1 h) (adjust_index y2 h)
         (adjust_index x1 w) (adjust_index x2 w).

Definition roi_rows (r : roi) : Z := Z.max 0 (row_stop r - row_start r).
Definition roi_cols (r : roi) : Z := Z.max 0 (col_stop r - col_start r).

(** [roi.size] of a three-channel frame. *)
Definition roi_size (r : roi) : Z := (roi_rows r * roi_cols r * 3)%Z.

(** "Ensure coordinates are within frame bounds". *)
Definition clamp (h w : Z) (d : detection) : Z * Z * Z * Z :=
  let '(x1, y1, x2, y2, _, _) := d in
  let '(x1, y1) := (Z.max 0 x1, Z.max 0 y1) in
  let '(x2, y2) := (Z.min w x2, Z.min h y2) in
  (x1, y1, x2, y2).

(** One turn of the [for] loop over the detections: the region handed to
    [corrector.apply_correction] (and written back), if any. *)
Definition process_detection (h w : Z) (d : detection) : option roi :=
  let '(x1, y1, x2, y2) := clamp h w d in
  let r := slice2 h w y1 y2 x1 x2 in
  if (roi_size r >? 0)%Z then Some r else None.

Fixpoint filter_map {A B} (f : A -> option B) (l : list A) : list B :=
  match l with
  | [] => []
  | a :: l' =>
      match f a with
      | Some b => b :: filter_map f l'
      | None => filter_map f l'
      end
  end.

Definition SKIP_FRAMES : nat := 5.

(** A frame read from the camera: a height x width x 3 array of bytes. *)
Record Frame : Type := {
  frame_h : nat;
  frame_w : nat;
  frame_data : list Z
}.

Record loop_state : Type := {
  frame_count : nat;
  current_detections : list detection
}.

(** What one iteration of the [while] loop did. *)
Record iteration : Type := {
  detector_ran : bool;                 (* [detector.detect(frame)] was called *)
  detections_used : list detection;    (* the list the [for] loop went over *)
  corrected : list roi                 (* the regions given to the corrector *)
}.

Section MainLoop.

(** [ObjectDetector.detect], the YOLO model behind it being external. *)
Variable detect : Frame -> list detection.

(** The loop variables before the first frame. *)
Definition loop_init : loop_state :=
  {| frame_count := 0; current_detections := [] |}.

(** The body of [while True], for a frame that was read.  [skip] stands
    for [SKIP_FRAMES] and is positive. *)
Definition loop_body (skip : nat) (st : loop_state) (frame : Frame)
  : loop_state * iteration :=
  let refresh := (frame_count st mod skip =? 0)%nat in
  let dets := if refresh then detect frame else current_detections st in
  let h := Z.of_nat (frame_h frame) in
  let w := Z.of_nat (frame_w frame) in
  ({| frame_count := S (frame_count st); current_detections := dets |},
   {| detector_ran := refresh;
      detections_used := dets;
      corrected := filter_map (process_detection h w) dets |}).

(** The iterations over the frames the camera delivers, until a read
    fails or [q] is pressed. *)
Fixpoint run_loop (skip : nat) (st : loop_state) (frames : list Frame)
  : list iteration :=
  match frames with
  | [] => []
  | frame :: rest =>
      let '(st', it) := loop_body skip st frame in
      it :: run_loop skip st' rest
  end.

Definition main_loop (frames : list Frame) : list iteration :=
  run_loop SKIP_FRAMES loop_init frames.

End MainLoop.

(* ================================================================= *)
(** ** The programs seen pixel by pixel

    The array programs above treat every pixel alike.  These functions
    are what they do to one pixel; the lemmas [daltonize_pixels] and
    [apply_correction_pixels] below prove it. *)

Definition pixel : Type := (Z * Z * Z)%type.

Definition in_byte (x : Z) : Prop := (0 <= x <= 255)%Z.

(** Every channel of every pixel is a byte. *)
Definition valid_image (a : ndarray Z) : Prop := Forall in_byte (data a).

Section PixelView.

Context {F : FloatOps}.

(** One row of [rows @ m.T]. *)
Definition mv (m : matrix) (v : vec3) : vec3 :=
  (fdot3 v (row0 m), fdot3 v (row1 m), fdot3 v (row2 m)).

(** One column of [np.dot(m, cols)]. *)
Definition mv_col (m : matrix) (v : vec3) : vec3 :=
  (fdot3 (row0 m) v, fdot3 (row1 m) v, fdot3 (row2 m) v).

Definition normalize_px (p : pixel) : vec3 :=
  vmap (fun x => fdiv32 (astype_float x) 255) p.

Definition to_lms_px (self : ColorBlindnessCorrector) (p : pixel) : vec3 :=
  mv (rgb2lms self) (normalize_px p).

Definition to_rgb_px (self : ColorBlindnessCorrector) (v : vec3) : pixel :=
  vmap (fun x => astype_uint8 (fmul x 255))
       (vmap (fun x => clip x 0 1) (mv (lms2rgb self) v)).

Definition daltonize_px (self : ColorBlindnessCorrector) (sim ec : matrix)
  (p : pixel) : pixel :=
  let lms_original := to_lms_px self p in
  let lms_simulated := mv sim lms_original in
  let lms_error := vzip fsub lms_original lms_simulated in
  let lms_corrected := vzip fadd lms_original (mv ec lms_error) in
  to_rgb_px self lms_corrected.

Definition swap_px {A} (p : A * A * A) : A * A * A :=
  let '(x, y, z) := p in (z, y, x).

Definition apply_correction_px (self : ColorCorrector) (p : pixel) : pixel :=
  let img_flat := vmap astype_float (swap_px (vmap to_uint8 p)) in
  let lms := mv_col (lms_matrix self) img_flat in
  let lms_sim := mv_col (sim_deuteranopia self) lms in
  let rgb_sim := mv_col (rgb_matrix_inv self) lms_sim in
  let error := vzip fsub img_flat rgb_sim in
  let correction := mv_col (err_mod self) error in
  let dtpn := vzip fadd img_flat correction in
  swap_px (vmap astype_uint8 (vmap (fun x => clip x 0 255) dtpn)).

End PixelView.

(** Round numerals above the unit roundoffs [u32], and [u64] and [gamma3]. *)
Definition eps32 : Q := 0.0000001.
Definition eps64 : Q := 0.000000000000001.

(** A round numeral above [inv_tol] plus the rounding of [INV_DEC]. *)
Definition inv_eta : Q := 0.0000000011.

(** The exact inverse of [RGB2LMS] rounded to fifteen decimals. *)
Definition INV_DEC : matrix :=
  ((0.080944447904977, -0.130504409160321, 0.116721066439603),
   (-0.010248533514607, 0.054019326635999, -0.113614708214043),
   (-0.000365296937861, -0.004121614685876, 0.693511404860859)).

(** The simulation and error-correction matrices [daltonize] selects. *)
Definition sim_matrix_of (self : ColorBlindnessCorrector) (cb_type : string)
  : option (matrix * matrix) :=
  if (cb_type =? "protanopia")%string
  then Some (protanopia_sim self, protanopia_correction)
  else if (cb_type =? "deuteranopia")%string
  then Some (deuteranopia_sim self, deuteranopia_correction)
  else if (cb_type =? "tritanopia")%string
  then Some (tritanopia_sim self, tritanopia_correction)
  else None.

(** The image of the concrete scenario: 2 x 1, a red and a green pixel. *)
Definition red_green : ndarray Z :=
  mk_ndarray [1; 2; 3]%nat [255; 0; 0; 0; 255; 0]%Z.

(** A single green pixel. *)
Definition green : ndarray Z := mk_ndarray [1; 1; 3]%nat [0; 255; 0]%Z.

(** Frames a camera does not deliver: no columns; four channels. *)
Definition zero_width : ndarray Z := mk_ndarray [4; 0; 3]%nat [].
Definition four_channels : ndarray Z :=
  mk_ndarray [1; 1; 4]%nat [10; 20; 30; 255]%Z.

(** A frame is malformed when it has no rows, no columns, or a number of
    channels other than three. *)
Definition malformed {A} (a : ndarray A) : Prop :=
  match shape a with
  | [h; w; c] => h = 0%nat \/ w = 0%nat \/ c <> 3%nat
  | _ => True
  end.

(** A 640 x 480 camera frame, black. *)
Definition vga_frame : Frame :=
  {| frame_h := 480; frame_w := 640; frame_data := repeat 0%Z (480 * 640 * 3) |}.

(** A detection box that lies wholly to the left of the frame. *)
Definition box_left_of_frame : detection :=
  ((-20)%Z, 10%Z, (-5)%Z, 50%Z, 9%Z, 0.9%Q).

(** A detector that reports one box, as wide as the frame is high. *)
Definition square_detector (frame : Frame) : list detection :=
  [(0%Z, 0%Z, Z.of_nat (frame_h frame), Z.of_nat (frame_h frame), 9%Z, 0.9%Q)].

(** Seven small frames of different heights. *)
Definition seven_frames : list Frame :=
  map (fun h => {| frame_h := h; frame_w := 8; frame_data := repeat 0%Z (h * 8 * 3) |})
      [1; 2; 3; 4; 5; 6; 7]%nat.

(** Equality of strings up to the case of the letters. *)
Definition eq_nocase (s t : string) : Prop := upper s = upper t.

(* ================================================================= *)
(** ** colourblind_correction.py: class ColorBlindnessApp *)

(** Python's [ord] of a character. *)
Definition ord (c : ascii) : Z := Z.of_nat (nat_of_ascii c).

(** The keyboard handling that ends an iteration of
    [ColorBlindnessApp.run]: [waitKey] is what [cv2.waitKey(1)] returned
    (-1 when no key was pressed).  The result is [None] when the loop
    breaks, otherwise the corrector and the lines printed. *)
Definition handle_key (self : ColorBlindnessCorrector) (waitKey : Z)
  : option (ColorBlindnessCorrector * list string) :=
  let key := Z.land waitKey 255 in
  let set m := let '(s, line) := set_mode self m in Some (s, [line]) in
  if (key =? ord "q")%Z || (key =? ord "Q")%Z then None
  else if (key =? ord "n")%Z || (key =? ord "N")%Z then set "normal"%string
  else if (key =? ord "p")%Z || (key =? ord "P")%Z then set "protanopia"%string
  else if (key =? ord "d")%Z || (key =? ord "D")%Z then set "deuteranopia"%string
  else if (key =? ord "t")%Z || (key =? ord "T")%Z then set "tritanopia"%string
  else Some (self, []).

Section App.

Context {F : FloatOps}.


End App.


(** Calls of [set_mode] one after the other. *)
Definition set_modes (self : ColorBlindnessCorrector) (modes : list string)
  : ColorBlindnessCorrector :=
  fold_left (fun s m => fst (set_mode s m)) modes self.

(** The last of the names that [set_mode] accepts, if there is one. *)
Definition last_valid_mode (modes : list string) : option string :=
  fold_left (fun acc m => if existsb (String.eqb m) valid_modes then Some m else acc)
            modes None.

(* ================================================================= *)
(** ** detector.py: class ObjectDetector *)

(** A box of a YOLO result: corners, class and confidence, all floats. *)
Record box : Type := {
  box_xyxy : Q * Q * Q * Q;
  box_cls : Q;
  box_conf : Q
}.

Record ObjectDetector : Type := {
  model : Frame -> list (list box);   (* the results of [self.model(frame)],
                                         each with its boxes *)
  target_classes : list Z
}.

(** [ObjectDetector.__init__], for a loaded model. *)
Definition object_detector_init (yolo : Frame -> list (list box)) : ObjectDetector :=
  {| model := yolo; target_classes := [9; 11]%Z |}.

(** The body of the inner loop of [detect]: the detection appended for a
    box, if any. *)
Definition detection_of_box (self : ObjectDetector) (b : box) : option detection :=
  let cls_id := Qtrunc (box_cls b) in
  if existsb (Z.eqb cls_id) (target_classes self) then
    let '(x1, y1, x2, y2) := box_xyxy b in
    Some (Qtrunc x1, Qtrunc y1, Qtrunc x2, Qtrunc y2, cls_id, box_conf b)
  else None.

Definition detect (self : ObjectDetector) (frame : Frame) : list detection :=
  flat_map (filter_map (detection_of_box self)) (model self frame).

(** The class of a detection. *)
Definition cls_id_of (d : detection) : Z := let '(_, _, _, _, c, _) := d in c.

(** A model that reports, on every frame, a person, a traffic light that
    reaches over the right edge of the frame, and a stop sign. *)
Definition three_boxes (frame : Frame) : list (list box) :=
  [[ {| box_xyxy := (1.5, 2.25, 30.75, 40); box_cls := 0; box_conf := 0.9 |};
     {| box_xyxy := (5.9, 0.2, 700.5, 3.99); box_cls := 9; box_conf := 0.8 |};
     {| box_xyxy := (2, 1, 6.5, 4.5); box_cls := 11; box_conf := 0.7 |} ]].

(** What [detect] makes of them. *)
Definition three_boxes_detections : list detection :=
  [(5%Z, 0%Z, 700%Z, 3%Z, 9%Z, 0.8%Q); (2%Z, 1%Z, 6%Z, 4%Z, 11%Z, 0.7%Q)].

(** A box that reaches over the upper right corner of a 640 x 480 frame. *)
Definition box_over_corner : detection :=
  (600%Z, (-7)%Z, 700%Z, 30%Z, 9%Z, 0.5%Q).

(* ================================================================= *)
(** ** More about the numbers *)

(** A floating-point sum is exact when the exact sum is an integer that
    binary64 holds. *)
Definition fadd_exact_on_integers (F : FloatOps) : Prop :=
  forall (x y : Q) (z : Z),
    x + y == inject_Z z -> (Z.abs z <= 2 ^ 53)%Z -> fadd x y == inject_Z z.

(** A pixel with three equal channels. *)
Definition grey (p : pixel) : Prop := let '(x0, x1, x2) := p in x0 = x1 /\ x1 = x2.

(** What the simulation of a deficiency computes from an LMS triple in
    exact arithmetic: the missing cone response is rebuilt from the two
    others, which are kept. *)
Definition simulated (cb_type : string) (v : vec3) : vec3 :=
  let '(l, m, s) := v in
  if (cb_type =? "protanopia")%string then (2.02344 * m - 2.52581 * s, m, s)
  else if (cb_type =? "deuteranopia")%string
  then (l, 0.494207 * l + 1.24827 * s, s)
  else if (cb_type =? "tritanopia")%string
  then (l, m, -0.395913 * l + 0.801109 * m)
  else v.

(** The size of the two cone responses a deficiency leaves. *)
Definition remaining (cb_type : string) (v : vec3) : Q :=
  let '(l, m, s) := v in
  if (cb_type =? "protanopia")%string then Qabs m + Qabs s
  else if (cb_type =? "deuteranopia")%string then Qabs l + Qabs s
  else if (cb_type =? "tritanopia")%string then Qabs l + Qabs m
  else 0.

(** A small LMS image. *)
Definition lms_two : ndarray Q :=
  mk_ndarray [1; 2; 3]%nat [43.5; 27.1; 0.18; 10; 20; 1.5].

(** The range of the LMS triple of a pixel of bytes. *)
Definition lms_in_range (v : vec3) : Prop :=
  let '(l, m, s) := v in
  0 <= l /\ l <= 65.52 /\ 0 <= m /\ m <= 34.48 /\ 0 <= s /\ s <= 1.69.

(** How many iterations ran the detector. *)
Definition detector_runs (its : list iteration) : nat :=
  length (filter detector_ran its).

(** A box that lies in a frame of height [h] and width [w]. *)
Definition box_in_frame (h w : Z) (b : box) : Prop :=
  let '(x1, y1, x2, y2) := box_xyxy b in
  0 <= x1 /\ x1 <= x2 /\ x2 <= inject_Z w /\
  0 <= y1 /\ y1 <= y2 /\ y2 <= inject_Z h.

(** A stop sign in a 640 x 480 frame. *)
Definition stop_sign : box :=
  {| box_xyxy := (100.7, 20.2, 180.1, 99.9); box_cls := 11; box_conf := 0.6 |}.

(** Every channel of [q] is the channel of [p] or one less. *)
Definition one_below (p q : pixel) : Prop :=
  let '(x0, x1, x2) := p in
  let '(y0, y1, y2) := q in
  (x0 - 1 <= y0 <= x0)%Z /\ (x1 - 1 <= y1 <= x1)%Z /\ (x2 - 1 <= y2 <= x2)%Z.

(** The third channel of a pixel: red, in the BGR order of OpenCV. *)
Definition third (p : pixel) : Z := let '(_, _, z) := p in z.

(** The pixels of an image. *)
Definition pixels (a : ndarray Z) : list pixel := rows3 (data a).

(** What [daltonize] does to every pixel, for a deficiency name. *)
Definition daltonize_pixel_map {F : FloatOps} (self : ColorBlindnessCorrector)
  (cb_type : string) (p : pixel) : pixel :=
  match sim_matrix_of self cb_type with
  | Some (sim, ec) => daltonize_px self sim ec p
  | None => p
  end.


(** A 2 x 2 image of greys and an image with a red, a grey and two other
    pixels. *)
Definition greys : ndarray Z :=
  mk_ndarray [2; 2; 3]%nat [0; 0; 0; 100; 100; 100; 128; 128; 128; 255; 255; 255]%Z.

Definition four_pixels : ndarray Z :=
  mk_ndarray [2; 2; 3]%nat [255; 0; 0; 100; 100; 100; 12; 200; 7; 255; 0; 0]%Z.

(* ================================================================= *)
(** * Properties *)

(** ** Lists of triples *)

Lemma flatten3_cons {A} (a b c : A) (rows : list (A * A * A)) :
  flatten3 ((a, b, c) :: rows) = a :: b :: c :: flatten3 rows.
Proof. reflexivity. Qed.

Lemma rows3_flatten3 {A} (rows : list (A * A * A)) :
  rows3 (flatten3 rows) = rows.
Proof.
  induction rows as [|[[a b] c] rows IH]; [reflexivity|].
  rewrite flatten3_cons. cbn [rows3]. now rewrite IH.
Qed.

Lemma length_flatten3 {A} (rows : list (A * A * A)) :
  length (flatten3 rows) = (length rows * 3)%nat.
Proof.
  induction rows as [|[[a b] c] rows IH]; [reflexivity|].
  rewrite flatten3_cons. cbn [length]. rewrite IH. lia.
Qed.

(** A list of [n * 3] elements is [n] triples. *)
Lemma rows3_spec {A} (n : nat) : forall l : list A,
  length l = (n * 3)%nat ->
  length (rows3 l) = n /\ flatten3 (rows3 l) = l.
Proof.
  induction n as [|n IH]; intros l Hl.
  - destruct l; [split; reflexivity | discriminate].
  - destruct l as [|a [|b [|c t]]]; try discriminate.
    simpl in Hl. injection Hl as Hl.
    destruct (IH t Hl) as [Hn Hf].
    cbn [rows3 length]. rewrite flatten3_cons. split; [now rewrite Hn | now rewrite Hf].
Qed.

(** In general [rows3] drops an incomplete last triple. *)
Lemma length_rows3 {A} (l : list A) : length (rows3 l) = (length l / 3)%nat.
Proof.
  assert (H : forall n (l : list A), (length l < n)%nat ->
              length (rows3 l) = (length l / 3)%nat).
  { induction n as [|n IH]; intros m Hm; [lia|].
    destruct m as [|a [|b [|c t]]]; try reflexivity.
    cbn [rows3 length].
    rewrite IH by (simpl in Hm; lia).
    change (S (S (S (length t)))) with (3 + length t)%nat.
    replace (3 + length t)%nat with (length t + 1 * 3)%nat by lia.
    rewrite Nat.div_add by discriminate. lia. }
  apply (H (S (length l))). lia.
Qed.

Lemma rows3_map {A B} (f : A -> B) (l : list A) :
  rows3 (map f l) = map (vmap f) (rows3 l).
Proof.
  assert (H : forall n (l : list A), (length l < n)%nat ->
              rows3 (map f l) = map (vmap f) (rows3 l)).
  { induction n as [|n IH]; intros m Hm; [lia|].
    destruct m as [|a [|b [|c t]]]; try reflexivity.
    cbn [rows3 map vmap]. f_equal. apply IH. simpl in Hm. lia. }
  apply (H (S (length l))). lia.
Qed.

Lemma flatten3_map_vmap {A B} (f : A -> B) (rows : list (A * A * A)) :
  flatten3 (map (vmap f) rows) = map f (flatten3 rows).
Proof.
  induction rows as [|[[a b] c] rows IH]; [reflexivity|].
  cbn [map vmap]. rewrite !flatten3_cons. cbn [map]. now rewrite IH.
Qed.

Lemma zip_with_flatten3 {A B C} (f : A -> B -> C) rows1 rows2 :
  zip_with f (flatten3 rows1) (flatten3 rows2)
  = flatten3 (zip_with (vzip f) rows1 rows2).
Proof.
  revert rows2.
  induction rows1 as [|[[a b] c] rows1 IH]; intros [|[[a' b'] c'] rows2];
    try reflexivity.
  cbn [zip_with vzip]. rewrite !flatten3_cons. cbn [zip_with]. now rewrite IH.
Qed.

Lemma zip_with_map {A B C D} (f : B -> C -> D) (g : A -> B) (h : A -> C) l :
  zip_with f (map g l) (map h l) = map (fun x => f (g x) (h x)) l.
Proof.
  induction l as [|a l IH]; simpl; [reflexivity | now rewrite IH].
Qed.

Lemma zip_with_map_r {A B C} (f : A -> B -> C) (h : A -> B) l :
  zip_with f l (map h l) = map (fun x => f x (h x)) l.
Proof.
  induction l as [|a l IH]; simpl; [reflexivity | now rewrite IH].
Qed.

Lemma Forall_flatten3 {A} (P : A -> Prop) (rows : list (A * A * A)) :
  Forall (fun '(a, b, c) => P a /\ P b /\ P c) rows ->
  Forall P (flatten3 rows).
Proof.
  induction 1 as [|[[a b] c] rows (Ha & Hb & Hc) _ IH].
  - constructor.
  - rewrite flatten3_cons. repeat constructor; assumption.
Qed.

Lemma Forall_rows3 {A} (P : A -> Prop) (l : list A) :
  Forall P l -> Forall (fun '(a, b, c) => P a /\ P b /\ P c) (rows3 l).
Proof.
  assert (H : forall n (l : list A), (length l < n)%nat -> Forall P l ->
              Forall (fun '(a, b, c) => P a /\ P b /\ P c) (rows3 l)).
  { induction n as [|n IH]; intros m Hm HP; [lia|].
    destruct m as [|a [|b [|c t]]]; try constructor.
    - inversion HP as [|? ? Ha HP1]; subst.
      inversion HP1 as [|? ? Hb HP2]; subst.
      inversion HP2 as [|? ? Hc HP3]; subst. auto.
    - apply IH; [simpl in Hm; lia|].
      inversion HP as [|? ? Ha HP1]; subst.
      inversion HP1 as [|? ? Hb HP2]; subst.
      inversion HP2 as [|? ? Hc HP3]; subst. exact HP3. }
  apply (H (S (length l))). lia.
Qed.

(** ** Reshaping *)

Lemma size_hw3 (h w : nat) : size_of [h; w; 3%nat] = (h * w * 3)%nat.
Proof. unfold size_of, fold_right. lia. Qed.

Lemma reshape_rows3_image {A} (h w : nat) (l : list A) :
  reshape_rows3 (mk_ndarray [h; w; 3%nat] l) = Ok (rows3 l).
Proof.
  unfold reshape_rows3, size. cbn [shape data].
  rewrite size_hw3, Nat.Div0.mod_mul. reflexivity.
Qed.

Lemma reshape_hw3_ok {A} (h w : nat) (rows : list (A * A * A)) :
  length rows = (h * w)%nat ->
  reshape_hw3 rows h w = Ok (mk_ndarray [h; w; 3%nat] (flatten3 rows)).
Proof.
  intros Hlen. unfold reshape_hw3. rewrite Hlen, Nat.eqb_refl. reflexivity.
Qed.

Lemma image_rows {A} (a : ndarray A) (h w : nat) :
  shape a = [h; w; 3%nat] -> length (data a) = (h * w * 3)%nat ->
  length (rows3 (data a)) = (h * w)%nat /\ flatten3 (rows3 (data a)) = data a.
Proof. intros _ Hlen. now apply rows3_spec. Qed.

(** ** [daltonize], pixel by pixel *)

Section DaltonizePixels.

Context {F : FloatOps}.

Lemma matmul_T_map (rows : list vec3) (m : matrix) :
  matmul_T rows m = map (mv m) rows.
Proof. reflexivity. Qed.

Lemma dot_cols_map (m : matrix) (cols : list vec3) :
  dot_cols m cols = map (mv_col m) cols.
Proof. reflexivity. Qed.

Lemma rgb_to_lms_pixels (self : ColorBlindnessCorrector) (img : ndarray Z) h w :
  shape img = [h; w; 3%nat] -> length (data img) = (h * w * 3)%nat ->
  rgb_to_lms self img
  = Ok (mk_ndarray [h; w; 3%nat]
          (flatten3 (map (to_lms_px self) (rows3 (data img))))).
Proof.
  intros Hs Hl. destruct (image_rows img Hs Hl) as [Hn _].
  unfold rgb_to_lms, arr_map. cbn [shape]. rewrite Hs. cbn [unpack3 bind].
  rewrite reshape_rows3_image. cbn [bind].
  rewrite rows3_map, matmul_T_map, map_map.
  apply reshape_hw3_ok. now rewrite length_map.
Qed.

Lemma lms_to_rgb_pixels (self : ColorBlindnessCorrector) (rows : list vec3) h w :
  length rows = (h * w)%nat ->
  lms_to_rgb self (mk_ndarray [h; w; 3%nat] (flatten3 rows))
  = Ok (mk_ndarray [h; w; 3%nat] (flatten3 (map (to_rgb_px self) rows))).
Proof.
  intros Hn. unfold lms_to_rgb. cbn [shape unpack3 bind].
  rewrite reshape_rows3_image. cbn [bind].
  rewrite rows3_flatten3, matmul_T_map, !map_map.
  apply reshape_hw3_ok. now rewrite length_map.
Qed.

Lemma simulate_pixels (self : ColorBlindnessCorrector) (rows : list vec3) h w
  (cb_type : string) :
  length rows = (h * w)%nat ->
  simulate_colorblindness self (mk_ndarray [h; w; 3%nat] (flatten3 rows)) cb_type
  = Ok (mk_ndarray [h; w; 3%nat]
          (flatten3 match sim_matrix_of self cb_type with
                    | Some (sim, _) => map (mv sim) rows
                    | None => rows
                    end)).
Proof.
  intros Hn. unfold simulate_colorblindness, sim_matrix_of.
  cbn [shape unpack3 bind]. rewrite reshape_rows3_image. cbn [bind].
  rewrite rows3_flatten3.
  destruct (cb_type =? "protanopia")%string;
    [|destruct (cb_type =? "deuteranopia")%string;
      [|destruct (cb_type =? "tritanopia")%string]];
    try (rewrite matmul_T_map; apply reshape_hw3_ok; now rewrite length_map).
  reflexivity.
Qed.

(** With an unknown deficiency name, [daltonize] returns its argument. *)
Lemma daltonize_other (self : ColorBlindnessCorrector) (img : ndarray Z)
  (cb_type : string) :
  is_image img -> sim_matrix_of self cb_type = None ->
  daltonize self img cb_type = Ok img.
Proof.
  intros (h & w & Hs & Hl) Hnone. unfold daltonize.
  rewrite (rgb_to_lms_pixels self img Hs Hl). cbn [bind].
  destruct (image_rows img Hs Hl) as [Hn _].
  rewrite simulate_pixels by now rewrite length_map. cbn [bind].
  unfold sim_matrix_of in Hnone.
  destruct (cb_type =? "protanopia")%string; [discriminate|].
  destruct (cb_type =? "deuteranopia")%string; [discriminate|].
  destruct (cb_type =? "tritanopia")%string; [discriminate|].
  reflexivity.
Qed.

(** With one of the three deficiency names, [daltonize] maps
    [daltonize_px] over the pixels. *)
Lemma daltonize_pixels (self : ColorBlindnessCorrector) (img : ndarray Z)
  (cb_type : string) (sim ec : matrix) h w :
  shape img = [h; w; 3%nat] -> length (data img) = (h * w * 3)%nat ->
  sim_matrix_of self cb_type = Some (sim, ec) ->
  daltonize self img cb_type
  = Ok (mk_ndarray [h; w; 3%nat]
          (flatten3 (map (daltonize_px self sim ec) (rows3 (data img))))).
Proof.
  intros Hs Hl Hsome. unfold daltonize.
  rewrite (rgb_to_lms_pixels self img Hs Hl). cbn [bind].
  destruct (image_rows img Hs Hl) as [Hn _].
  rewrite simulate_pixels by now rewrite length_map. cbn [bind].
  rewrite Hsome.
  set (px := rows3 (data img)) in *.
  assert (Hcont : forall ec',
    ec' = ec ->
    ('(h0, w0, _) <-
       unpack3 (shape (arr_zip fsub
          (mk_ndarray [h; w; 3%nat] (flatten3 (map (to_lms_px self) px)))
          (mk_ndarray [h; w; 3%nat]
             (flatten3 (map (mv sim) (map (to_lms_px self) px)))))) ;;
     lms_error_reshaped <-
       reshape_rows3 (arr_zip fsub
          (mk_ndarray [h; w; 3%nat] (flatten3 (map (to_lms_px self) px)))
          (mk_ndarray [h; w; 3%nat]
             (flatten3 (map (mv sim) (map (to_lms_px self) px))))) ;;
     lms_corrected_error <-
       reshape_hw3 (matmul_T lms_error_reshaped ec') h0 w0 ;;
     lms_to_rgb self
       (arr_zip fadd
          (mk_ndarray [h; w; 3%nat] (flatten3 (map (to_lms_px self) px)))
          lms_corrected_error))
    = Ok (mk_ndarray [h; w; 3%nat]
            (flatten3 (map (daltonize_px self sim ec) px)))).
  { intros ec' ->. unfold arr_zip. cbn [shape data unpack3 bind].
    rewrite reshape_rows3_image. cbn [bind].
    rewrite zip_with_flatten3, rows3_flatten3, zip_with_map_r, map_map.
    rewrite matmul_T_map, map_map.
    rewrite reshape_hw3_ok by now rewrite length_map. cbn [bind shape data].
    rewrite zip_with_flatten3, zip_with_map.
    rewrite lms_to_rgb_pixels by now rewrite length_map.
    rewrite map_map. reflexivity. }
  unfold sim_matrix_of in Hsome.
  destruct (cb_type =? "protanopia")%string;
    [|destruct (cb_type =? "deuteranopia")%string;
      [|destruct (cb_type =? "tritanopia")%string]];
    try discriminate; injection Hsome as <- Hec; now apply Hcont.
Qed.

End DaltonizePixels.

(** ** [apply_correction], pixel by pixel *)

Lemma Qtrunc_inject_Z (z : Z) : Qtrunc (inject_Z z) = z.
Proof.
  unfold Qtrunc. destruct (Qle_bool 0 (inject_Z z)).
  - apply Qfloor_Z.
  - apply Qceiling_Z.
Qed.

Lemma astype_uint8_float (z : Z) : astype_uint8 (astype_float z) = to_uint8 z.
Proof. unfold astype_uint8, astype_float. now rewrite Qtrunc_inject_Z. Qed.

Lemma cvtColor_swap_image (h w : nat) (l : list Z) :
  (h * w)%nat <> 0%nat ->
  cvtColor_swap (mk_ndarray [h; w; 3%nat] l)
  = Ok (mk_ndarray [h; w; 3%nat] (flatten3 (map swap_px (rows3 l)))).
Proof.
  intros Hne. unfold cvtColor_swap. cbn [shape data].
  destruct (Nat.eqb_spec (h * w) 0); [contradiction|]. reflexivity.
Qed.

Section CorrectionPixels.

Context {F : FloatOps}.

Lemma apply_correction_pixels (self : ColorCorrector) (img : ndarray Z) h w :
  shape img = [h; w; 3%nat] -> length (data img) = (h * w * 3)%nat ->
  (h * w)%nat <> 0%nat ->
  apply_correction self img
  = Ok (mk_ndarray [h; w; 3%nat]
          (flatten3 (map (apply_correction_px self) (rows3 (data img))))).
Proof.
  intros Hs Hl Hne. destruct (image_rows img Hs Hl) as [Hn _].
  unfold apply_correction, arr_map. cbn [shape data]. rewrite Hs.
  rewrite cvtColor_swap_image by exact Hne. cbn [bind shape data shape2].
  rewrite reshape_rows3_image. cbn [bind].
  rewrite !dot_cols_map.
  rewrite map_map, (map_ext _ _ astype_uint8_float).
  rewrite <- flatten3_map_vmap, rows3_flatten3, !map_map.
  rewrite rows3_map, !map_map.
  rewrite zip_with_map, map_map, zip_with_map, map_map.
  rewrite reshape_hw3_ok by now rewrite length_map. cbn [bind shape data].
  rewrite cvtColor_swap_image by exact Hne.
  rewrite <- flatten3_map_vmap, rows3_flatten3, !map_map.
  reflexivity.
Qed.

End CorrectionPixels.

(* ================================================================= *)
(** * The no-op mode *)

Lemma string_neq_eqb (s t : string) : s <> t -> (s =? t)%string = false.
Proof. intros H. now apply String.eqb_neq. Qed.

Lemma sim_matrix_of_other (self : ColorBlindnessCorrector) (cb_type : string) :
  cb_type <> "protanopia"%string -> cb_type <> "deuteranopia"%string ->
  cb_type <> "tritanopia"%string ->
  sim_matrix_of self cb_type = None.
Proof.
  intros Hp Hd Ht. unfold sim_matrix_of.
  now rewrite (string_neq_eqb Hp), (string_neq_eqb Hd), (string_neq_eqb Ht).
Qed.

(** C1. With the correction disabled, processing is the identity:
    [daltonize] called on an image with a deficiency name that is none of
    the three (the value [None], ["normal"], ...) returns the image
    itself, and [process_frame] in mode ["normal"] returns its frame,
    whatever array that is, without calling [daltonize]. *)
Theorem C1_off_is_identity (F : FloatOps) (self : ColorBlindnessCorrector)
  (img : ndarray Z) (cb_type : string) :
  is_image img ->
  cb_type <> "protanopia"%string ->
  cb_type <> "deuteranopia"%string ->
  cb_type <> "tritanopia"%string ->
  daltonize self img cb_type = Ok img /\
  (forall frame : ndarray Z,
     process_frame (with_mode self "normal") frame = Ok frame).
Proof.
  intros Himg Hp Hd Ht. split.
  - apply daltonize_other; [exact Himg|]. now apply sim_matrix_of_other.
  - intros frame. reflexivity.
Qed.

Lemma red_green_is_image : is_image red_green.
Proof. exists 1%nat, 2%nat. split; reflexivity. Qed.

Lemma C1_off_is_identity_witness :
  is_image red_green /\
  @daltonize exact_ops (@corrector_init exact_ops) red_green "normal"
    = Ok red_green /\
  (forall frame : ndarray Z,
     @process_frame exact_ops
       (with_mode (@corrector_init exact_ops) "normal") frame = Ok frame).
Proof.
  split; [exact red_green_is_image|].
  apply (@C1_off_is_identity exact_ops (@corrector_init exact_ops)
           red_green "normal");
    [exact red_green_is_image | discriminate | discriminate | discriminate].
Defined.

(* ================================================================= *)
(** * Bounded output *)

Lemma to_uint8_in_byte (z : Z) : in_byte (to_uint8 z).
Proof.
  unfold in_byte, to_uint8.
  pose proof (Z.mod_pos_bound z 256 eq_refl). lia.
Qed.

Lemma astype_uint8_in_byte (x : Q) : in_byte (astype_uint8 x).
Proof. apply to_uint8_in_byte. Qed.

Lemma Forall_flatten3_map {A B} (P : B -> Prop) (f : A -> B * B * B)
  (rows : list A) :
  (forall a, let '(x, y, z) := f a in P x /\ P y /\ P z) ->
  Forall P (flatten3 (map f rows)).
Proof.
  intros Hf. apply Forall_flatten3. apply Forall_map.
  apply Forall_forall. intros a _. exact (Hf a).
Qed.

Lemma to_rgb_px_in_byte {F : FloatOps} (self : ColorBlindnessCorrector) (v : vec3) :
  let '(x, y, z) := to_rgb_px self v in in_byte x /\ in_byte y /\ in_byte z.
Proof.
  unfold to_rgb_px.
  destruct (vmap (fun x => clip x 0 1) (mv (lms2rgb self) v)) as [[x y] z].
  cbn [vmap]. repeat split; apply astype_uint8_in_byte.
Qed.

Lemma apply_correction_px_in_byte {F : FloatOps} (self : ColorCorrector) (p : pixel) :
  let '(x, y, z) := apply_correction_px self p in
  in_byte x /\ in_byte y /\ in_byte z.
Proof.
  unfold apply_correction_px.
  match goal with
  | |- context [vmap (fun x => clip x 0 255) ?v] =>
      destruct (vmap (fun x => clip x 0 255) v) as [[x y] z]
  end.
  cbn [vmap swap_px]. repeat split; apply astype_uint8_in_byte.
Qed.

Lemma sim_matrix_of_cases (self : ColorBlindnessCorrector) (cb_type : string) :
  sim_matrix_of self cb_type = None \/
  exists sim ec, sim_matrix_of self cb_type = Some (sim, ec).
Proof.
  destruct (sim_matrix_of self cb_type) as [[sim ec]|]; eauto.
Qed.

(** C3. The corrected image has every channel of every pixel in
    [0, 255], for every image of bytes: from [daltonize] with any
    deficiency name, and from [apply_correction] (which needs at least
    one pixel).  Both return an image of the shape they were given. *)
Theorem C3_bounded_output (F : FloatOps) (self : ColorBlindnessCorrector)
  (cc : ColorCorrector) (img : ndarray Z) (cb_type : string) :
  is_image img -> valid_image img ->
  (exists out, daltonize self img cb_type = Ok out /\
               shape out = shape img /\ valid_image out) /\
  (data img <> [] ->
   exists out, apply_correction cc img = Ok out /\
               shape out = shape img /\ valid_image out).
Proof.
  intros Himg Hvalid. pose proof Himg as (h & w & Hs & Hl). split.
  - destruct (sim_matrix_of_cases self cb_type) as [Hnone | (sim & ec & Hsome)].
    + exists img. split; [now apply daltonize_other|]. split; [reflexivity|].
      exact Hvalid.
    + eexists. split; [exact (daltonize_pixels self img cb_type Hs Hl Hsome)|].
      split; [now rewrite Hs|].
      unfold valid_image. cbn [data]. apply Forall_flatten3_map.
      intros p. apply to_rgb_px_in_byte.
  - intros Hne.
    assert (Hhw : (h * w)%nat <> 0%nat).
    { intros H0. rewrite H0 in Hl. destruct (data img); [now apply Hne | discriminate]. }
    eexists. split; [exact (apply_correction_pixels cc img Hs Hl Hhw)|].
    split; [now rewrite Hs|].
    unfold valid_image. cbn [data]. apply Forall_flatten3_map.
    intros p. apply apply_correction_px_in_byte.
Qed.

Lemma red_green_valid : valid_image red_green.
Proof. unfold valid_image, red_green, in_byte. cbn [data]. repeat constructor; lia. Qed.

Lemma C3_bounded_output_witness :
  is_image red_green /\ valid_image red_green /\
  (exists out, @daltonize exact_ops (@corrector_init exact_ops) red_green
                 "tritanopia" = Ok out /\
               shape out = shape red_green /\ valid_image out) /\
  (data red_green <> [] ->
   exists out, @apply_correction exact_ops
                 (@color_corrector_init exact_ops "deuteranopia") red_green
               = Ok out /\
               shape out = shape red_green /\ valid_image out).
Proof.
  split; [exact red_green_is_image|]. split; [exact red_green_valid|].
  apply (@C3_bounded_output exact_ops (@corrector_init exact_ops)
           (@color_corrector_init exact_ops "deuteranopia") red_green
           "tritanopia" red_green_is_image red_green_valid).
Defined.

(* ================================================================= *)
(** * Malformed frames *)

Lemma bind_raise {A B} (e : exn) (k : A -> result B) : bind (Raise e) k = Raise e.
Proof. reflexivity. Qed.

Lemma rgb_to_lms_wrong_channels {F : FloatOps} (self : ColorBlindnessCorrector)
  (frame : ndarray Z) (h w c : nat) :
  shape frame = [h; w; c] -> length (data frame) = (h * w * c)%nat ->
  (0 < h)%nat -> (0 < w)%nat -> c <> 3%nat ->
  rgb_to_lms self frame = Raise ValueError.
Proof.
  intros Hs Hl Hh Hw Hc. unfold rgb_to_lms, arr_map. cbn [shape].
  rewrite Hs. cbn [unpack3 bind]. unfold reshape_rows3, size. cbn [shape data].
  assert (Hsz : size_of [h; w; c] = (h * w * c)%nat)
    by (unfold size_of, fold_right; lia).
  rewrite Hsz.
  destruct (Nat.eqb_spec ((h * w * c) mod 3) 0) as [Hmod|Hmod]; [|reflexivity].
  cbn [bind data]. unfold reshape_hw3, matmul_T.
  rewrite length_map, (@length_rows3 Q), length_map, Hl.
  destruct (Nat.eqb_spec (h * w * c / 3 * 3) (h * w * 3)) as [Heq|Hneq];
    [|reflexivity].
  exfalso. apply Hc.
  pose proof (Nat.div_mod_eq (h * w * c) 3) as Hdm.
  rewrite Hmod in Hdm. nia.
Qed.

(** C5, as the code has it.  A frame with at least one row and one
    column and a number of channels other than three makes [daltonize]
    raise [ValueError], whatever the deficiency name, so nothing is
    returned.  A frame without rows or without columns is not refused:
    [daltonize] returns it, empty as it is. *)
Theorem C5_bad_channel_count_raises (F : FloatOps)
  (self : ColorBlindnessCorrector) (frame : ndarray Z) (cb_type : string)
  (h w c : nat) :
  shape frame = [h; w; c] -> length (data frame) = (h * w * c)%nat ->
  ((0 < h)%nat -> (0 < w)%nat -> c <> 3%nat ->
   daltonize self frame cb_type = Raise ValueError) /\
  ((h = 0%nat \/ w = 0%nat) -> c = 3%nat ->
   daltonize self frame cb_type = Ok frame).
Proof.
  intros Hs Hl. split.
  - intros Hh Hw Hc. unfold daltonize.
    now rewrite (rgb_to_lms_wrong_channels self frame Hs Hl Hh Hw Hc).
  - intros Hz ->.
    assert (Hhw : (h * w)%nat = 0%nat) by (destruct Hz; subst; lia).
    assert (Hd : data frame = []).
    { rewrite Hhw in Hl. now destruct (data frame). }
    assert (Hfr : frame = mk_ndarray [h; w; 3%nat] []).
    { destruct frame as [s d]. cbn in Hs, Hd. now subst. }
    destruct (sim_matrix_of_cases self cb_type) as [Hnone | (sim & ec & Hsome)].
    + apply daltonize_other; [|exact Hnone]. exists h, w. now split.
    + rewrite (daltonize_pixels self frame cb_type Hs Hl Hsome).
      rewrite Hd, Hfr. reflexivity.
Qed.

Lemma C5_bad_channel_count_raises_witness :
  (@daltonize exact_ops (@corrector_init exact_ops) four_channels
     "deuteranopia" = Raise ValueError) /\
  (@daltonize exact_ops (@corrector_init exact_ops) zero_width
     "deuteranopia" = Ok zero_width).
Proof.
  split.
  - apply (proj1 (@C5_bad_channel_count_raises exact_ops
                    (@corrector_init exact_ops) four_channels "deuteranopia"
                    1 1 4 eq_refl eq_refl)); [lia | lia | discriminate].
  - apply (proj2 (@C5_bad_channel_count_raises exact_ops
                    (@corrector_init exact_ops) zero_width "deuteranopia"
                    4 0 3 eq_refl eq_refl)); [now right | reflexivity].
Defined.

(** C5 as stated fails: a frame of zero width is malformed, and
    [daltonize] returns normally on it. *)
Lemma C5_zero_width_not_refused :
  malformed zero_width /\
  @daltonize exact_ops (@corrector_init exact_ops) zero_width "deuteranopia"
    = Ok zero_width /\
  @process_frame exact_ops
    (with_mode (@corrector_init exact_ops) "deuteranopia") zero_width
    = Ok zero_width.
Proof.
  split; [cbn; now right; left|]. split; reflexivity.
Qed.

(* ================================================================= *)
(** * Setting the mode *)

Lemma in_valid_modes (m : string) :
  existsb (String.eqb m) valid_modes = true <-> In m valid_modes.
Proof.
  rewrite existsb_exists. split.
  - intros (x & Hin & Heq). apply String.eqb_eq in Heq. now subst.
  - intros Hin. exists m. split; [exact Hin | apply String.eqb_refl].
Qed.

(** C4, as the code has it.  [set_mode] accepts a name exactly when it
    is, letter for letter, one of ["normal"], ["protanopia"],
    ["deuteranopia"], ["tritanopia"]: the mode becomes that name and
    "Mode changed to" is printed.  Any other string leaves the object as
    it was and prints "Invalid mode"; no exception is raised. *)
Theorem C4_set_mode_exact_names (self : ColorBlindnessCorrector) (m : string) :
  (In m valid_modes ->
   set_mode self m = (with_mode self m, ("Mode changed to: " ++ upper m)%string)) /\
  (~ In m valid_modes ->
   set_mode self m = (self, ("Invalid mode: " ++ m)%string)).
Proof.
  unfold set_mode. split; intros H.
  - apply in_valid_modes in H. now rewrite H.
  - destruct (existsb (String.eqb m) valid_modes) eqn:E; [|reflexivity].
    apply in_valid_modes in E. contradiction.
Qed.

Lemma C4_set_mode_exact_names_witness :
  set_mode (@corrector_init exact_ops) "tritanopia"
  = (with_mode (@corrector_init exact_ops) "tritanopia",
     "Mode changed to: TRITANOPIA"%string) /\
  set_mode (@corrector_init exact_ops) "blue"
  = (@corrector_init exact_ops, "Invalid mode: blue"%string).
Proof.
  split.
  - apply (proj1 (C4_set_mode_exact_names (@corrector_init exact_ops)
                    "tritanopia")).
    simpl. auto.
  - apply (proj2 (C4_set_mode_exact_names (@corrector_init exact_ops) "blue")).
    simpl. intros [H|[H|[H|[H|[]]]]]; discriminate H.
Defined.

(** C4 as stated fails: ["Protanopia"] equals ["protanopia"] up to case
    and ["off"] is one of the four names of the claim, yet both are
    rejected, while ["normal"], which is none of them, is accepted. *)
Lemma C4_case_and_off_rejected :
  eq_nocase "Protanopia" "protanopia" /\
  set_mode (@corrector_init exact_ops) "Protanopia"
  = (@corrector_init exact_ops, "Invalid mode: Protanopia"%string) /\
  set_mode (@corrector_init exact_ops) "off"
  = (@corrector_init exact_ops, "Invalid mode: off"%string) /\
  ~ eq_nocase "normal" "off" /\
  set_mode (with_mode (@corrector_init exact_ops) "protanopia") "normal"
  = (@corrector_init exact_ops, "Mode changed to: NORMAL"%string).
Proof.
  repeat split; try reflexivity. unfold eq_nocase. discriminate.
Qed.

(* ================================================================= *)
(** * The mode given to ColorCorrector *)

(** C10. What [apply_correction] returns does not depend on the mode the
    [ColorCorrector] was built with: the field is stored and never read.
    Whatever the mode, the simulation matrix is the deuteranopia one and
    the error matrix is the fixed one of the constructor (which is the
    matrix [daltonize] uses for protanopia). *)
Theorem C10_mode_is_ignored (F : FloatOps) (m1 m2 : string) (img : ndarray Z) :
  apply_correction (color_corrector_init m1) img
  = apply_correction (color_corrector_init m2) img /\
  mode (color_corrector_init m1) = m1 /\
  sim_deuteranopia (color_corrector_init m1) = DEUTERANOPIA_SIM /\
  err_mod (color_corrector_init m1) = protanopia_correction.
Proof.
  split.
  - unfold apply_correction. reflexivity.
  - repeat split.
Qed.

(* ================================================================= *)
(** * The camera loop: detection cadence *)

Section Cadence.

Variable detect : Frame -> list detection.
Variable skip : nat.

(** What iteration [i] of a run does, told from the iteration before. *)
Lemma run_loop_step : forall (frames : list Frame) (st : loop_state) (i : nat)
  (it : iteration) (frame : Frame),
  nth_error (run_loop detect skip st frames) i = Some it ->
  nth_error frames i = Some frame ->
  detector_ran it = ((frame_count st + i) mod skip =? 0)%nat /\
  detections_used it =
    (if ((frame_count st + i) mod skip =? 0)%nat then detect frame
     else match i with
          | O => current_detections st
          | S j => match nth_error (run_loop detect skip st frames) j with
                   | Some prev => detections_used prev
                   | None => []
                   end
          end) /\
  corrected it =
    filter_map (process_detection (Z.of_nat (frame_h frame))
                                  (Z.of_nat (frame_w frame)))
               (detections_used it).
Proof.
  induction frames as [|f rest IH]; intros st i it frame Hit Hfr.
  - destruct i; discriminate.
  - cbn [run_loop loop_body] in *.
    destruct i as [|i].
    + cbn [nth_error] in *. injection Hit as <-. injection Hfr as <-.
      cbn. rewrite Nat.add_0_r. repeat split.
    + cbn [nth_error] in Hit, Hfr.
      specialize (IH _ _ _ _ Hit Hfr). cbn [frame_count current_detections] in IH.
      replace (frame_count st + S i)%nat with (S (frame_count st) + i)%nat by lia.
      destruct IH as (Hran & Hused & Hcorr).
      split; [exact Hran|]. split; [|exact Hcorr].
      rewrite Hused.
      destruct ((S (frame_count st) + i) mod skip =? 0)%nat; [reflexivity|].
      destruct i as [|j]; reflexivity.
Qed.

Lemma length_run_loop (frames : list Frame) : forall st,
  length (run_loop detect skip st frames) = length frames.
Proof.
  induction frames as [|f rest IH]; intros st; [reflexivity|].
  cbn [run_loop loop_body length]. now rewrite IH.
Qed.

(** Within a cadence window the list of detections does not change. *)
Lemma same_window_same_detections (frames : list Frame) (i d : nat)
  (it1 it2 : iteration) :
  (0 < skip)%nat ->
  nth_error (run_loop detect skip loop_init frames) i = Some it1 ->
  nth_error (run_loop detect skip loop_init frames) (i + d) = Some it2 ->
  (i / skip = (i + d) / skip)%nat ->
  detections_used it1 = detections_used it2.
Proof.
  intros Hskip H1. revert it2.
  induction d as [|d IH]; intros it2 H2 Hwin.
  - rewrite Nat.add_0_r in H2. congruence.
  - replace (i + S d)%nat with (S (i + d)) in * by lia.
    assert (Hlen : (S (i + d) < length frames)%nat).
    { rewrite <- (length_run_loop frames loop_init).
      apply nth_error_Some. congruence. }
    destruct (nth_error frames (S (i + d))) as [fr|] eqn:Hfr;
      [|apply nth_error_None in Hfr; lia].
    destruct (run_loop_step frames loop_init (S (i + d)) H2 Hfr)
      as (_ & Hused & _).
    cbn [loop_init frame_count Nat.add] in Hused.
    assert (Hmod : (S (i + d) mod skip =? 0)%nat = false).
    { apply Nat.eqb_neq. intros Hm.
      pose proof (Nat.div_mod_eq (S (i + d)) skip) as E.
      pose proof (Nat.div_mod_eq i skip) as E'.
      rewrite Hm, <- Hwin in E. nia. }
    rewrite Hmod in Hused.
    destruct (nth_error (run_loop detect skip loop_init frames) (i + d))
      as [prev|] eqn:Hprev.
    + rewrite Hused. apply IH; [reflexivity|].
      pose proof (Nat.Div0.div_le_mono i (i + d) skip ltac:(lia)).
      pose proof (Nat.Div0.div_le_mono (i + d) (S (i + d)) skip ltac:(lia)).
      lia.
    + apply nth_error_None in Hprev.
      rewrite length_run_loop in Hprev. lia.
Qed.

End Cadence.

(** C6. With skip cadence [N], the detections are replaced by fresh ones
    exactly on the frames whose index is a multiple of [N] (the detector
    runs on those frames and on no other; on the others the list of the
    frame before is taken over as it is), and any two frames of one
    cadence window go over the same list of detections, hence, the frame
    size being the same, correct the same regions. *)
Theorem C6_cadence (detect : Frame -> list detection) (N : nat)
  (frames : list Frame) :
  (0 < N)%nat ->
  let its := run_loop detect N loop_init frames in
  length its = length frames /\
  (forall i it frame,
     nth_error its i = Some it -> nth_error frames i = Some frame ->
     detector_ran it = (i mod N =? 0)%nat /\
     ((i mod N = 0)%nat -> detections_used it = detect frame) /\
     ((i mod N <> 0)%nat ->
      exists prev, nth_error its (i - 1) = Some prev /\
                   detections_used it = detections_used prev)) /\
  (forall i j it1 it2 f1 f2,
     nth_error its i = Some it1 -> nth_error its j = Some it2 ->
     nth_error frames i = Some f1 -> nth_error frames j = Some f2 ->
     (i / N = j / N)%nat ->
     detections_used it1 = detections_used it2 /\
     (frame_h f1 = frame_h f2 -> frame_w f1 = frame_w f2 ->
      corrected it1 = corrected it2)).
Proof.
  intros HN its. split; [apply length_run_loop|]. split.
  - intros i it frame Hit Hfr.
    destruct (run_loop_step detect N frames loop_init i Hit Hfr)
      as (Hran & Hused & _).
    cbn [loop_init frame_count Nat.add] in Hran, Hused.
    split; [exact Hran|]. split.
    + intros Hm. now rewrite Hm in Hused.
    + intros Hm. apply Nat.eqb_neq in Hm as Hb. rewrite Hb in Hused.
      destruct i as [|k]; [now rewrite Nat.Div0.mod_0_l in Hm|].
      replace (S k - 1)%nat with k by lia.
      fold its in Hused.
      destruct (nth_error its k) as [prev|] eqn:Hprev; [now exists prev|].
      apply nth_error_None in Hprev. unfold its in Hprev.
      rewrite length_run_loop in Hprev.
      assert (S k < length frames)%nat by (apply nth_error_Some; congruence).
      lia.
  - intros i j it1 it2 f1 f2 H1 H2 Hf1 Hf2 Hwin.
    assert (Hused : detections_used it1 = detections_used it2).
    { destruct (Nat.le_ge_cases i j) as [Hle|Hle].
      - replace j with (i + (j - i))%nat in H2, Hwin by lia.
        exact (same_window_same_detections detect frames i (j - i) HN H1 H2 Hwin).
      - symmetry. replace i with (j + (i - j))%nat in H1, Hwin by lia.
        symmetry in Hwin.
        exact (same_window_same_detections detect frames j (i - j) HN H2 H1 Hwin). }
    split; [exact Hused|]. intros Hh Hw.
    destruct (run_loop_step detect N frames loop_init i H1 Hf1) as (_ & _ & Hc1).
    destruct (run_loop_step detect N frames loop_init j H2 Hf2) as (_ & _ & Hc2).
    rewrite Hc1, Hc2, Hused, Hh, Hw. reflexivity.
Qed.

Lemma C6_cadence_witness :
  (0 < SKIP_FRAMES)%nat /\
  let its := run_loop square_detector SKIP_FRAMES loop_init seven_frames in
  length its = length seven_frames /\
  (forall i it frame,
     nth_error its i = Some it -> nth_error seven_frames i = Some frame ->
     detector_ran it = (i mod SKIP_FRAMES =? 0)%nat /\
     ((i mod SKIP_FRAMES = 0)%nat -> detections_used it = square_detector frame) /\
     ((i mod SKIP_FRAMES <> 0)%nat ->
      exists prev, nth_error its (i - 1) = Some prev /\
                   detections_used it = detections_used prev)) /\
  (forall i j it1 it2 f1 f2,
     nth_error its i = Some it1 -> nth_error its j = Some it2 ->
     nth_error seven_frames i = Some f1 -> nth_error seven_frames j = Some f2 ->
     (i / SKIP_FRAMES = j / SKIP_FRAMES)%nat ->
     detections_used it1 = detections_used it2 /\
     (frame_h f1 = frame_h f2 -> frame_w f1 = frame_w f2 ->
      corrected it1 = corrected it2)).
Proof.
  split; [unfold SKIP_FRAMES; lia|].
  apply (@C6_cadence square_detector SKIP_FRAMES seven_frames).
  unfold SKIP_FRAMES. lia.
Defined.

(* ================================================================= *)
(** * The camera loop: clamping of the boxes *)

(** After the clamping the four coordinates satisfy the bounds the code
    writes. *)
Lemma clamp_bounds (h w : Z) (d : detection) :
  let '(x1, y1, x2, y2) := clamp h w d in
  (0 <= x1 /\ 0 <= y1 /\ x2 <= w /\ y2 <= h)%Z.
Proof.
  destruct d as [[[[[x1 y1] x2] y2] c] p]. cbn [clamp]. lia.
Qed.

(** An adjusted slice bound lies in the sequence. *)
Lemma adjust_index_range (i len : Z) :
  (0 <= len)%Z -> (0 <= adjust_index i len <= len)%Z.
Proof.
  intros Hlen. unfold adjust_index. destruct (Z.ltb_spec i 0); lia.
Qed.

Lemma roi_size_pos (r : roi) :
  (roi_size r > 0)%Z ->
  (row_start r < row_stop r)%Z /\ (col_start r < col_stop r)%Z.
Proof.
  unfold roi_size, roi_rows, roi_cols. intros Hpos.
  assert (Hr : (0 < Z.max 0 (row_stop r - row_start r))%Z) by nia.
  assert (Hc : (0 < Z.max 0 (col_stop r - col_start r))%Z) by nia.
  lia.
Qed.

(** A region that is handed to the corrector is not empty and lies in the
    frame. *)
Lemma process_detection_inside (h w : Z) (d : detection) (r : roi) :
  (0 <= h)%Z -> (0 <= w)%Z ->
  process_detection h w d = Some r ->
  (0 <= row_start r < row_stop r)%Z /\ (row_stop r <= h)%Z /\
  (0 <= col_start r < col_stop r)%Z /\ (col_stop r <= w)%Z.
Proof.
  intros Hh Hw. destruct d as [[[[[x1 y1] x2] y2] c] p].
  unfold process_detection. cbn [clamp].
  set (r0 := slice2 h w _ _ _ _).
  destruct (Z.gtb_spec (roi_size r0) 0) as [Hpos|Hneg]; [|discriminate].
  intros [= <-]. apply Z.lt_gt, roi_size_pos in Hpos.
  unfold r0, slice2 in *. cbn [row_start row_stop col_start col_stop] in *.
  pose proof (adjust_index_range (Z.max 0 y1) Hh).
  pose proof (adjust_index_range (Z.min h y2) Hh).
  pose proof (adjust_index_range (Z.max 0 x1) Hw).
  pose proof (adjust_index_range (Z.min w x2) Hw).
  lia.
Qed.

(** A box to the right of the frame or below it is dropped. *)
Lemma box_right_or_below_dropped (h w : Z) (d : detection) :
  (0 <= h)%Z -> (0 <= w)%Z ->
  let '(x1, y1, _, _, _, _) := d in
  (w <= x1 \/ h <= y1)%Z ->
  process_detection h w d = None.
Proof.
  intros Hh Hw. destruct d as [[[[[x1 y1] x2] y2] c] p]. intros Hout.
  unfold process_detection. cbn [clamp].
  set (r0 := slice2 h w _ _ _ _).
  destruct (Z.gtb_spec (roi_size r0) 0) as [Hpos|Hneg]; [|reflexivity].
  exfalso. apply Z.lt_gt, roi_size_pos in Hpos.
  unfold r0, slice2 in *. cbn [row_start row_stop col_start col_stop] in *.
  pose proof (adjust_index_range (Z.min h y2) Hh).
  pose proof (adjust_index_range (Z.min w x2) Hw).
  assert (Hs : (w <= x1 -> adjust_index (Z.max 0 x1) w = w)%Z).
  { intros Hx. unfold adjust_index. destruct (Z.ltb_spec (Z.max 0 x1) 0); lia. }
  assert (Hs' : (h <= y1 -> adjust_index (Z.max 0 y1) h = h)%Z).
  { intros Hy. unfold adjust_index. destruct (Z.ltb_spec (Z.max 0 y1) 0); lia. }
  destruct Hout as [Hx|Hy]; [rewrite (Hs Hx) in Hpos | rewrite (Hs' Hy) in Hpos]; lia.
Qed.

(** C7, where the code departs from it.  The box (-20, 10, -5, 50) lies
    wholly to the left of a 640 x 480 frame.  The clamping leaves
    [x2 = -5]; the slice [frame[10:50, 0:-5]] then counts from the right
    edge and selects columns 0 to 635, so the box is not dropped: the
    camera loop hands that region of 40 x 635 pixels to the corrector. *)
Theorem C7_box_left_of_frame_is_corrected :
  clamp 480 640 box_left_of_frame = (0, 10, -5, 50)%Z /\
  process_detection 480 640 box_left_of_frame
    = Some (mk_roi 10 50 0 635) /\
  map corrected (main_loop (fun _ => [box_left_of_frame]) [vga_frame])
    = [[mk_roi 10 50 0 635]].
Proof. repeat split. Qed.

(* ================================================================= *)
(** * Rounding errors *)

Unset Implicit Arguments.

Lemma u32_bounds : 0 <= u32 /\ u32 <= eps32.
Proof. split; apply Qle_bool_imp_le; vm_compute; reflexivity. Qed.

Lemma u64_bounds : 0 <= u64 /\ u64 <= eps64.
Proof. split; apply Qle_bool_imp_le; vm_compute; reflexivity. Qed.

Lemma gamma3_bounds : 0 <= gamma3 /\ gamma3 <= eps64.
Proof. split; apply Qle_bool_imp_le; vm_compute; reflexivity. Qed.

Lemma Qabs_le_intro (x y : Q) : - y <= x -> x <= y -> Qabs x <= y.
Proof. intros. apply Qabs_Qle_condition. now split. Qed.

Lemma Qabs_le_elim (x y : Q) : Qabs x <= y -> - y <= x /\ x <= y.
Proof. apply Qabs_Qle_condition. Qed.

(** A result [r] within relative error [u <= E] of [e], where [|e| <= P],
    lies within [E * P] of [e]. *)
Lemma rel_enclose (r e u E P : Q) :
  Qabs (r - e) <= u * Qabs e -> 0 <= u -> u <= E -> Qabs e <= P ->
  e - E * P <= r /\ r <= e + E * P.
Proof.
  intros Hr Hu HE HP.
  pose proof (Qabs_nonneg e) as Hn.
  assert (Hb : u * Qabs e <= E * P) by nra.
  apply Qabs_le_elim in Hr. split; lra.
Qed.

Lemma Qabs_mult_le (a b A B : Q) :
  Qabs a <= A -> Qabs b <= B -> Qabs (a * b) <= A * B.
Proof.
  intros Ha Hb. rewrite Qabs_Qmult.
  pose proof (Qabs_nonneg a). pose proof (Qabs_nonneg b). nra.
Qed.

(** A product with a factor known up to [eta]. *)
Lemma mul_enclose (a v V A eta : Q) :
  Qabs a <= A -> Qabs (v - V) <= eta ->
  a * V - A * eta <= a * v /\ a * v <= a * V + A * eta.
Proof.
  intros Ha Hv.
  pose proof (Qabs_mult_le _ _ _ _ Ha Hv) as H.
  apply Qabs_le_elim in H. split; lra.
Qed.

Section Enclosures.

Context {F : FloatOps} {FS : FloatSpec F}.

Lemma fadd_enclose (x y P : Q) :
  Qabs (x + y) <= P ->
  x + y - eps64 * P <= fadd x y /\ fadd x y <= x + y + eps64 * P.
Proof.
  intros HP. destruct u64_bounds as [H0 H1].
  exact (rel_enclose _ _ _ _ _ (fadd_spec x y) H0 H1 HP).
Qed.

Lemma fsub_enclose (x y P : Q) :
  Qabs (x - y) <= P ->
  x - y - eps64 * P <= fsub x y /\ fsub x y <= x - y + eps64 * P.
Proof.
  intros HP. destruct u64_bounds as [H0 H1].
  exact (rel_enclose _ _ _ _ _ (fsub_spec x y) H0 H1 HP).
Qed.

Lemma fmul_enclose (x y P : Q) :
  Qabs (x * y) <= P ->
  x * y - eps64 * P <= fmul x y /\ fmul x y <= x * y + eps64 * P.
Proof.
  intros HP. destruct u64_bounds as [H0 H1].
  exact (rel_enclose _ _ _ _ _ (fmul_spec x y) H0 H1 HP).
Qed.

Lemma fdot3_enclose (a0 a1 a2 b0 b1 b2 P0 P1 P2 : Q) :
  Qabs (a0 * b0) <= P0 -> Qabs (a1 * b1) <= P1 -> Qabs (a2 * b2) <= P2 ->
  a0 * b0 + a1 * b1 + a2 * b2 - eps64 * (P0 + P1 + P2)
    <= fdot3 (a0, a1, a2) (b0, b1, b2) /\
  fdot3 (a0, a1, a2) (b0, b1, b2)
    <= a0 * b0 + a1 * b1 + a2 * b2 + eps64 * (P0 + P1 + P2).
Proof.
  intros H0 H1 H2. destruct gamma3_bounds as [Hg0 Hg1].
  pose proof (fdot3_spec (a0, a1, a2) (b0, b1, b2)) as Hs.
  cbn [dot3 absdot3] in Hs.
  pose proof (Qabs_nonneg (a0 * b0)). pose proof (Qabs_nonneg (a1 * b1)).
  pose proof (Qabs_nonneg (a2 * b2)).
  assert (Hb : gamma3 * (Qabs (a0 * b0) + Qabs (a1 * b1) + Qabs (a2 * b2))
               <= eps64 * (P0 + P1 + P2)) by nra.
  apply Qabs_le_elim in Hs. split; lra.
Qed.

(** Normalisation of a byte: [x / 255] in float32. *)
Lemma normalize_enclose (x : Z) :
  in_byte x ->
  let q := inject_Z x * (1 # 255) in
  0 <= q /\ q <= 1 /\
  (1 - eps32) * q <= fdiv32 (astype_float x) 255 /\
  fdiv32 (astype_float x) 255 <= (1 + eps32) * q.
Proof.
  intros [Hlo Hhi] q. unfold astype_float.
  assert (H0 : 0 <= inject_Z x) by (change 0 with (inject_Z 0); now rewrite <- Zle_Qle).
  assert (H1 : inject_Z x <= 255)
    by (change 255 with (inject_Z 255); now rewrite <- Zle_Qle).
  assert (Hq : inject_Z x / 255 == q) by (unfold q, Qdiv; reflexivity).
  assert (Hq0 : 0 <= q) by (unfold q; lra).
  assert (Hq1 : q <= 1) by (unfold q; lra).
  pose proof (@fdiv32_spec F FS (inject_Z x) 255 ltac:(discriminate)) as Hs.
  rewrite Hq in Hs.
  destruct u32_bounds as [Hu0 Hu1].
  assert (HP : Qabs q <= q) by (apply Qabs_le_intro; lra).
  destruct (rel_enclose _ _ _ _ _ Hs Hu0 Hu1 HP).
  unfold eps32 in *. repeat split; try assumption; nra.
Qed.

End Enclosures.

(** [np.clip] *)
Lemma clip_range (x lo hi : Q) : lo <= hi -> lo <= clip x lo hi /\ clip x lo hi <= hi.
Proof.
  intros H. unfold clip. split.
  - apply Q.min_glb; [apply Q.le_max_r | exact H].
  - apply Q.le_min_r.
Qed.

Lemma clip_lower (x lo hi a : Q) : a <= x -> a <= hi -> a <= clip x lo hi.
Proof.
  intros Hx Hh. unfold clip. apply Q.min_glb; [|exact Hh].
  apply Qle_trans with x; [exact Hx | apply Q.le_max_l].
Qed.

Lemma clip_upper (x lo hi b : Q) : x <= b -> lo <= b -> clip x lo hi <= b.
Proof.
  intros Hx Hl. unfold clip.
  apply Qle_trans with (Qmax x lo); [apply Q.le_min_l|].
  apply Q.max_lub; assumption.
Qed.

(** Truncation of a non-negative number close to an integer. *)
Lemma Qtrunc_nonneg (p : Q) : 0 <= p -> Qtrunc p = Qfloor p.
Proof.
  intros H. unfold Qtrunc.
  destruct (Qle_bool 0 p) eqn:E; [reflexivity|].
  apply Qle_bool_iff in H. congruence.
Qed.

Lemma Qfloor_lower (p : Q) (z : Z) : inject_Z z <= p -> (z <= Qfloor p)%Z.
Proof. intros H. rewrite <- (Qfloor_Z z). now apply Qfloor_resp_le. Qed.

Lemma Qfloor_upper (p : Q) (z : Z) : p < inject_Z z + 1 -> (Qfloor p <= z)%Z.
Proof.
  intros H. pose proof (Qfloor_le p) as Hf.
  assert (Hlt : inject_Z (Qfloor p) < inject_Z (z + 1)).
  { rewrite inject_Z_plus. change (inject_Z 1) with 1. lra. }
  rewrite <- Zlt_Qlt in Hlt. lia.
Qed.

(** ** The computed inverse *)

Lemma inv_exact_near_decimal :
  matrix_close 0.000000000000001 (inv3_exact RGB2LMS) INV_DEC.
Proof.
  cbv [matrix_close vec_close row0 row1 row2 fst snd inv3_exact RGB2LMS INV_DEC].
  repeat split; apply Qle_bool_imp_le; vm_compute; reflexivity.
Qed.

(** The entries of [np.linalg.inv(rgb2lms)], each within [inv_eta] of the
    decimal next to it. *)
Lemma linalg_inv_entries {F : FloatOps} {FS : FloatSpec F} :
  exists v00 v01 v02 v10 v11 v12 v20 v21 v22 : Q,
    linalg_inv RGB2LMS = ((v00, v01, v02), (v10, v11, v12), (v20, v21, v22)) /\
    matrix_close inv_eta
      ((v00, v01, v02), (v10, v11, v12), (v20, v21, v22)) INV_DEC.
Proof.
  pose proof linalg_inv_spec as Hs. pose proof inv_exact_near_decimal as Hd.
  destruct (linalg_inv RGB2LMS) as [[[[v00 v01] v02] [[v10 v11] v12]] [[v20 v21] v22]].
  destruct (inv3_exact RGB2LMS) as [[[[e00 e01] e02] [[e10 e11] e12]] [[e20 e21] e22]].
  exists v00, v01, v02, v10, v11, v12, v20, v21, v22. split; [reflexivity|].
  cbv [matrix_close vec_close row0 row1 row2 fst snd INV_DEC inv_tol inv_eta] in *.
  destruct Hs as ((A0 & A1 & A2) & (A3 & A4 & A5) & (A6 & A7 & A8)).
  destruct Hd as ((B0 & B1 & B2) & (B3 & B4 & B5) & (B6 & B7 & B8)).
  repeat match goal with
         | H : Qabs _ <= _ |- _ => apply Qabs_le_elim in H
         end.
  repeat split; apply Qabs_le_intro; lra.
Qed.

(** The model without rounding satisfies the error model. *)
Lemma Qabs_self_le (x b : Q) : 0 <= b -> Qabs (x - x) <= b.
Proof. intros Hb. apply Qabs_le_intro; lra. Qed.

Lemma exact_ops_spec : FloatSpec exact_ops.
Proof.
  destruct u32_bounds as [Hu32 _]. destruct u64_bounds as [Hu64 _].
  destruct gamma3_bounds as [Hg _].
  constructor; cbn [fdiv32 fadd fsub fmul fdot3 linalg_inv exact_ops].
  - intros x y _. apply Qabs_self_le.
    pose proof (Qabs_nonneg (x / y)). nra.
  - intros x y. apply Qabs_self_le. pose proof (Qabs_nonneg (x + y)). nra.
  - intros x y. apply Qabs_self_le. pose proof (Qabs_nonneg (x - y)). nra.
  - intros x y. apply Qabs_self_le. pose proof (Qabs_nonneg (x * y)). nra.
  - intros [[a0 a1] a2] [[b0 b1] b2]. apply Qabs_self_le. cbn [absdot3].
    pose proof (Qabs_nonneg (a0 * b0)). pose proof (Qabs_nonneg (a1 * b1)).
    pose proof (Qabs_nonneg (a2 * b2)). nra.
  - destruct (inv3_exact RGB2LMS) as [[[[e00 e01] e02] [[e10 e11] e12]] [[e20 e21] e22]].
    cbv [matrix_close vec_close row0 row1 row2 fst snd inv_tol].
    repeat split; apply Qabs_self_le; lra.
Qed.

Ltac abs_le := apply Qabs_le_intro; lra.

(** ** The programs evaluated without rounding *)

Example daltonize_exact_red_green :
  @daltonize exact_ops (@corrector_init exact_ops) red_green "deuteranopia"
  = Ok (mk_ndarray [1; 2; 3]%nat [63; 119; 0; 191; 135; 255]%Z).
Proof. vm_compute. reflexivity. Qed.

Example daltonize_exact_protanopia :
  @daltonize exact_ops (@corrector_init exact_ops) red_green "protanopia"
  = Ok (mk_ndarray [1; 2; 3]%nat [228; 0; 255; 26; 255; 0]%Z).
Proof. vm_compute. reflexivity. Qed.

Example apply_correction_exact_red_green :
  @apply_correction exact_ops (@color_corrector_init exact_ops "deuteranopia")
    red_green
  = Ok (mk_ndarray [1; 2; 3]%nat [254; 0; 0; 0; 203; 0]%Z).
Proof. vm_compute. reflexivity. Qed.

Example apply_correction_exact_four_channels :
  @apply_correction exact_ops (@color_corrector_init exact_ops "deuteranopia")
    four_channels
  = Ok (mk_ndarray [1; 1; 3]%nat [15; 22; 30]%Z).
Proof. vm_compute. reflexivity. Qed.

Example apply_correction_exact_empty :
  @apply_correction exact_ops (@color_corrector_init exact_ops "deuteranopia")
    zero_width
  = Raise cv2_error.
Proof. reflexivity. Qed.

(** The inner product of an LMS triple [l], bounded by [b], with a row
    [v] of the computed inverse, enclosed through the decimals next to
    [v]. *)
Ltac inverse_row l0 l1 l2 b0 b1 b2 v0 v1 v2 H0 H1 H2 :=
  let E0 := fresh "E" in let E1 := fresh "E" in let E2 := fresh "E" in
  let D := fresh "D" in
  pose proof (mul_enclose l0 v0 _ b0 _ ltac:(abs_le) H0) as E0;
  pose proof (mul_enclose l1 v1 _ b1 _ ltac:(abs_le) H1) as E1;
  pose proof (mul_enclose l2 v2 _ b2 _ ltac:(abs_le) H2) as E2;
  unfold inv_eta in E0, E1, E2;
  pose proof (fdot3_enclose l0 l1 l2 v0 v1 v2 b0 b1 b2
                ltac:(abs_le) ltac:(abs_le) ltac:(abs_le)) as D;
  unfold eps64 in D.


(* ================================================================= *)
(** * The round trip RGB -> LMS -> RGB *)

Section RoundTrip.

Context {F : FloatOps} {FS : FloatSpec F}.

(** Back to bytes: a value within [10^-6] of [x / 255] becomes [x] or
    [x - 1]. *)
Lemma denormalize_near (r : Q) (x : Z) :
  in_byte x ->
  inject_Z x * (1 # 255) - 0.000001 <= r ->
  r <= inject_Z x * (1 # 255) + 0.000001 ->
  (x - 1 <= astype_uint8 (fmul (clip r 0 1) 255) <= x)%Z /\
  (0 <= astype_uint8 (fmul (clip r 0 1) 255))%Z.
Proof.
  intros [Hx0 Hx1] Hlo Hhi.
  assert (H0 : 0 <= inject_Z x)
    by (change 0 with (inject_Z 0); now rewrite <- Zle_Qle).
  assert (H1 : inject_Z x <= 255)
    by (change 255 with (inject_Z 255); now rewrite <- Zle_Qle).
  destruct (clip_range r 0 1 ltac:(lra)) as [Hc0 Hc1].
  pose proof (clip_lower r 0 1 _ Hlo ltac:(lra)) as Hcl.
  pose proof (clip_upper r 0 1 _ Hhi ltac:(lra)) as Hcu.
  set (c := clip r 0 1) in *.
  assert (HP : Qabs (c * 255) <= c * 255) by (apply Qabs_le_intro; lra).
  destruct (fmul_enclose c 255 _ HP) as [Hp0 Hp1].
  set (p := fmul c 255) in *. unfold eps64 in Hp0, Hp1.
  assert (Hpn : 0 <= p) by lra.
  unfold astype_uint8. rewrite (Qtrunc_nonneg p Hpn).
  assert (Hf0 : (0 <= Qfloor p)%Z) by (apply Qfloor_lower; exact Hpn).
  assert (Hf1 : (x - 1 <= Qfloor p)%Z).
  { apply Qfloor_lower. change (x - 1)%Z with (x + -1)%Z.
    rewrite inject_Z_plus. change (inject_Z (-1)) with (-(1))%Q. lra. }
  assert (Hf2 : (Qfloor p <= x)%Z) by (apply Qfloor_upper; lra).
  unfold to_uint8. rewrite Z.mod_small by lia. lia.
Qed.


Lemma roundtrip_px (x0 x1 x2 : Z) :
  in_byte x0 -> in_byte x1 -> in_byte x2 ->
  let '(y0, y1, y2) :=
    to_rgb_px corrector_init (to_lms_px corrector_init (x0, x1, x2)) in
  (x0 - 1 <= y0 <= x0)%Z /\ (x1 - 1 <= y1 <= x1)%Z /\ (x2 - 1 <= y2 <= x2)%Z.
Proof.
  intros B0 B1 B2.
  destruct linalg_inv_entries
    as (v00 & v01 & v02 & v10 & v11 & v12 & v20 & v21 & v22 & Hinv & Hclose).
  unfold to_rgb_px, to_lms_px, normalize_px, mv.
  cbn [rgb2lms lms2rgb corrector_init vmap]. rewrite Hinv.
  cbv [matrix_close vec_close row0 row1 row2 fst snd INV_DEC RGB2LMS] in *.
  destruct Hclose as ((C00 & C01 & C02) & (C10 & C11 & C12) & (C20 & C21 & C22)).
  destruct (normalize_enclose x0 B0) as (Q0a & Q0b & N0a & N0b).
  destruct (normalize_enclose x1 B1) as (Q1a & Q1b & N1a & N1b).
  destruct (normalize_enclose x2 B2) as (Q2a & Q2b & N2a & N2b).
  set (n0 := fdiv32 (astype_float x0) 255) in *.
  set (n1 := fdiv32 (astype_float x1) 255) in *.
  set (n2 := fdiv32 (astype_float x2) 255) in *.
  set (q0 := inject_Z x0 * (1 # 255)) in *.
  set (q1 := inject_Z x1 * (1 # 255)) in *.
  set (q2 := inject_Z x2 * (1 # 255)) in *.
  unfold eps32 in *.
  pose proof (fdot3_enclose n0 n1 n2 17.8824 43.5161 4.11935
                (n0 * 17.8824) (n1 * 43.5161) (n2 * 4.11935)
                ltac:(abs_le) ltac:(abs_le) ltac:(abs_le)) as L0.
  pose proof (fdot3_enclose n0 n1 n2 3.45565 27.1554 3.86714
                (n0 * 3.45565) (n1 * 27.1554) (n2 * 3.86714)
                ltac:(abs_le) ltac:(abs_le) ltac:(abs_le)) as L1.
  pose proof (fdot3_enclose n0 n1 n2 0.0299566 0.184309 1.46709
                (n0 * 0.0299566) (n1 * 0.184309) (n2 * 1.46709)
                ltac:(abs_le) ltac:(abs_le) ltac:(abs_le)) as L2.
  set (l0 := fdot3 (n0, n1, n2) (17.8824, 43.5161, 4.11935)) in *.
  set (l1 := fdot3 (n0, n1, n2) (3.45565, 27.1554, 3.86714)) in *.
  set (l2 := fdot3 (n0, n1, n2) (0.0299566, 0.184309, 1.46709)) in *.
  unfold eps64 in L0, L1, L2.
  assert (R0 : 0 <= l0 /\ l0 <= 66) by (split; lra).
  assert (R1 : 0 <= l1 /\ l1 <= 35) by (split; lra).
  assert (R2 : 0 <= l2 /\ l2 <= 2) by (split; lra).
  repeat split.
  - inverse_row l0 l1 l2 66 35 2 v00 v01 v02 C00 C01 C02.
    apply denormalize_near; [exact B0 | fold q0; lra | fold q0; lra].
  - inverse_row l0 l1 l2 66 35 2 v00 v01 v02 C00 C01 C02.
    apply denormalize_near; [exact B0 | fold q0; lra | fold q0; lra].
  - inverse_row l0 l1 l2 66 35 2 v10 v11 v12 C10 C11 C12.
    apply denormalize_near; [exact B1 | fold q1; lra | fold q1; lra].
  - inverse_row l0 l1 l2 66 35 2 v10 v11 v12 C10 C11 C12.
    apply denormalize_near; [exact B1 | fold q1; lra | fold q1; lra].
  - inverse_row l0 l1 l2 66 35 2 v20 v21 v22 C20 C21 C22.
    apply denormalize_near; [exact B2 | fold q2; lra | fold q2; lra].
  - inverse_row l0 l1 l2 66 35 2 v20 v21 v22 C20 C21 C22.
    apply denormalize_near; [exact B2 | fold q2; lra | fold q2; lra].
Qed.

End RoundTrip.

(** From pixels to images. *)
Lemma Forall2_pixels (R : Z -> Z -> Prop) (f : pixel -> pixel) (n : nat) :
  (forall x0 x1 x2, in_byte x0 -> in_byte x1 -> in_byte x2 ->
     let '(y0, y1, y2) := f (x0, x1, x2) in R x0 y0 /\ R x1 y1 /\ R x2 y2) ->
  forall l : list Z,
    length l = (n * 3)%nat -> Forall in_byte l ->
    Forall2 R l (flatten3 (map f (rows3 l))).
Proof.
  intros Hf. induction n as [|n IH]; intros l Hl Hb.
  - destruct l; [constructor | discriminate].
  - destruct l as [|x0 [|x1 [|x2 t]]]; try discriminate.
    inversion Hb as [|? ? B0 Hb1]; subst.
    inversion Hb1 as [|? ? B1 Hb2]; subst.
    inversion Hb2 as [|? ? B2 Hb3]; subst.
    cbn [rows3 map]. specialize (Hf x0 x1 x2 B0 B1 B2).
    destruct (f (x0, x1, x2)) as [[y0 y1] y2]. destruct Hf as (R0 & R1 & R2).
    change (flatten3 ((y0, y1, y2) :: map f (rows3 t)))
      with (y0 :: y1 :: y2 :: flatten3 (map f (rows3 t))).
    repeat constructor; try assumption.
    apply IH; [simpl in Hl; lia | exact Hb3].
Qed.

(** C2. For every image of bytes, converting to LMS and back gives an
    image of the same shape whose channels differ from the original ones
    by at most 1 (they are the original value or one less), under the
    rounding-error model [FloatSpec] of the floating-point operations. *)
Theorem C2_round_trip (F : FloatOps) (FS : FloatSpec F) (img : ndarray Z) :
  is_image img -> valid_image img ->
  exists lms out,
    rgb_to_lms corrector_init img = Ok lms /\
    lms_to_rgb corrector_init lms = Ok out /\
    shape out = shape img /\
    Forall2 (fun x y => (Z.abs (y - x) <= 1)%Z) (data img) (data out).
Proof.
  intros (h & w & Hs & Hl) Hvalid.
  destruct (image_rows img Hs Hl) as [Hn _].
  eexists. eexists.
  split; [exact (rgb_to_lms_pixels corrector_init img Hs Hl)|].
  split; [apply lms_to_rgb_pixels; now rewrite length_map|].
  cbn [shape data]. split; [now rewrite Hs|].
  rewrite map_map.
  apply (Forall2_pixels (fun x y => (Z.abs (y - x) <= 1)%Z)
           (fun p => to_rgb_px corrector_init (to_lms_px corrector_init p))
           (h * w)); [|exact Hl|exact Hvalid].
  intros x0 x1 x2 B0 B1 B2.
  pose proof (roundtrip_px x0 x1 x2 B0 B1 B2) as H.
  destruct (to_rgb_px corrector_init (to_lms_px corrector_init (x0, x1, x2)))
    as [[y0 y1] y2].
  repeat split; lia.
Qed.

Lemma C2_round_trip_witness :
  FloatSpec exact_ops /\ is_image red_green /\ valid_image red_green /\
  exists lms out,
    @rgb_to_lms exact_ops (@corrector_init exact_ops) red_green = Ok lms /\
    @lms_to_rgb exact_ops (@corrector_init exact_ops) lms = Ok out /\
    shape out = shape red_green /\
    Forall2 (fun x y => (Z.abs (y - x) <= 1)%Z) (data red_green) (data out).
Proof.
  split; [exact exact_ops_spec|].
  split; [exact red_green_is_image|].
  split; [exact red_green_valid|].
  exact (C2_round_trip exact_ops exact_ops_spec red_green
           red_green_is_image red_green_valid).
Defined.

(* ================================================================= *)
(** * A green pixel under the deuteranopia correction *)

Section GreenPixel.

Context {F : FloatOps} {FS : FloatSpec F}.

Lemma normalize_0 : fdiv32 (astype_float 0) 255 == 0.
Proof.
  destruct (normalize_enclose 0 ltac:(unfold in_byte; lia)) as (_ & _ & H0 & H1).
  change (inject_Z 0) with 0 in H0, H1. unfold eps32 in *.
  apply Qle_antisym; lra.
Qed.

Lemma normalize_255 :
  1 - eps32 <= fdiv32 (astype_float 255) 255 /\
  fdiv32 (astype_float 255) 255 <= 1 + eps32.
Proof.
  destruct (normalize_enclose 255 ltac:(unfold in_byte; lia)) as (_ & _ & H0 & H1).
  change (inject_Z 255) with 255 in H0, H1. unfold eps32 in *. split; lra.
Qed.

(** Back to bytes, from below: a value of at least [a] gives at least
    the byte under [255 * a]. *)
Lemma denormalize_ge (r a : Q) (z : Z) :
  a <= r -> 0 <= a -> a <= 1 -> (0 <= z)%Z ->
  inject_Z z + 0.001 <= 255 * a ->
  (z <= astype_uint8 (fmul (clip r 0 1) 255) <= 255)%Z.
Proof.
  intros Har Ha0 Ha1 Hz Hza.
  destruct (clip_range r 0 1 ltac:(lra)) as [Hc0 Hc1].
  pose proof (clip_lower r 0 1 _ Har Ha1) as Hcl.
  set (c := clip r 0 1) in *.
  assert (HP : Qabs (c * 255) <= c * 255) by (apply Qabs_le_intro; lra).
  destruct (fmul_enclose c 255 _ HP) as [Hp0 Hp1].
  set (p := fmul c 255) in *. unfold eps64 in Hp0, Hp1.
  assert (Hpn : 0 <= p) by lra.
  unfold astype_uint8. rewrite (Qtrunc_nonneg p Hpn).
  assert (Hf1 : (z <= Qfloor p)%Z) by (apply Qfloor_lower; lra).
  assert (Hf2 : (Qfloor p <= 255)%Z)
    by (apply Qfloor_upper; change (inject_Z 255) with 255; lra).
  unfold to_uint8. rewrite Z.mod_small by lia. lia.
Qed.

(** Back to bytes, exactly: a value in [[a, b]], with [255 * a] and
    [255 * b] strictly between [z] and [z + 1], gives [z]. *)
Lemma denormalize_eq (r a b : Q) (z : Z) :
  a <= r -> r <= b -> 0 <= a -> b <= 1 -> (0 <= z <= 255)%Z ->
  inject_Z z + 0.001 <= 255 * a -> 255 * b + 0.001 <= inject_Z z + 1 ->
  astype_uint8 (fmul (clip r 0 1) 255) = z.
Proof.
  intros Har Hrb Ha0 Hb1 Hz Hza Hzb.
  destruct (clip_range r 0 1 ltac:(lra)) as [Hc0 Hc1].
  pose proof (clip_lower r 0 1 _ Har ltac:(lra)) as Hcl.
  pose proof (clip_upper r 0 1 _ Hrb ltac:(lra)) as Hcu.
  set (c := clip r 0 1) in *.
  assert (HP : Qabs (c * 255) <= c * 255) by (apply Qabs_le_intro; lra).
  destruct (fmul_enclose c 255 _ HP) as [Hp0 Hp1].
  set (p := fmul c 255) in *. unfold eps64 in Hp0, Hp1.
  assert (Hpn : 0 <= p) by lra.
  unfold astype_uint8. rewrite (Qtrunc_nonneg p Hpn).
  assert (Hf1 : (z <= Qfloor p)%Z) by (apply Qfloor_lower; lra).
  assert (Hf2 : (Qfloor p <= z)%Z) by (apply Qfloor_upper; lra).
  unfold to_uint8. rewrite Z.mod_small by lia. lia.
Qed.

(** The LMS triple of a green pixel, then its deuteranopia simulation,
    the error, the redistributed error, the corrected triple and its
    image under the computed inverse, each enclosed in turn. *)
Lemma daltonize_green_px :
  let '(y0, y1, y2) :=
    daltonize_px corrector_init DEUTERANOPIA_SIM deuteranopia_correction
      (0, 255, 0)%Z in
  y0 = 191%Z /\ y1 = 135%Z /\ (254 <= y2 <= 255)%Z.
Proof.
  destruct linalg_inv_entries
    as (v00 & v01 & v02 & v10 & v11 & v12 & v20 & v21 & v22 & Hinv & Hclose).
  unfold daltonize_px, to_rgb_px, to_lms_px, normalize_px, mv.
  cbn [rgb2lms lms2rgb corrector_init vmap vzip]. rewrite Hinv.
  cbv [matrix_close vec_close row0 row1 row2 fst snd INV_DEC RGB2LMS
       DEUTERANOPIA_SIM deuteranopia_correction] in *.
  destruct Hclose as ((C00 & C01 & C02) & (C10 & C11 & C12) & (C20 & C21 & C22)).
  pose proof normalize_0 as N0. destruct normalize_255 as [N1a N1b].
  set (z := fdiv32 (astype_float 0) 255) in *.
  set (n := fdiv32 (astype_float 255) 255) in *.
  unfold eps32 in *.
  (* lms_original *)
  pose proof (fdot3_enclose z n z 17.8824 43.5161 4.11935 0 44 0
                ltac:(abs_le) ltac:(abs_le) ltac:(abs_le)) as L0.
  pose proof (fdot3_enclose z n z 3.45565 27.1554 3.86714 0 28 0
                ltac:(abs_le) ltac:(abs_le) ltac:(abs_le)) as L1.
  pose proof (fdot3_enclose z n z 0.0299566 0.184309 1.46709 0 1 0
                ltac:(abs_le) ltac:(abs_le) ltac:(abs_le)) as L2.
  set (l0 := fdot3 (z, n, z) (17.8824, 43.5161, 4.11935)) in *.
  set (l1 := fdot3 (z, n, z) (3.45565, 27.1554, 3.86714)) in *.
  set (l2 := fdot3 (z, n, z) (0.0299566, 0.184309, 1.46709)) in *.
  unfold eps64 in L0, L1, L2.
  (* lms_simulated *)
  pose proof (fdot3_enclose l0 l1 l2 1 0 0 44 0 0
                ltac:(abs_le) ltac:(abs_le) ltac:(abs_le)) as S0.
  pose proof (fdot3_enclose l0 l1 l2 0.494207 0 1.24827 22 0 1
                ltac:(abs_le) ltac:(abs_le) ltac:(abs_le)) as S1.
  pose proof (fdot3_enclose l0 l1 l2 0 0 1 0 0 1
                ltac:(abs_le) ltac:(abs_le) ltac:(abs_le)) as S2.
  set (s0 := fdot3 (l0, l1, l2) (1, 0, 0)) in *.
  set (s1 := fdot3 (l0, l1, l2) (0.494207, 0, 1.24827)) in *.
  set (s2 := fdot3 (l0, l1, l2) (0, 0, 1)) in *.
  unfold eps64 in S0, S1, S2.
  (* lms_error *)
  pose proof (fsub_enclose l0 s0 1 ltac:(abs_le)) as E0.
  pose proof (fsub_enclose l1 s1 6 ltac:(abs_le)) as E1.
  pose proof (fsub_enclose l2 s2 1 ltac:(abs_le)) as E2.
  set (e0 := fsub l0 s0) in *.
  set (e1 := fsub l1 s1) in *.
  set (e2 := fsub l2 s2) in *.
  unfold eps64 in E0, E1, E2.
  (* the redistributed error *)
  pose proof (fdot3_enclose e0 e1 e2 1 0.7 0 1 4 0
                ltac:(abs_le) ltac:(abs_le) ltac:(abs_le)) as K0.
  pose proof (fdot3_enclose e0 e1 e2 0 0 0 0 0 0
                ltac:(abs_le) ltac:(abs_le) ltac:(abs_le)) as K1.
  pose proof (fdot3_enclose e0 e1 e2 0 0.7 1 0 4 1
                ltac:(abs_le) ltac:(abs_le) ltac:(abs_le)) as K2.
  set (k0 := fdot3 (e0, e1, e2) (1, 0.7, 0)) in *.
  set (k1 := fdot3 (e0, e1, e2) (0, 0, 0)) in *.
  set (k2 := fdot3 (e0, e1, e2) (0, 0.7, 1)) in *.
  unfold eps64 in K0, K1, K2.
  (* lms_corrected *)
  pose proof (fadd_enclose l0 k0 48 ltac:(abs_le)) as A0.
  pose proof (fadd_enclose l1 k1 28 ltac:(abs_le)) as A1.
  pose proof (fadd_enclose l2 k2 4 ltac:(abs_le)) as A2.
  set (c0 := fadd l0 k0) in *.
  set (c1 := fadd l1 k1) in *.
  set (c2 := fadd l2 k2) in *.
  unfold eps64 in A0, A1, A2.
  assert (R0 : 47.3 <= c0 /\ c0 <= 47.32) by (split; lra).
  assert (R1 : 27.15 <= c1 /\ c1 <= 27.16) by (split; lra).
  assert (R2 : 3.97 <= c2 /\ c2 <= 3.98) by (split; lra).
  repeat split.
  - inverse_row c0 c1 c2 48 28 4 v00 v01 v02 C00 C01 C02.
    apply (denormalize_eq _ 0.7495 0.7502);
      try change (inject_Z 191) with 191; try lra; lia.
  - inverse_row c0 c1 c2 48 28 4 v10 v11 v12 C10 C11 C12.
    apply (denormalize_eq _ 0.5298 0.5305);
      try change (inject_Z 135) with 135; try lra; lia.
  - inverse_row c0 c1 c2 48 28 4 v20 v21 v22 C20 C21 C22.
    apply (denormalize_ge _ 1 254);
      try change (inject_Z 254) with 254; try lra; lia.
  - inverse_row c0 c1 c2 48 28 4 v20 v21 v22 C20 C21 C22.
    apply (denormalize_ge _ 1 254);
      try change (inject_Z 254) with 254; try lra; lia.
Qed.

End GreenPixel.

(* ================================================================= *)
(** * A green pixel under [apply_correction] *)

Section GreenPixelRGB.

Context {F : FloatOps} {FS : FloatSpec F}.

(** A clipped value between [z] and [z + 1] is cast to the byte [z]. *)
Lemma cast_clip_eq (x a b : Q) (z : Z) :
  a <= x -> x <= b -> (0 <= z <= 255)%Z ->
  inject_Z z <= a \/ (b <= 0 /\ z = 0%Z) ->
  b < inject_Z z + 1 ->
  astype_uint8 (clip x 0 255) = z.
Proof.
  intros Hax Hxb Hz Hlo Hhi.
  destruct (clip_range x 0 255 ltac:(lra)) as [Hc0 Hc1].
  assert (Hzq : 0 <= inject_Z z)
    by (change 0 with (inject_Z 0); rewrite <- Zle_Qle; lia).
  assert (Hzq' : inject_Z z <= 255)
    by (change 255 with (inject_Z 255); rewrite <- Zle_Qle; lia).
  pose proof (clip_upper x 0 255 (Qmax b 0)
                ltac:(apply Qle_trans with b; [exact Hxb | apply Q.le_max_l])
                ltac:(apply Q.le_max_r)) as Hcu.
  assert (Hcu' : clip x 0 255 < inject_Z z + 1).
  { apply Qle_lt_trans with (Qmax b 0); [exact Hcu|].
    apply Q.max_lub_lt; lra. }
  assert (Hcl : inject_Z z <= clip x 0 255).
  { destruct Hlo as [Hlo | [_ ->]].
    - apply clip_lower; lra.
    - exact Hc0. }
  set (c := clip x 0 255) in *.
  unfold astype_uint8. rewrite (Qtrunc_nonneg c Hc0).
  assert (Hf1 : (z <= Qfloor c)%Z) by (apply Qfloor_lower; exact Hcl).
  assert (Hf2 : (Qfloor c <= z)%Z) by (apply Qfloor_upper; exact Hcu').
  unfold to_uint8. rewrite Z.mod_small by lia. lia.
Qed.

(** The same enclosure for a row [v] of the computed inverse applied to
    a column [s]. *)
Ltac inverse_col s0 s1 s2 b0 b1 b2 v0 v1 v2 H0 H1 H2 :=
  let E0 := fresh "E" in let E1 := fresh "E" in let E2 := fresh "E" in
  let D := fresh "D" in
  pose proof (mul_enclose s0 v0 _ b0 _ ltac:(abs_le) H0) as E0;
  pose proof (mul_enclose s1 v1 _ b1 _ ltac:(abs_le) H1) as E1;
  pose proof (mul_enclose s2 v2 _ b2 _ ltac:(abs_le) H2) as E2;
  unfold inv_eta in E0, E1, E2;
  pose proof (fdot3_enclose v0 v1 v2 s0 s1 s2 b0 b1 b2
                ltac:(abs_le) ltac:(abs_le) ltac:(abs_le)) as D;
  unfold eps64 in D.

Lemma apply_correction_green_px (m : string) :
  apply_correction_px (color_corrector_init m) (0, 255, 0)%Z
  = (0, 203, 0)%Z.
Proof.
  destruct linalg_inv_entries
    as (v00 & v01 & v02 & v10 & v11 & v12 & v20 & v21 & v22 & Hinv & Hclose).
  unfold apply_correction_px, mv_col.
  change (vmap astype_float (swap_px (vmap to_uint8 (0, 255, 0)%Z)))
    with (0, 255, 0).
  cbn [lms_matrix sim_deuteranopia rgb_matrix_inv err_mod color_corrector_init
       vmap vzip swap_px].
  rewrite Hinv.
  cbv [matrix_close vec_close row0 row1 row2 fst snd INV_DEC RGB2LMS] in *.
  destruct Hclose as ((C00 & C01 & C02) & (C10 & C11 & C12) & (C20 & C21 & C22)).
  (* lms *)
  pose proof (fdot3_enclose 17.8824 43.5161 4.11935 0 255 0 0 11100 0
                ltac:(abs_le) ltac:(abs_le) ltac:(abs_le)) as L0.
  pose proof (fdot3_enclose 3.45565 27.1554 3.86714 0 255 0 0 7000 0
                ltac:(abs_le) ltac:(abs_le) ltac:(abs_le)) as L1.
  pose proof (fdot3_enclose 0.0299566 0.184309 1.46709 0 255 0 0 47 0
                ltac:(abs_le) ltac:(abs_le) ltac:(abs_le)) as L2.
  set (l0 := fdot3 (17.8824, 43.5161, 4.11935) (0, 255, 0)) in *.
  set (l1 := fdot3 (3.45565, 27.1554, 3.86714) (0, 255, 0)) in *.
  set (l2 := fdot3 (0.0299566, 0.184309, 1.46709) (0, 255, 0)) in *.
  unfold eps64 in L0, L1, L2.
  (* lms_sim *)
  pose proof (fdot3_enclose 1 0 0 l0 l1 l2 11100 0 0
                ltac:(abs_le) ltac:(abs_le) ltac:(abs_le)) as S0.
  pose proof (fdot3_enclose 0.494207 0 1.24827 l0 l1 l2 5500 0 60
                ltac:(abs_le) ltac:(abs_le) ltac:(abs_le)) as S1.
  pose proof (fdot3_enclose 0 0 1 l0 l1 l2 0 0 47
                ltac:(abs_le) ltac:(abs_le) ltac:(abs_le)) as S2.
  set (s0 := fdot3 (1, 0, 0) (l0, l1, l2)) in *.
  set (s1 := fdot3 (0.494207, 0, 1.24827) (l0, l1, l2)) in *.
  set (s2 := fdot3 (0, 0, 1) (l0, l1, l2)) in *.
  unfold eps64 in S0, S1, S2.
  assert (R0 : 11096 <= s0 /\ s0 <= 11097) by (split; lra).
  assert (R1 : 5542 <= s1 /\ s1 <= 5543) by (split; lra).
  assert (R2 : 46 <= s2 /\ s2 <= 47) by (split; lra).
  (* rgb_sim *)
  inverse_col s0 s1 s2 11100 5560 47 v00 v01 v02 C00 C01 C02.
  inverse_col s0 s1 s2 11100 5560 47 v10 v11 v12 C10 C11 C12.
  inverse_col s0 s1 s2 11100 5560 47 v20 v21 v22 C20 C21 C22.
  set (r0 := fdot3 (v00, v01, v02) (s0, s1, s2)) in *.
  set (r1 := fdot3 (v10, v11, v12) (s0, s1, s2)) in *.
  set (r2 := fdot3 (v20, v21, v22) (s0, s1, s2)) in *.
  assert (T0 : 180.3 <= r0 /\ r0 <= 180.4) by (split; lra).
  assert (T1 : 180.3 <= r1 /\ r1 <= 180.4) by (split; lra).
  assert (T2 : 5.6 <= r2 /\ r2 <= 5.8) by (split; lra).
  clear - FS T0 T1 T2.
  (* error *)
  pose proof (fsub_enclose 0 r0 181 ltac:(abs_le)) as E0.
  pose proof (fsub_enclose 255 r1 75 ltac:(abs_le)) as E1.
  pose proof (fsub_enclose 0 r2 6 ltac:(abs_le)) as E2.
  set (e0 := fsub 0 r0) in *.
  set (e1 := fsub 255 r1) in *.
  set (e2 := fsub 0 r2) in *.
  unfold eps64 in E0, E1, E2.
  (* correction *)
  pose proof (fdot3_enclose 0 0 0 e0 e1 e2 0 0 0
                ltac:(abs_le) ltac:(abs_le) ltac:(abs_le)) as K0.
  pose proof (fdot3_enclose 0.7 1 0 e0 e1 e2 127 76 0
                ltac:(abs_le) ltac:(abs_le) ltac:(abs_le)) as K1.
  pose proof (fdot3_enclose 0.7 0 1 e0 e1 e2 127 0 7
                ltac:(abs_le) ltac:(abs_le) ltac:(abs_le)) as K2.
  set (k0 := fdot3 (0, 0, 0) (e0, e1, e2)) in *.
  set (k1 := fdot3 (0.7, 1, 0) (e0, e1, e2)) in *.
  set (k2 := fdot3 (0.7, 0, 1) (e0, e1, e2)) in *.
  unfold eps64 in K0, K1, K2.
  (* dtpn *)
  pose proof (fadd_enclose 0 k0 0 ltac:(abs_le)) as A0.
  pose proof (fadd_enclose 255 k1 256 ltac:(abs_le)) as A1.
  pose proof (fadd_enclose 0 k2 133 ltac:(abs_le)) as A2.
  set (d0 := fadd 0 k0) in *.
  set (d1 := fadd 255 k1) in *.
  set (d2 := fadd 0 k2) in *.
  unfold eps64 in A0, A1, A2.
  assert (X2 : astype_uint8 (clip d2 0 255) = 0%Z).
  { apply (cast_clip_eq d2 (-133) (-130) 0).
    - lra.
    - lra.
    - lia.
    - right. split; [lra | reflexivity].
    - change (inject_Z 0) with 0. lra. }
  assert (X1 : astype_uint8 (clip d1 0 255) = 203%Z).
  { apply (cast_clip_eq d1 203.3 203.5 203).
    - lra.
    - lra.
    - lia.
    - left. change (inject_Z 203) with 203. lra.
    - change (inject_Z 203) with 203. lra. }
  assert (X0 : astype_uint8 (clip d0 0 255) = 0%Z).
  { apply (cast_clip_eq d0 0 0 0).
    - lra.
    - lra.
    - lia.
    - left. change (inject_Z 0) with 0. lra.
    - change (inject_Z 0) with 0. lra. }
  rewrite X0, X1, X2.
  reflexivity.
Qed.

End GreenPixelRGB.

(* ================================================================= *)
(** * The concrete scenario, and the two variants *)

Lemma green_is_image : is_image green.
Proof. exists 1%nat, 1%nat. split; reflexivity. Qed.

Lemma green_valid : valid_image green.
Proof. unfold valid_image, green, in_byte. cbn [data]. repeat constructor; lia. Qed.

(** C8. On the 2 x 1 image [(255,0,0), (0,255,0)], the pipeline in mode
    deuteranopia ([set_mode] then [process_frame]) returns an image that
    differs from what mode normal returns (the image itself) on the red
    and on the blue channel of the green pixel: they become 191 and at
    least 254 instead of 0.  This holds under the rounding-error model
    [FloatSpec]. *)
Theorem C8_deuteranopia_changes_green (F : FloatOps) (FS : FloatSpec F) :
  exists off on : ndarray Z,
    process_frame (fst (set_mode corrector_init "normal")) red_green = Ok off /\
    process_frame (fst (set_mode corrector_init "deuteranopia")) red_green
      = Ok on /\
    off = red_green /\
    shape on = shape off /\
    nth 3 (data on) 0%Z <> nth 3 (data off) 0%Z /\
    nth 5 (data on) 0%Z <> nth 5 (data off) 0%Z.
Proof.
  pose proof daltonize_green_px as Hg.
  exists red_green.
  eexists. split; [reflexivity|]. split.
  - cbn [set_mode existsb valid_modes fst String.eqb Ascii.eqb Bool.eqb orb].
    unfold process_frame.
    cbn [current_mode with_mode existsb String.eqb Ascii.eqb Bool.eqb orb].
    apply (daltonize_pixels _ red_green "deuteranopia"
             (sim := DEUTERANOPIA_SIM) (ec := deuteranopia_correction)
             (h := 1) (w := 2) eq_refl eq_refl).
    reflexivity.
  - split; [reflexivity|]. split; [reflexivity|].
    cbn [data red_green rows3 map].
    change (daltonize_px (with_mode corrector_init "deuteranopia")
              DEUTERANOPIA_SIM deuteranopia_correction (0, 255, 0)%Z)
      with (daltonize_px corrector_init DEUTERANOPIA_SIM
              deuteranopia_correction (0, 255, 0)%Z).
    destruct (daltonize_px corrector_init DEUTERANOPIA_SIM
                deuteranopia_correction (0, 255, 0)%Z) as [[y0 y1] y2].
    destruct (daltonize_px (with_mode corrector_init "deuteranopia")
                DEUTERANOPIA_SIM deuteranopia_correction (255, 0, 0)%Z)
      as [[a0 a1] a2].
    destruct Hg as (H0 & H1 & H2). cbn. split; lia.
Qed.

Lemma C8_deuteranopia_changes_green_witness :
  FloatSpec exact_ops /\
  exists off on : ndarray Z,
    @process_frame exact_ops
      (fst (set_mode (@corrector_init exact_ops) "normal")) red_green = Ok off /\
    @process_frame exact_ops
      (fst (set_mode (@corrector_init exact_ops) "deuteranopia")) red_green
      = Ok on /\
    off = red_green /\
    shape on = shape off /\
    nth 3 (data on) 0%Z <> nth 3 (data off) 0%Z /\
    nth 5 (data on) 0%Z <> nth 5 (data off) 0%Z.
Proof.
  split; [exact exact_ops_spec|].
  exact (C8_deuteranopia_changes_green exact_ops exact_ops_spec).
Defined.

(** C9. The two variants are not equivalent: on the image of one green
    pixel, [daltonize] with ["deuteranopia"] (error taken in LMS space)
    returns (191, 135, 254 or 255) and [apply_correction] (error taken in
    RGB space) returns (0, 203, 0), whatever mode the [ColorCorrector]
    was built with.  This holds under the rounding-error model
    [FloatSpec]. *)
Theorem C9_variants_differ (F : FloatOps) (FS : FloatSpec F) (m : string) :
  exists img a b : ndarray Z,
    is_image img /\ valid_image img /\
    daltonize corrector_init img "deuteranopia" = Ok a /\
    apply_correction (color_corrector_init m) img = Ok b /\
    a <> b.
Proof.
  pose proof daltonize_green_px as Hg.
  pose proof (apply_correction_green_px m) as Ha.
  exists green. eexists. eexists.
  split; [exact green_is_image|]. split; [exact green_valid|].
  split; [|split].
  - apply (daltonize_pixels corrector_init green "deuteranopia"
             (sim := DEUTERANOPIA_SIM) (ec := deuteranopia_correction)
             (h := 1) (w := 1) eq_refl eq_refl).
    reflexivity.
  - apply (apply_correction_pixels (color_corrector_init m) green
             (h := 1) (w := 1) eq_refl eq_refl).
    discriminate.
  - cbn [data green rows3 map].
    rewrite Ha.
    destruct (daltonize_px corrector_init DEUTERANOPIA_SIM
                deuteranopia_correction (0, 255, 0)%Z) as [[y0 y1] y2].
    destruct Hg as (H0 & _). subst y0.
    intros Heq. discriminate Heq.
Qed.

Lemma C9_variants_differ_witness :
  FloatSpec exact_ops /\
  exists img a b : ndarray Z,
    is_image img /\ valid_image img /\
    @daltonize exact_ops (@corrector_init exact_ops) img "deuteranopia" = Ok a /\
    @apply_correction exact_ops
      (@color_corrector_init exact_ops "deuteranopia") img = Ok b /\
    a <> b.
Proof.
  split; [exact exact_ops_spec|].
  exact (C9_variants_differ exact_ops exact_ops_spec "deuteranopia").
Defined.

(* ================================================================= *)
(** * Sequences of mode changes *)

Lemma set_mode_accepts (self : ColorBlindnessCorrector) (m : string) :
  existsb (String.eqb m) valid_modes = true ->
  fst (set_mode self m) = with_mode self m.
Proof. intros H. unfold set_mode. now rewrite H. Qed.

Lemma set_mode_rejects (self : ColorBlindnessCorrector) (m : string) :
  existsb (String.eqb m) valid_modes = false ->
  fst (set_mode self m) = self.
Proof. intros H. unfold set_mode. now rewrite H. Qed.

(** After calls of [set_mode] the object is the one before with the last
    accepted name as its mode. *)
Lemma set_modes_from (modes : list string) :
  forall (self0 self : ColorBlindnessCorrector) (acc : option string),
    self = match acc with Some m => with_mode self0 m | None => self0 end ->
    fold_left (fun s m => fst (set_mode s m)) modes self
    = match fold_left
              (fun acc m =>
                 if existsb (String.eqb m) valid_modes then Some m else acc)
              modes acc
      with
      | Some m => with_mode self0 m
      | None => self0
      end.
Proof.
  induction modes as [|m modes IH]; intros self0 self acc Hself.
  - exact Hself.
  - cbn [fold_left]. apply IH.
    destruct (existsb (String.eqb m) valid_modes) eqn:E.
    + rewrite (set_mode_accepts self m E), Hself. now destruct acc.
    + rewrite (set_mode_rejects self m E). exact Hself.
Qed.

Lemma set_modes_last (self : ColorBlindnessCorrector) (modes : list string) :
  set_modes self modes
  = match last_valid_mode modes with
    | Some m => with_mode self m
    | None => self
    end.
Proof. apply (set_modes_from modes self self None). reflexivity. Qed.

Lemma last_valid_mode_valid (modes : list string) (m : string) :
  last_valid_mode modes = Some m -> In m valid_modes.
Proof.
  unfold last_valid_mode.
  assert (H : forall acc,
            (forall a, acc = Some a -> In a valid_modes) ->
            fold_left
              (fun acc m =>
                 if existsb (String.eqb m) valid_modes then Some m else acc)
              modes acc = Some m -> In m valid_modes).
  { induction modes as [|x modes IH]; intros acc Hacc Hf.
    - now apply Hacc.
    - cbn [fold_left] in Hf. refine (IH _ _ Hf).
      destruct (existsb (String.eqb x) valid_modes) eqn:E.
      + intros a [= <-]. now apply in_valid_modes.
      + exact Hacc. }
  apply H. intros a Ha. discriminate Ha.
Qed.

(** X1. Whatever names [set_mode] is called with, one call after the
    other, the mode of the object is the last name that was accepted (the
    mode before the calls when none was), the matrices are the ones
    before, and the mode stays one of the four valid names if it was one:
    the last branch of [process_frame] is never taken. *)
Theorem set_mode_sequence (self : ColorBlindnessCorrector) (modes : list string) :
  current_mode (set_modes self modes)
    = match last_valid_mode modes with
      | Some m => m
      | None => current_mode self
      end /\
  rgb2lms (set_modes self modes) = rgb2lms self /\
  lms2rgb (set_modes self modes) = lms2rgb self /\
  protanopia_sim (set_modes self modes) = protanopia_sim self /\
  deuteranopia_sim (set_modes self modes) = deuteranopia_sim self /\
  tritanopia_sim (set_modes self modes) = tritanopia_sim self /\
  (In (current_mode self) valid_modes ->
   In (current_mode (set_modes self modes)) valid_modes).
Proof.
  rewrite set_modes_last.
  destruct (last_valid_mode modes) as [m|] eqn:E.
  - repeat split. intros _. now apply (last_valid_mode_valid modes).
  - repeat split. intros H. exact H.
Qed.

Lemma set_mode_sequence_witness :
  In (current_mode
        (set_modes (@corrector_init exact_ops)
           ["protanopia"; "Tritanopia"; "off"]%string)) valid_modes.
Proof.
  apply (proj2 (proj2 (proj2 (proj2 (proj2 (proj2
           (set_mode_sequence (@corrector_init exact_ops)
              ["protanopia"; "Tritanopia"; "off"]%string))))))).
  simpl. auto.
Defined.

(** X2. What [process_frame] returns after any calls of [set_mode]
    depends on the last accepted name only; when that name is "normal",
    or when no name was accepted since the object was built, the frame
    comes back as it is, whatever was selected in between. *)
Theorem process_frame_after_modes (F : FloatOps)
  (modes1 modes2 : list string) (frame : ndarray Z) :
  (last_valid_mode modes1 = last_valid_mode modes2 ->
   process_frame (set_modes corrector_init modes1) frame
   = process_frame (set_modes corrector_init modes2) frame) /\
  process_frame (set_modes corrector_init (modes1 ++ ["normal"%string])) frame
  = Ok frame /\
  (last_valid_mode modes1 = None ->
   process_frame (set_modes corrector_init modes1) frame = Ok frame).
Proof.
  split; [|split].
  - intros H. now rewrite !set_modes_last, H.
  - rewrite set_modes_last. unfold last_valid_mode.
    rewrite fold_left_app. cbn [fold_left]. reflexivity.
  - intros H. now rewrite set_modes_last, H.
Qed.

Lemma process_frame_after_modes_witness :
  @process_frame exact_ops
    (set_modes (@corrector_init exact_ops) ["protanopia"; "x"; "normal"]%string)
    red_green
  = @process_frame exact_ops
      (set_modes (@corrector_init exact_ops) ["normal"]%string) red_green.
Proof.
  apply (proj1 (process_frame_after_modes exact_ops
                  ["protanopia"; "x"; "normal"]%string ["normal"]%string
                  red_green)).
  reflexivity.
Defined.

(* ================================================================= *)
(** * The application loop *)

Lemma daltonize_total {F : FloatOps} (self : ColorBlindnessCorrector)
  (img : ndarray Z) (cb_type : string) :
  is_image img -> valid_image img ->
  exists out, daltonize self img cb_type = Ok out /\
              shape out = shape img /\ valid_image out.
Proof.
  intros Himg Hvalid. pose proof Himg as (h & w & Hs & Hl).
  destruct (sim_matrix_of_cases self cb_type) as [Hnone | (sim & ec & Hsome)].
  - exists img. split; [now apply daltonize_other|]. now split.
  - eexists. split; [exact (daltonize_pixels self img cb_type Hs Hl Hsome)|].
    split; [now rewrite Hs|].
    unfold valid_image. cbn [data]. apply Forall_flatten3_map.
    intros p. apply to_rgb_px_in_byte.
Qed.








(** X5. The keys are read without regard to case, and only the low byte
    of what [cv2.waitKey] returns counts: a letter and its capital do the
    same, and so do two key codes that differ by a multiple of 256. *)
Theorem handle_key_ignores_case (self : ColorBlindnessCorrector) (c : ascii)
  (k j : Z) :
  handle_key self (ord c) = handle_key self (ord (upper_ascii c)) /\
  handle_key self (k + 256 * j) = handle_key self k.
Proof.
  split.
  - destruct c as [[] [] [] [] [] [] [] []]; reflexivity.
  - unfold handle_key.
    replace (Z.land (k + 256 * j) 255) with (Z.land k 255); [reflexivity|].
    change 255%Z with (Z.ones 8). rewrite !Z.land_ones by lia.
    change (2 ^ 8)%Z with 256%Z.
    rewrite Z.mul_comm, Z.mod_add by lia. reflexivity.
Qed.

(* ================================================================= *)
(** * The detector *)

Lemma in_filter_map {A B} (f : A -> option B) (l : list A) (b : B) :
  In b (filter_map f l) <-> exists a, In a l /\ f a = Some b.
Proof.
  induction l as [|x l IH]; cbn [filter_map].
  - split; [intros [] | intros (a & [] & _)].
  - destruct (f x) as [y|] eqn:E.
    + cbn [In]. rewrite IH. split.
      * intros [<- | (a & Ha & Hf)]; [exists x | exists a]; auto.
      * intros (a & [<- | Ha] & Hf); [left; congruence | right; eauto].
    + rewrite IH. split.
      * intros (a & Ha & Hf). exists a. split; [now right | exact Hf].
      * intros (a & [<- | Ha] & Hf); [congruence | eauto].
Qed.

Lemma length_filter_map {A B} (f : A -> option B) (l : list A) :
  (length (filter_map f l) <= length l)%nat.
Proof.
  induction l as [|x l IH]; cbn [filter_map length]; [lia|].
  destruct (f x); cbn [length]; lia.
Qed.

Lemma detection_of_box_some (yolo : Frame -> list (list box)) (b : box)
  (d : detection) :
  detection_of_box (object_detector_init yolo) b = Some d <->
  (Qtrunc (box_cls b) = 9%Z \/ Qtrunc (box_cls b) = 11%Z) /\
  d = (let '(x1, y1, x2, y2) := box_xyxy b in
       (Qtrunc x1, Qtrunc y1, Qtrunc x2, Qtrunc y2,
        Qtrunc (box_cls b), box_conf b)).
Proof.
  unfold detection_of_box. cbn [target_classes object_detector_init existsb].
  destruct (box_xyxy b) as [[[x1 y1] x2] y2].
  destruct (Z.eqb_spec (Qtrunc (box_cls b)) 9) as [E9|N9];
    [|destruct (Z.eqb_spec (Qtrunc (box_cls b)) 11) as [E11|N11]]; cbn [orb].
  - split; [intros [= <-]; split; [now left | reflexivity] | intros [_ ->]; reflexivity].
  - split; [intros [= <-]; split; [now right | reflexivity] | intros [_ ->]; reflexivity].
  - split; [discriminate | intros [[?|?] _]; contradiction].
Qed.

Lemma in_detect (yolo : Frame -> list (list box)) (frame : Frame)
  (d : detection) :
  In d (detect (object_detector_init yolo) frame) <->
  exists boxes b,
    In boxes (yolo frame) /\ In b boxes /\
    (Qtrunc (box_cls b) = 9%Z \/ Qtrunc (box_cls b) = 11%Z) /\
    d = (let '(x1, y1, x2, y2) := box_xyxy b in
         (Qtrunc x1, Qtrunc y1, Qtrunc x2, Qtrunc y2,
          Qtrunc (box_cls b), box_conf b)).
Proof.
  unfold detect. cbn [model object_detector_init]. rewrite in_flat_map.
  split.
  - intros (boxes & Hb & Hd). apply in_filter_map in Hd as (b & Hin & Hf).
    apply detection_of_box_some in Hf as [Hc ->].
    exists boxes, b. auto.
  - intros (boxes & b & Hb & Hin & Hc & ->). exists boxes. split; [exact Hb|].
    apply in_filter_map. exists b. split; [exact Hin|].
    apply detection_of_box_some. auto.
Qed.

Lemma length_detect (self : ObjectDetector) (frame : Frame) :
  (length (detect self frame) <= length (concat (model self frame)))%nat.
Proof.
  unfold detect. induction (model self frame) as [|boxes l IH]; [reflexivity|].
  cbn [flat_map concat]. rewrite !length_app.
  pose proof (length_filter_map (detection_of_box self) boxes). lia.
Qed.

(** X6. [detect] returns exactly the boxes the model reports with class
    9 (traffic light) or 11 (stop sign), their corners truncated toward
    zero to integers and class and confidence kept; boxes of any other
    class are left out, nothing is returned that the model did not
    report, and there are at most as many detections as boxes. *)
Theorem detect_keeps_target_classes (yolo : Frame -> list (list box))
  (frame : Frame) :
  (forall d : detection,
     In d (detect (object_detector_init yolo) frame) <->
     exists boxes b,
       In boxes (yolo frame) /\ In b boxes /\
       (Qtrunc (box_cls b) = 9%Z \/ Qtrunc (box_cls b) = 11%Z) /\
       d = (let '(x1, y1, x2, y2) := box_xyxy b in
            (Qtrunc x1, Qtrunc y1, Qtrunc x2, Qtrunc y2,
             Qtrunc (box_cls b), box_conf b))) /\
  (length (detect (object_detector_init yolo) frame)
   <= length (concat (yolo frame)))%nat.
Proof.
  split.
  - intros d. apply in_detect.
  - apply (length_detect (object_detector_init yolo) frame).
Qed.

Example detect_three_boxes :
  detect (object_detector_init three_boxes) vga_frame
  = three_boxes_detections.
Proof. reflexivity. Qed.

(* ================================================================= *)
(** * The camera loop with the detector *)

Lemma run_loop_detections (det : Frame -> list detection) (skip : nat)
  (P : detection -> Prop) :
  (forall frame, Forall P (det frame)) ->
  forall (frames : list Frame) (st : loop_state),
    Forall P (current_detections st) ->
    Forall (fun it => Forall P (detections_used it))
           (run_loop det skip st frames).
Proof.
  intros Hdet. induction frames as [|f rest IH]; intros st Hst.
  - constructor.
  - cbn [run_loop loop_body].
    assert (Hnew : Forall P (if (frame_count st mod skip =? 0)%nat
                             then det f else current_detections st))
      by (destruct (_ =? _)%nat; [apply Hdet | exact Hst]).
    constructor; [exact Hnew|]. apply IH. exact Hnew.
Qed.

Lemma detect_classes (yolo : Frame -> list (list box)) (frame : Frame) :
  Forall (fun d => cls_id_of d = 9%Z \/ cls_id_of d = 11%Z)
         (detect (object_detector_init yolo) frame).
Proof.
  apply Forall_forall. intros d Hd.
  apply in_detect in Hd as (boxes & b & _ & _ & Hc & ->).
  destruct (box_xyxy b) as [[[x1 y1] x2] y2]. exact Hc.
Qed.

(** X7. In the camera loop run with the detector, every box the loop
    goes over, on every frame, has class 9 or 11, and every region it
    hands to the corrector is not empty and lies inside the frame: the
    corrector never receives an empty array. *)
Theorem main_loop_regions (yolo : Frame -> list (list box))
  (frames : list Frame) (i : nat) (it : iteration) (frame : Frame) :
  nth_error (main_loop (detect (object_detector_init yolo)) frames) i = Some it ->
  nth_error frames i = Some frame ->
  Forall (fun d => cls_id_of d = 9%Z \/ cls_id_of d = 11%Z)
         (detections_used it) /\
  Forall (fun r =>
            (0 <= row_start r < row_stop r)%Z /\
            (row_stop r <= Z.of_nat (frame_h frame))%Z /\
            (0 <= col_start r < col_stop r)%Z /\
            (col_stop r <= Z.of_nat (frame_w frame))%Z /\
            exists d, In d (detections_used it) /\
                      process_detection (Z.of_nat (frame_h frame))
                        (Z.of_nat (frame_w frame)) d = Some r)
         (corrected it).
Proof.
  intros Hit Hfr. unfold main_loop in Hit. split.
  - pose proof (run_loop_detections (detect (object_detector_init yolo))
                  SKIP_FRAMES _ (detect_classes yolo) frames loop_init
                  ltac:(constructor)) as Hall.
    rewrite Forall_forall in Hall. apply Hall.
    eapply nth_error_In. exact Hit.
  - destruct (run_loop_step _ SKIP_FRAMES frames loop_init i Hit Hfr)
      as (_ & _ & Hc).
    rewrite Hc. apply Forall_forall. intros r Hr.
    apply in_filter_map in Hr as (d & Hd & Hp).
    pose proof (@process_detection_inside _ _ d r
                  (Nat2Z.is_nonneg (frame_h frame))
                  (Nat2Z.is_nonneg (frame_w frame)) Hp) as (H1 & H2 & H3 & H4).
    repeat split; try lia. exists d. now split.
Qed.

Lemma main_loop_regions_witness :
  Forall (fun d => cls_id_of d = 9%Z \/ cls_id_of d = 11%Z)
         three_boxes_detections /\
  Forall (fun r =>
            (0 <= row_start r < row_stop r)%Z /\
            (row_stop r <= Z.of_nat (frame_h vga_frame))%Z /\
            (0 <= col_start r < col_stop r)%Z /\
            (col_stop r <= Z.of_nat (frame_w vga_frame))%Z /\
            exists d, In d three_boxes_detections /\
                      process_detection (Z.of_nat (frame_h vga_frame))
                        (Z.of_nat (frame_w vga_frame)) d = Some r)
         [mk_roi 0 3 5 640; mk_roi 1 4 2 6].
Proof.
  exact (main_loop_regions three_boxes [vga_frame] 0
           {| detector_ran := true;
              detections_used := three_boxes_detections;
              corrected := [mk_roi 0 3 5 640; mk_roi 1 4 2 6] |}
           vga_frame eq_refl eq_refl).
Defined.

(* ================================================================= *)
(** * Boxes the clamping handles as meant *)

Lemma adjust_index_inside (i len : Z) :
  (0 <= i <= len)%Z -> adjust_index i len = i.
Proof.
  intros H. unfold adjust_index. destruct (Z.ltb_spec i 0); lia.
Qed.

Lemma adjust_index_beyond (i len : Z) :
  (0 <= len <= i)%Z -> adjust_index i len = len.
Proof.
  intros H. unfold adjust_index. destruct (Z.ltb_spec i 0); lia.
Qed.

(** The region of a box whose right and lower edges are not negative. *)
Lemma process_detection_nonneg (h w x1 y1 x2 y2 cls : Z) (conf : Q) :
  (0 <= h)%Z -> (0 <= w)%Z -> (0 <= x2)%Z -> (0 <= y2)%Z ->
  process_detection h w (x1, y1, x2, y2, cls, conf)
  = if ((Z.max 0 x1 <? Z.min w x2) && (Z.max 0 y1 <? Z.min h y2))%Z
    then Some (mk_roi (Z.max 0 y1) (Z.min h y2) (Z.max 0 x1) (Z.min w x2))
    else None.
Proof.
  intros Hh Hw Hx2 Hy2. unfold process_detection. cbn [clamp].
  unfold slice2.
  rewrite (adjust_index_inside (Z.min h y2) h) by lia.
  rewrite (adjust_index_inside (Z.min w x2) w) by lia.
  destruct (Z.ltb_spec (Z.max 0 x1) (Z.min w x2)) as [Hx|Hx];
    [destruct (Z.ltb_spec (Z.max 0 y1) (Z.min h y2)) as [Hy|Hy]|]; cbn [andb].
  - rewrite (adjust_index_inside (Z.max 0 y1) h) by lia.
    rewrite (adjust_index_inside (Z.max 0 x1) w) by lia.
    unfold roi_size, roi_rows, roi_cols.
    cbn [row_start row_stop col_start col_stop].
    destruct (Z.gtb_spec (Z.max 0 (Z.min h y2 - Z.max 0 y1) *
                          Z.max 0 (Z.min w x2 - Z.max 0 x1) * 3) 0);
      [reflexivity | nia].
  - unfold roi_size, roi_rows, roi_cols.
    cbn [row_start row_stop col_start col_stop].
    assert (Hr : Z.max 0 (Z.min h y2 - adjust_index (Z.max 0 y1) h) = 0%Z).
    { unfold adjust_index. destruct (Z.ltb_spec (Z.max 0 y1) 0); lia. }
    rewrite Hr. reflexivity.
  - unfold roi_size, roi_rows, roi_cols.
    cbn [row_start row_stop col_start col_stop].
    assert (Hc : Z.max 0 (Z.min w x2 - adjust_index (Z.max 0 x1) w) = 0%Z).
    { unfold adjust_index. destruct (Z.ltb_spec (Z.max 0 x1) 0); lia. }
    rewrite Hc, Z.mul_0_r. reflexivity.
Qed.

(** X8. For a box whose right and lower edges are not negative
    ([0 <= x2] and [0 <= y2]), the loop does what the clamping is meant
    to do: the region it corrects is the part of the box inside the
    frame, rows [max 0 y1] to [min h y2] and columns [max 0 x1] to
    [min w x2], and the box is dropped exactly when that part is empty. *)
Theorem process_detection_intersection (h w x1 y1 x2 y2 cls : Z) (conf : Q) :
  (0 <= h)%Z -> (0 <= w)%Z -> (0 <= x2)%Z -> (0 <= y2)%Z ->
  process_detection h w (x1, y1, x2, y2, cls, conf)
  = if ((Z.max 0 x1 <? Z.min w x2) && (Z.max 0 y1 <? Z.min h y2))%Z
    then Some (mk_roi (Z.max 0 y1) (Z.min h y2) (Z.max 0 x1) (Z.min w x2))
    else None.
Proof.
  intros Hh Hw Hx2 Hy2. now apply process_detection_nonneg.
Qed.

Lemma process_detection_intersection_witness :
  process_detection 480 640 box_over_corner = Some (mk_roi 0 30 600 640).
Proof.
  apply (process_detection_intersection 480 640 600 (-7) 700 30 9 0.5);
    lia.
Defined.

(* ================================================================= *)
(** * Corrections are pointwise *)

Lemma daltonize_pixel_list {F : FloatOps} (self : ColorBlindnessCorrector)
  (img out : ndarray Z) (cb_type : string) :
  is_image img -> daltonize self img cb_type = Ok out ->
  pixels out = map (daltonize_pixel_map self cb_type) (pixels img).
Proof.
  intros (h & w & Hs & Hl) Hout. unfold pixels, daltonize_pixel_map.
  destruct (sim_matrix_of self cb_type) as [[sim ec]|] eqn:E.
  - rewrite (daltonize_pixels self img cb_type Hs Hl E) in Hout.
    injection Hout as <-. cbn [data]. apply rows3_flatten3.
  - rewrite (@daltonize_other F self img cb_type) in Hout
      by (try exact E; exists h, w; now split).
    injection Hout as <-. now rewrite map_id.
Qed.

Lemma apply_correction_pixel_list {F : FloatOps} (self : ColorCorrector)
  (img out : ndarray Z) :
  is_image img -> data img <> [] -> apply_correction self img = Ok out ->
  pixels out = map (apply_correction_px self) (pixels img).
Proof.
  intros (h & w & Hs & Hl) Hne Hout.
  assert (Hhw : (h * w)%nat <> 0%nat).
  { intros H0. rewrite H0 in Hl. destruct (data img); [now apply Hne | discriminate]. }
  rewrite (apply_correction_pixels self img Hs Hl Hhw) in Hout.
  injection Hout as <-. unfold pixels. cbn [data]. apply rows3_flatten3.
Qed.

Lemma nth_error_map_eq {A B} (f : A -> B) (l1 l2 : list A) (k1 k2 : nat) (a : A) :
  nth_error l1 k1 = Some a -> nth_error l2 k2 = Some a ->
  nth_error (map f l1) k1 = Some (f a) /\
  nth_error (map f l2) k2 = Some (f a).
Proof.
  intros H1 H2. rewrite !nth_error_map, H1, H2. now split.
Qed.

(** X9. [daltonize] corrects every pixel by itself: the output has as
    many pixels as the input, and two equal pixels, in one image or in
    two, at whatever positions and with whatever neighbours, are
    corrected to equal pixels. *)
Theorem daltonize_pointwise (F : FloatOps) (self : ColorBlindnessCorrector)
  (cb_type : string) (img1 img2 out1 out2 : ndarray Z) :
  is_image img1 -> is_image img2 ->
  daltonize self img1 cb_type = Ok out1 ->
  daltonize self img2 cb_type = Ok out2 ->
  length (pixels out1) = length (pixels img1) /\
  forall (k1 k2 : nat) (p : pixel),
    nth_error (pixels img1) k1 = Some p ->
    nth_error (pixels img2) k2 = Some p ->
    exists q, nth_error (pixels out1) k1 = Some q /\
              nth_error (pixels out2) k2 = Some q.
Proof.
  intros I1 I2 H1 H2.
  rewrite (daltonize_pixel_list self img1 out1 cb_type I1 H1).
  rewrite (daltonize_pixel_list self img2 out2 cb_type I2 H2).
  split; [apply length_map|].
  intros k1 k2 p P1 P2. exists (daltonize_pixel_map self cb_type p).
  now apply nth_error_map_eq.
Qed.

(** X10. [apply_correction] corrects every pixel by itself as well: as
    many pixels out as in, and equal pixels are corrected to equal
    pixels, so that correcting a region gives what the region would be
    in the corrected frame. *)
Theorem apply_correction_pointwise (F : FloatOps) (self : ColorCorrector)
  (img1 img2 out1 out2 : ndarray Z) :
  is_image img1 -> is_image img2 ->
  apply_correction self img1 = Ok out1 ->
  apply_correction self img2 = Ok out2 ->
  length (pixels out1) = length (pixels img1) /\
  forall (k1 k2 : nat) (p : pixel),
    nth_error (pixels img1) k1 = Some p ->
    nth_error (pixels img2) k2 = Some p ->
    exists q, nth_error (pixels out1) k1 = Some q /\
              nth_error (pixels out2) k2 = Some q.
Proof.
  intros I1 I2 H1 H2.
  assert (N : forall img out, is_image img -> apply_correction self img = Ok out ->
                              data img <> []).
  { intros img out (h & w & Hs & Hl) Hout Hd.
    unfold apply_correction, arr_map in Hout. cbn [shape data] in Hout.
    rewrite Hs in Hout. unfold cvtColor_swap in Hout. cbn [shape] in Hout.
    rewrite Hd in Hl. cbn [length] in Hl.
    assert (Hhw : (h * w)%nat = 0%nat) by lia.
    rewrite Hhw in Hout. discriminate Hout. }
  rewrite (apply_correction_pixel_list self img1 out1 I1 (N _ _ I1 H1) H1).
  rewrite (apply_correction_pixel_list self img2 out2 I2 (N _ _ I2 H2) H2).
  split; [apply length_map|].
  intros k1 k2 p P1 P2. exists (apply_correction_px self p).
  now apply nth_error_map_eq.
Qed.

Example daltonize_exact_green :
  @daltonize exact_ops (@corrector_init exact_ops) green "deuteranopia"
  = Ok (mk_ndarray [1; 1; 3]%nat [191; 135; 255]%Z).
Proof. vm_compute. reflexivity. Qed.

Example apply_correction_exact_green :
  @apply_correction exact_ops (@color_corrector_init exact_ops "deuteranopia")
    green
  = Ok (mk_ndarray [1; 1; 3]%nat [0; 203; 0]%Z).
Proof. vm_compute. reflexivity. Qed.

Lemma daltonize_pointwise_witness :
  exists q,
    nth_error (pixels (mk_ndarray [1; 2; 3]%nat [63; 119; 0; 191; 135; 255]%Z)) 1
      = Some q /\
    nth_error (pixels (mk_ndarray [1; 1; 3]%nat [191; 135; 255]%Z)) 0 = Some q.
Proof.
  exact (proj2 (daltonize_pointwise exact_ops (@corrector_init exact_ops)
                  "deuteranopia" red_green green _ _
                  red_green_is_image green_is_image
                  daltonize_exact_red_green daltonize_exact_green)
               1%nat 0%nat (0, 255, 0)%Z eq_refl eq_refl).
Defined.

Lemma apply_correction_pointwise_witness :
  exists q,
    nth_error (pixels (mk_ndarray [1; 2; 3]%nat [254; 0; 0; 0; 203; 0]%Z)) 1
      = Some q /\
    nth_error (pixels (mk_ndarray [1; 1; 3]%nat [0; 203; 0]%Z)) 0 = Some q.
Proof.
  exact (proj2 (apply_correction_pointwise exact_ops
                  (@color_corrector_init exact_ops "deuteranopia")
                  red_green green _ _
                  red_green_is_image green_is_image
                  apply_correction_exact_red_green apply_correction_exact_green)
               1%nat 0%nat (0, 255, 0)%Z eq_refl eq_refl).
Defined.

(* ================================================================= *)
(** * What [apply_correction] refuses, and the fourth channel *)





(* ================================================================= *)
(** * Grey pixels *)

Section GreyPixels.

Context {F : FloatOps} {FS : FloatSpec F}.

(** Back to bytes: a value within [10^-4] of [x / 255] becomes [x] or
    [x - 1]. *)
Lemma denormalize_close (r : Q) (x : Z) :
  in_byte x ->
  inject_Z x * (1 # 255) - 0.0001 <= r ->
  r <= inject_Z x * (1 # 255) + 0.0001 ->
  (x - 1 <= astype_uint8 (fmul (clip r 0 1) 255) <= x)%Z /\
  (0 <= astype_uint8 (fmul (clip r 0 1) 255))%Z.
Proof.
  intros [Hx0 Hx1] Hlo Hhi.
  assert (H0 : 0 <= inject_Z x)
    by (change 0 with (inject_Z 0); now rewrite <- Zle_Qle).
  assert (H1 : inject_Z x <= 255)
    by (change 255 with (inject_Z 255); now rewrite <- Zle_Qle).
  destruct (clip_range r 0 1 ltac:(lra)) as [Hc0 Hc1].
  pose proof (clip_lower r 0 1 _ Hlo ltac:(lra)) as Hcl.
  pose proof (clip_upper r 0 1 _ Hhi ltac:(lra)) as Hcu.
  set (c := clip r 0 1) in *.
  assert (HP : Qabs (c * 255) <= c * 255) by (apply Qabs_le_intro; lra).
  destruct (fmul_enclose c 255 _ HP) as [Hp0 Hp1].
  set (p := fmul c 255) in *. unfold eps64 in Hp0, Hp1.
  assert (Hpn : 0 <= p) by lra.
  unfold astype_uint8. rewrite (Qtrunc_nonneg p Hpn).
  assert (Hf0 : (0 <= Qfloor p)%Z) by (apply Qfloor_lower; exact Hpn).
  assert (Hf1 : (x - 1 <= Qfloor p)%Z).
  { apply Qfloor_lower. change (x - 1)%Z with (x + -1)%Z.
    rewrite inject_Z_plus. change (inject_Z (-1)) with (-(1))%Q. lra. }
  assert (Hf2 : (Qfloor p <= x)%Z) by (apply Qfloor_upper; lra).
  unfold to_uint8. rewrite Z.mod_small by lia. lia.
Qed.

(** A grey pixel through [daltonize_px]: the LMS triple, its simulation,
    the error, the redistributed error, the corrected triple and its
    image under the computed inverse, enclosed in turn, for each of the
    three deficiencies. *)

Lemma grey_px_protanopia (x : Z) :
  in_byte x ->
  let '(y0, y1, y2) :=
    daltonize_px corrector_init PROTANOPIA_SIM protanopia_correction (x, x, x) in
  (x - 1 <= y0 <= x)%Z /\ (x - 1 <= y1 <= x)%Z /\ (x - 1 <= y2 <= x)%Z.
Proof.
  intros B.
  destruct linalg_inv_entries
    as (v00 & v01 & v02 & v10 & v11 & v12 & v20 & v21 & v22 & Hinv & Hclose).
  unfold daltonize_px, to_rgb_px, to_lms_px, normalize_px, mv.
  cbn [rgb2lms lms2rgb corrector_init vmap vzip]. rewrite Hinv.
  cbv [matrix_close vec_close row0 row1 row2 fst snd INV_DEC RGB2LMS
       PROTANOPIA_SIM protanopia_correction] in *.
  destruct Hclose as ((C00 & C01 & C02) & (C10 & C11 & C12) & (C20 & C21 & C22)).
  destruct (normalize_enclose x B) as (Qa & Qb & Na & Nb).
  set (n := fdiv32 (astype_float x) 255) in *.
  set (q := inject_Z x * (1 # 255)) in *.
  unfold eps32 in *.
  (* lms_original *)
  pose proof (fdot3_enclose n n n 17.8824 43.5161 4.11935 66 66 66
                ltac:(abs_le) ltac:(abs_le) ltac:(abs_le)) as L0.
  pose proof (fdot3_enclose n n n 3.45565 27.1554 3.86714 66 66 66
                ltac:(abs_le) ltac:(abs_le) ltac:(abs_le)) as L1.
  pose proof (fdot3_enclose n n n 0.0299566 0.184309 1.46709 66 66 66
                ltac:(abs_le) ltac:(abs_le) ltac:(abs_le)) as L2.
  set (l0 := fdot3 (n, n, n) (17.8824, 43.5161, 4.11935)) in *.
  set (l1 := fdot3 (n, n, n) (3.45565, 27.1554, 3.86714)) in *.
  set (l2 := fdot3 (n, n, n) (0.0299566, 0.184309, 1.46709)) in *.
  unfold eps64 in L0, L1, L2.
  (* lms_simulated *)
  pose proof (fdot3_enclose l0 l1 l2 0 2.02344 (-2.52581) 200 200 200
                ltac:(abs_le) ltac:(abs_le) ltac:(abs_le)) as S0.
  pose proof (fdot3_enclose l0 l1 l2 0 1 0 200 200 200
                ltac:(abs_le) ltac:(abs_le) ltac:(abs_le)) as S1.
  pose proof (fdot3_enclose l0 l1 l2 0 0 1 200 200 200
                ltac:(abs_le) ltac:(abs_le) ltac:(abs_le)) as S2.
  set (t0 := fdot3 (l0, l1, l2) (0, 2.02344, (-2.52581))) in *.
  set (t1 := fdot3 (l0, l1, l2) (0, 1, 0)) in *.
  set (t2 := fdot3 (l0, l1, l2) (0, 0, 1)) in *.
  unfold eps64 in S0, S1, S2.
  (* lms_error *)
  pose proof (fsub_enclose l0 t0 300 ltac:(abs_le)) as E0.
  pose proof (fsub_enclose l1 t1 300 ltac:(abs_le)) as E1.
  pose proof (fsub_enclose l2 t2 300 ltac:(abs_le)) as E2.
  set (e0 := fsub l0 t0) in *.
  set (e1 := fsub l1 t1) in *.
  set (e2 := fsub l2 t2) in *.
  unfold eps64 in E0, E1, E2.
  (* the redistributed error *)
  pose proof (fdot3_enclose e0 e1 e2 0 0 0 300 300 300
                ltac:(abs_le) ltac:(abs_le) ltac:(abs_le)) as K0.
  pose proof (fdot3_enclose e0 e1 e2 0.7 1 0 300 300 300
                ltac:(abs_le) ltac:(abs_le) ltac:(abs_le)) as K1.
  pose proof (fdot3_enclose e0 e1 e2 0.7 0 1 300 300 300
                ltac:(abs_le) ltac:(abs_le) ltac:(abs_le)) as K2.
  set (k0 := fdot3 (e0, e1, e2) (0, 0, 0)) in *.
  set (k1 := fdot3 (e0, e1, e2) (0.7, 1, 0)) in *.
  set (k2 := fdot3 (e0, e1, e2) (0.7, 0, 1)) in *.
  unfold eps64 in K0, K1, K2.
  (* lms_corrected *)
  pose proof (fadd_enclose l0 k0 1000 ltac:(abs_le)) as A0.
  pose proof (fadd_enclose l1 k1 1000 ltac:(abs_le)) as A1.
  pose proof (fadd_enclose l2 k2 1000 ltac:(abs_le)) as A2.
  set (d0 := fadd l0 k0) in *.
  set (d1 := fadd l1 k1) in *.
  set (d2 := fadd l2 k2) in *.
  unfold eps64 in A0, A1, A2.
  assert (R0 : -1 <= d0 /\ d0 <= 66) by (split; lra).
  assert (R1 : -1 <= d1 /\ d1 <= 35) by (split; lra).
  assert (R2 : -1 <= d2 /\ d2 <= 2) by (split; lra).
  repeat split.
  - inverse_row d0 d1 d2 66 35 2 v00 v01 v02 C00 C01 C02.
    apply denormalize_close; [exact B | fold q; lra | fold q; lra].
  - inverse_row d0 d1 d2 66 35 2 v00 v01 v02 C00 C01 C02.
    apply denormalize_close; [exact B | fold q; lra | fold q; lra].
  - inverse_row d0 d1 d2 66 35 2 v10 v11 v12 C10 C11 C12.
    apply denormalize_close; [exact B | fold q; lra | fold q; lra].
  - inverse_row d0 d1 d2 66 35 2 v10 v11 v12 C10 C11 C12.
    apply denormalize_close; [exact B | fold q; lra | fold q; lra].
  - inverse_row d0 d1 d2 66 35 2 v20 v21 v22 C20 C21 C22.
    apply denormalize_close; [exact B | fold q; lra | fold q; lra].
  - inverse_row d0 d1 d2 66 35 2 v20 v21 v22 C20 C21 C22.
    apply denormalize_close; [exact B | fold q; lra | fold q; lra].
Qed.

Lemma grey_px_deuteranopia (x : Z) :
  in_byte x ->
  let '(y0, y1, y2) :=
    daltonize_px corrector_init DEUTERANOPIA_SIM deuteranopia_correction (x, x, x) in
  (x - 1 <= y0 <= x)%Z /\ (x - 1 <= y1 <= x)%Z /\ (x - 1 <= y2 <= x)%Z.
Proof.
  intros B.
  destruct linalg_inv_entries
    as (v00 & v01 & v02 & v10 & v11 & v12 & v20 & v21 & v22 & Hinv & Hclose).
  unfold daltonize_px, to_rgb_px, to_lms_px, normalize_px, mv.
  cbn [rgb2lms lms2rgb corrector_init vmap vzip]. rewrite Hinv.
  cbv [matrix_close vec_close row0 row1 row2 fst snd INV_DEC RGB2LMS
       DEUTERANOPIA_SIM deuteranopia_correction] in *.
  destruct Hclose as ((C00 & C01 & C02) & (C10 & C11 & C12) & (C20 & C21 & C22)).
  destruct (normalize_enclose x B) as (Qa & Qb & Na & Nb).
  set (n := fdiv32 (astype_float x) 255) in *.
  set (q := inject_Z x * (1 # 255)) in *.
  unfold eps32 in *.
  (* lms_original *)
  pose proof (fdot3_enclose n n n 17.8824 43.5161 4.11935 66 66 66
                ltac:(abs_le) ltac:(abs_le) ltac:(abs_le)) as L0.
  pose proof (fdot3_enclose n n n 3.45565 27.1554 3.86714 66 66 66
                ltac:(abs_le) ltac:(abs_le) ltac:(abs_le)) as L1.
  pose proof (fdot3_enclose n n n 0.0299566 0.184309 1.46709 66 66 66
                ltac:(abs_le) ltac:(abs_le) ltac:(abs_le)) as L2.
  set (l0 := fdot3 (n, n, n) (17.8824, 43.5161, 4.11935)) in *.
  set (l1 := fdot3 (n, n, n) (3.45565, 27.1554, 3.86714)) in *.
  set (l2 := fdot3 (n, n, n) (0.0299566, 0.184309, 1.46709)) in *.
  unfold eps64 in L0, L1, L2.
  (* lms_simulated *)
  pose proof (fdot3_enclose l0 l1 l2 1 0 0 200 200 200
                ltac:(abs_le) ltac:(abs_le) ltac:(abs_le)) as S0.
  pose proof (fdot3_enclose l0 l1 l2 0.494207 0 1.24827 200 200 200
                ltac:(abs_le) ltac:(abs_le) ltac:(abs_le)) as S1.
  pose proof (fdot3_enclose l0 l1 l2 0 0 1 200 200 200
                ltac:(abs_le) ltac:(abs_le) ltac:(abs_le)) as S2.
  set (t0 := fdot3 (l0, l1, l2) (1, 0, 0)) in *.
  set (t1 := fdot3 (l0, l1, l2) (0.494207, 0, 1.24827)) in *.
  set (t2 := fdot3 (l0, l1, l2) (0, 0, 1)) in *.
  unfold eps64 in S0, S1, S2.
  (* lms_error *)
  pose proof (fsub_enclose l0 t0 300 ltac:(abs_le)) as E0.
  pose proof (fsub_enclose l1 t1 300 ltac:(abs_le)) as E1.
  pose proof (fsub_enclose l2 t2 300 ltac:(abs_le)) as E2.
  set (e0 := fsub l0 t0) in *.
  set (e1 := fsub l1 t1) in *.
  set (e2 := fsub l2 t2) in *.
  unfold eps64 in E0, E1, E2.
  (* the redistributed error *)
  pose proof (fdot3_enclose e0 e1 e2 1 0.7 0 300 300 300
                ltac:(abs_le) ltac:(abs_le) ltac:(abs_le)) as K0.
  pose proof (fdot3_enclose e0 e1 e2 0 0 0 300 300 300
                ltac:(abs_le) ltac:(abs_le) ltac:(abs_le)) as K1.
  pose proof (fdot3_enclose e0 e1 e2 0 0.7 1 300 300 300
                ltac:(abs_le) ltac:(abs_le) ltac:(abs_le)) as K2.
  set (k0 := fdot3 (e0, e1, e2) (1, 0.7, 0)) in *.
  set (k1 := fdot3 (e0, e1, e2) (0, 0, 0)) in *.
  set (k2 := fdot3 (e0, e1, e2) (0, 0.7, 1)) in *.
  unfold eps64 in K0, K1, K2.
  (* lms_corrected *)
  pose proof (fadd_enclose l0 k0 1000 ltac:(abs_le)) as A0.
  pose proof (fadd_enclose l1 k1 1000 ltac:(abs_le)) as A1.
  pose proof (fadd_enclose l2 k2 1000 ltac:(abs_le)) as A2.
  set (d0 := fadd l0 k0) in *.
  set (d1 := fadd l1 k1) in *.
  set (d2 := fadd l2 k2) in *.
  unfold eps64 in A0, A1, A2.
  assert (R0 : -1 <= d0 /\ d0 <= 66) by (split; lra).
  assert (R1 : -1 <= d1 /\ d1 <= 35) by (split; lra).
  assert (R2 : -1 <= d2 /\ d2 <= 2) by (split; lra).
  repeat split.
  - inverse_row d0 d1 d2 66 35 2 v00 v01 v02 C00 C01 C02.
    apply denormalize_close; [exact B | fold q; lra | fold q; lra].
  - inverse_row d0 d1 d2 66 35 2 v00 v01 v02 C00 C01 C02.
    apply denormalize_close; [exact B | fold q; lra | fold q; lra].
  - inverse_row d0 d1 d2 66 35 2 v10 v11 v12 C10 C11 C12.
    apply denormalize_close; [exact B | fold q; lra | fold q; lra].
  - inverse_row d0 d1 d2 66 35 2 v10 v11 v12 C10 C11 C12.
    apply denormalize_close; [exact B | fold q; lra | fold q; lra].
  - inverse_row d0 d1 d2 66 35 2 v20 v21 v22 C20 C21 C22.
    apply denormalize_close; [exact B | fold q; lra | fold q; lra].
  - inverse_row d0 d1 d2 66 35 2 v20 v21 v22 C20 C21 C22.
    apply denormalize_close; [exact B | fold q; lra | fold q; lra].
Qed.

Lemma grey_px_tritanopia (x : Z) :
  in_byte x ->
  let '(y0, y1, y2) :=
    daltonize_px corrector_init TRITANOPIA_SIM tritanopia_correction (x, x, x) in
  (x - 1 <= y0 <= x)%Z /\ (x - 1 <= y1 <= x)%Z /\ (x - 1 <= y2 <= x)%Z.
Proof.
  intros B.
  destruct linalg_inv_entries
    as (v00 & v01 & v02 & v10 & v11 & v12 & v20 & v21 & v22 & Hinv & Hclose).
  unfold daltonize_px, to_rgb_px, to_lms_px, normalize_px, mv.
  cbn [rgb2lms lms2rgb corrector_init vmap vzip]. rewrite Hinv.
  cbv [matrix_close vec_close row0 row1 row2 fst snd INV_DEC RGB2LMS
       TRITANOPIA_SIM tritanopia_correction] in *.
  destruct Hclose as ((C00 & C01 & C02) & (C10 & C11 & C12) & (C20 & C21 & C22)).
  destruct (normalize_enclose x B) as (Qa & Qb & Na & Nb).
  set (n := fdiv32 (astype_float x) 255) in *.
  set (q := inject_Z x * (1 # 255)) in *.
  unfold eps32 in *.
  (* lms_original *)
  pose proof (fdot3_enclose n n n 17.8824 43.5161 4.11935 66 66 66
                ltac:(abs_le) ltac:(abs_le) ltac:(abs_le)) as L0.
  pose proof (fdot3_enclose n n n 3.45565 27.1554 3.86714 66 66 66
                ltac:(abs_le) ltac:(abs_le) ltac:(abs_le)) as L1.
  pose proof (fdot3_enclose n n n 0.0299566 0.184309 1.46709 66 66 66
                ltac:(abs_le) ltac:(abs_le) ltac:(abs_le)) as L2.
  set (l0 := fdot3 (n, n, n) (17.8824, 43.5161, 4.11935)) in *.
  set (l1 := fdot3 (n, n, n) (3.45565, 27.1554, 3.86714)) in *.
  set (l2 := fdot3 (n, n, n) (0.0299566, 0.184309, 1.46709)) in *.
  unfold eps64 in L0, L1, L2.
  (* lms_simulated *)
  pose proof (fdot3_enclose l0 l1 l2 1 0 0 200 200 200
                ltac:(abs_le) ltac:(abs_le) ltac:(abs_le)) as S0.
  pose proof (fdot3_enclose l0 l1 l2 0 1 0 200 200 200
                ltac:(abs_le) ltac:(abs_le) ltac:(abs_le)) as S1.
  pose proof (fdot3_enclose l0 l1 l2 (-0.395913) 0.801109 0 200 200 200
                ltac:(abs_le) ltac:(abs_le) ltac:(abs_le)) as S2.
  set (t0 := fdot3 (l0, l1, l2) (1, 0, 0)) in *.
  set (t1 := fdot3 (l0, l1, l2) (0, 1, 0)) in *.
  set (t2 := fdot3 (l0, l1, l2) ((-0.395913), 0.801109, 0)) in *.
  unfold eps64 in S0, S1, S2.
  (* lms_error *)
  pose proof (fsub_enclose l0 t0 300 ltac:(abs_le)) as E0.
  pose proof (fsub_enclose l1 t1 300 ltac:(abs_le)) as E1.
  pose proof (fsub_enclose l2 t2 300 ltac:(abs_le)) as E2.
  set (e0 := fsub l0 t0) in *.
  set (e1 := fsub l1 t1) in *.
  set (e2 := fsub l2 t2) in *.
  unfold eps64 in E0, E1, E2.
  (* the redistributed error *)
  pose proof (fdot3_enclose e0 e1 e2 1 0 0.7 300 300 300
                ltac:(abs_le) ltac:(abs_le) ltac:(abs_le)) as K0.
  pose proof (fdot3_enclose e0 e1 e2 0 1 0.7 300 300 300
                ltac:(abs_le) ltac:(abs_le) ltac:(abs_le)) as K1.
  pose proof (fdot3_enclose e0 e1 e2 0 0 0 300 300 300
                ltac:(abs_le) ltac:(abs_le) ltac:(abs_le)) as K2.
  set (k0 := fdot3 (e0, e1, e2) (1, 0, 0.7)) in *.
  set (k1 := fdot3 (e0, e1, e2) (0, 1, 0.7)) in *.
  set (k2 := fdot3 (e0, e1, e2) (0, 0, 0)) in *.
  unfold eps64 in K0, K1, K2.
  (* lms_corrected *)
  pose proof (fadd_enclose l0 k0 1000 ltac:(abs_le)) as A0.
  pose proof (fadd_enclose l1 k1 1000 ltac:(abs_le)) as A1.
  pose proof (fadd_enclose l2 k2 1000 ltac:(abs_le)) as A2.
  set (d0 := fadd l0 k0) in *.
  set (d1 := fadd l1 k1) in *.
  set (d2 := fadd l2 k2) in *.
  unfold eps64 in A0, A1, A2.
  assert (R0 : -1 <= d0 /\ d0 <= 66) by (split; lra).
  assert (R1 : -1 <= d1 /\ d1 <= 35) by (split; lra).
  assert (R2 : -1 <= d2 /\ d2 <= 2) by (split; lra).
  repeat split.
  - inverse_row d0 d1 d2 66 35 2 v00 v01 v02 C00 C01 C02.
    apply denormalize_close; [exact B | fold q; lra | fold q; lra].
  - inverse_row d0 d1 d2 66 35 2 v00 v01 v02 C00 C01 C02.
    apply denormalize_close; [exact B | fold q; lra | fold q; lra].
  - inverse_row d0 d1 d2 66 35 2 v10 v11 v12 C10 C11 C12.
    apply denormalize_close; [exact B | fold q; lra | fold q; lra].
  - inverse_row d0 d1 d2 66 35 2 v10 v11 v12 C10 C11 C12.
    apply denormalize_close; [exact B | fold q; lra | fold q; lra].
  - inverse_row d0 d1 d2 66 35 2 v20 v21 v22 C20 C21 C22.
    apply denormalize_close; [exact B | fold q; lra | fold q; lra].
  - inverse_row d0 d1 d2 66 35 2 v20 v21 v22 C20 C21 C22.
    apply denormalize_close; [exact B | fold q; lra | fold q; lra].
Qed.

End GreyPixels.

(* ================================================================= *)
(** * [apply_correction]: the red channel, and grey pixels *)

Section CorrectionChannels.

Context {F : FloatOps} {FS : FloatSpec F}.

(** A clipped value within one half of the byte [x] is cast to [x] or
    [x - 1]. *)
Lemma cast_clip_near (d : Q) (x : Z) :
  in_byte x ->
  inject_Z x - (1 # 2) <= d -> d <= inject_Z x + (1 # 2) ->
  (x - 1 <= astype_uint8 (clip d 0 255) <= x)%Z.
Proof.
  intros [Hx0 Hx1] Hlo Hhi.
  assert (H0 : 0 <= inject_Z x)
    by (change 0 with (inject_Z 0); now rewrite <- Zle_Qle).
  assert (H1 : inject_Z x <= 255)
    by (change 255 with (inject_Z 255); now rewrite <- Zle_Qle).
  destruct (clip_range d 0 255 ltac:(lra)) as [Hc0 Hc1].
  pose proof (clip_lower d 0 255 _ Hlo ltac:(lra)) as Hcl.
  pose proof (clip_upper d 0 255 _ Hhi ltac:(lra)) as Hcu.
  set (c := clip d 0 255) in *.
  unfold astype_uint8. rewrite (Qtrunc_nonneg c Hc0).
  assert (Hf0 : (0 <= Qfloor c)%Z) by (apply Qfloor_lower; exact Hc0).
  assert (Hf1 : (x - 1 <= Qfloor c)%Z).
  { apply Qfloor_lower. change (x - 1)%Z with (x + -1)%Z.
    rewrite inject_Z_plus. change (inject_Z (-1)) with (-(1))%Q. lra. }
  assert (Hf2 : (Qfloor c <= x)%Z) by (apply Qfloor_upper; lra).
  unfold to_uint8. rewrite Z.mod_small by lia. lia.
Qed.

Lemma to_uint8_byte (x : Z) : in_byte x -> to_uint8 x = x.
Proof. intros [H0 H1]. unfold to_uint8. apply Z.mod_small. lia. Qed.

(** The red channel: the first row of [err_mod] is zero, so nothing is
    added to it. *)
Lemma apply_correction_px_red (m : string) (b g r : Z) :
  fadd_exact_on_integers F ->
  in_byte b -> in_byte g -> in_byte r ->
  third (apply_correction_px (color_corrector_init m) (b, g, r)) = r.
Proof.
  intros Hexact Bb Bg Br.
  unfold apply_correction_px, mv_col.
  cbn [lms_matrix sim_deuteranopia rgb_matrix_inv err_mod color_corrector_init
       vmap vzip swap_px third row0 row1 row2 fst snd].
  rewrite (to_uint8_byte r Br).
  match goal with
  | |- astype_uint8 (clip (fadd _ (fdot3 _ (?a, ?b, ?c))) _ _) = _ =>
      set (e0 := a); set (e1 := b); set (e2 := c)
  end.
  pose proof (fdot3_enclose 0 0 0 e0 e1 e2 0 0 0
                ltac:(abs_le) ltac:(abs_le) ltac:(abs_le)) as K.
  set (k := fdot3 (0, 0, 0) (e0, e1, e2)) in *. unfold eps64 in K.
  assert (Hsum : astype_float r + k == inject_Z r)
    by (unfold astype_float; apply Qle_antisym; lra).
  assert (Hr : (Z.abs r <= 2 ^ 53)%Z) by (destruct Br; lia).
  pose proof (Hexact _ _ _ Hsum Hr) as Hd.
  set (d := fadd (astype_float r) k) in *.
  assert (H0 : 0 <= inject_Z r)
    by (change 0 with (inject_Z 0); rewrite <- Zle_Qle; destruct Br; lia).
  apply (cast_clip_eq d (inject_Z r) (inject_Z r) r).
  - rewrite Hd. apply Qle_refl.
  - rewrite Hd. apply Qle_refl.
  - exact Br.
  - left. apply Qle_refl.
  - lra.
Qed.

(** The computed inverse applied to a column [s]. *)
Ltac inverse_column s0 s1 s2 b0 b1 b2 v0 v1 v2 H0 H1 H2 :=
  let E0 := fresh "E" in let E1 := fresh "E" in let E2 := fresh "E" in
  let D := fresh "D" in
  pose proof (mul_enclose s0 v0 _ b0 _ ltac:(abs_le) H0) as E0;
  pose proof (mul_enclose s1 v1 _ b1 _ ltac:(abs_le) H1) as E1;
  pose proof (mul_enclose s2 v2 _ b2 _ ltac:(abs_le) H2) as E2;
  unfold inv_eta in E0, E1, E2;
  pose proof (fdot3_enclose v0 v1 v2 s0 s1 s2 b0 b1 b2
                ltac:(abs_le) ltac:(abs_le) ltac:(abs_le)) as D;
  unfold eps64 in D.

(** A grey pixel through [apply_correction_px]. *)
Lemma apply_correction_px_grey (m : string) (x : Z) :
  in_byte x ->
  one_below (x, x, x) (apply_correction_px (color_corrector_init m) (x, x, x)).
Proof.
  intros B.
  destruct linalg_inv_entries
    as (v00 & v01 & v02 & v10 & v11 & v12 & v20 & v21 & v22 & Hinv & Hclose).
  unfold apply_correction_px, mv_col, one_below.
  cbn [lms_matrix sim_deuteranopia rgb_matrix_inv err_mod color_corrector_init
       vmap vzip swap_px].
  rewrite (to_uint8_byte x B). rewrite Hinv.
  cbv [matrix_close vec_close row0 row1 row2 fst snd INV_DEC RGB2LMS] in *.
  destruct Hclose as ((C00 & C01 & C02) & (C10 & C11 & C12) & (C20 & C21 & C22)).
  unfold astype_float.
  assert (H0 : 0 <= inject_Z x)
    by (change 0 with (inject_Z 0); rewrite <- Zle_Qle; destruct B; lia).
  assert (H1 : inject_Z x <= 255)
    by (change 255 with (inject_Z 255); rewrite <- Zle_Qle; destruct B; lia).
  set (X := inject_Z x) in *.
  (* lms *)
  pose proof (fdot3_enclose 17.8824 43.5161 4.11935 X X X 12000 12000 12000
                ltac:(abs_le) ltac:(abs_le) ltac:(abs_le)) as L0.
  pose proof (fdot3_enclose 3.45565 27.1554 3.86714 X X X 12000 12000 12000
                ltac:(abs_le) ltac:(abs_le) ltac:(abs_le)) as L1.
  pose proof (fdot3_enclose 0.0299566 0.184309 1.46709 X X X 12000 12000 12000
                ltac:(abs_le) ltac:(abs_le) ltac:(abs_le)) as L2.
  set (l0 := fdot3 (17.8824, 43.5161, 4.11935) (X, X, X)) in *.
  set (l1 := fdot3 (3.45565, 27.1554, 3.86714) (X, X, X)) in *.
  set (l2 := fdot3 (0.0299566, 0.184309, 1.46709) (X, X, X)) in *.
  unfold eps64 in L0, L1, L2.
  (* lms_sim *)
  pose proof (fdot3_enclose 1 0 0 l0 l1 l2 20000 20000 20000
                ltac:(abs_le) ltac:(abs_le) ltac:(abs_le)) as S0.
  pose proof (fdot3_enclose 0.494207 0 1.24827 l0 l1 l2 20000 20000 20000
                ltac:(abs_le) ltac:(abs_le) ltac:(abs_le)) as S1.
  pose proof (fdot3_enclose 0 0 1 l0 l1 l2 20000 20000 20000
                ltac:(abs_le) ltac:(abs_le) ltac:(abs_le)) as S2.
  set (s0 := fdot3 (1, 0, 0) (l0, l1, l2)) in *.
  set (s1 := fdot3 (0.494207, 0, 1.24827) (l0, l1, l2)) in *.
  set (s2 := fdot3 (0, 0, 1) (l0, l1, l2)) in *.
  unfold eps64 in S0, S1, S2.
  assert (R0 : -1 <= s0 /\ s0 <= 16710) by (split; lra).
  assert (R1 : -1 <= s1 /\ s1 <= 8800) by (split; lra).
  assert (R2 : -1 <= s2 /\ s2 <= 430) by (split; lra).
  (* rgb_sim *)
  inverse_column s0 s1 s2 16710 8800 430 v00 v01 v02 C00 C01 C02.
  inverse_column s0 s1 s2 16710 8800 430 v10 v11 v12 C10 C11 C12.
  inverse_column s0 s1 s2 16710 8800 430 v20 v21 v22 C20 C21 C22.
  set (r0 := fdot3 (v00, v01, v02) (s0, s1, s2)) in *.
  set (r1 := fdot3 (v10, v11, v12) (s0, s1, s2)) in *.
  set (r2 := fdot3 (v20, v21, v22) (s0, s1, s2)) in *.
  assert (T0 : X - 0.01 <= r0 /\ r0 <= X + 0.01) by (split; lra).
  assert (T1 : X - 0.01 <= r1 /\ r1 <= X + 0.01) by (split; lra).
  assert (T2 : X - 0.01 <= r2 /\ r2 <= X + 0.01) by (split; lra).
  clear - FS B H0 H1 T0 T1 T2.
  (* error *)
  pose proof (fsub_enclose X r0 1 ltac:(abs_le)) as E0.
  pose proof (fsub_enclose X r1 1 ltac:(abs_le)) as E1.
  pose proof (fsub_enclose X r2 1 ltac:(abs_le)) as E2.
  set (e0 := fsub X r0) in *.
  set (e1 := fsub X r1) in *.
  set (e2 := fsub X r2) in *.
  unfold eps64 in E0, E1, E2.
  (* correction *)
  pose proof (fdot3_enclose 0 0 0 e0 e1 e2 1 1 1
                ltac:(abs_le) ltac:(abs_le) ltac:(abs_le)) as K0.
  pose proof (fdot3_enclose 0.7 1 0 e0 e1 e2 1 1 1
                ltac:(abs_le) ltac:(abs_le) ltac:(abs_le)) as K1.
  pose proof (fdot3_enclose 0.7 0 1 e0 e1 e2 1 1 1
                ltac:(abs_le) ltac:(abs_le) ltac:(abs_le)) as K2.
  set (k0 := fdot3 (0, 0, 0) (e0, e1, e2)) in *.
  set (k1 := fdot3 (0.7, 1, 0) (e0, e1, e2)) in *.
  set (k2 := fdot3 (0.7, 0, 1) (e0, e1, e2)) in *.
  unfold eps64 in K0, K1, K2.
  (* dtpn *)
  pose proof (fadd_enclose X k0 300 ltac:(abs_le)) as A0.
  pose proof (fadd_enclose X k1 300 ltac:(abs_le)) as A1.
  pose proof (fadd_enclose X k2 300 ltac:(abs_le)) as A2.
  set (d0 := fadd X k0) in *.
  set (d1 := fadd X k1) in *.
  set (d2 := fadd X k2) in *.
  unfold eps64 in A0, A1, A2.
  split; [|split]; apply cast_clip_near; try exact B; unfold X in *; lra.
Qed.

End CorrectionChannels.

(* ================================================================= *)
(** * Grey pixels and the red channel, in images *)

Lemma pixel_in_byte (img : ndarray Z) (k : nat) (x0 x1 x2 : Z) :
  valid_image img -> nth_error (pixels img) k = Some (x0, x1, x2) ->
  in_byte x0 /\ in_byte x1 /\ in_byte x2.
Proof.
  intros Hv Hk. apply Forall_rows3 in Hv.
  rewrite Forall_forall in Hv. apply nth_error_In in Hk.
  exact (Hv _ Hk).
Qed.

(** X12. In every image of bytes, [daltonize] leaves the grey pixels
    nearly as they are, whatever the deficiency name: every channel of a
    grey pixel comes back with its value or one less.  This holds under
    the rounding-error model [FloatSpec]. *)
Theorem daltonize_keeps_greys (F : FloatOps) (FS : FloatSpec F)
  (img : ndarray Z) (cb_type : string) :
  is_image img -> valid_image img ->
  exists out,
    daltonize corrector_init img cb_type = Ok out /\
    forall (k : nat) (p : pixel),
      nth_error (pixels img) k = Some p -> grey p ->
      exists q, nth_error (pixels out) k = Some q /\ one_below p q.
Proof.
  intros Himg Hvalid.
  destruct (daltonize_total corrector_init img cb_type Himg Hvalid)
    as (out & Hout & _ & _).
  exists out. split; [exact Hout|].
  intros k [[x0 x1] x2] Hk [<- <-].
  rewrite (daltonize_pixel_list corrector_init img out cb_type Himg Hout).
  rewrite nth_error_map, Hk. cbn [option_map]. eexists. split; [reflexivity|].
  destruct (pixel_in_byte img k x0 x0 x0 Hvalid Hk) as (B & _ & _).
  unfold daltonize_pixel_map, sim_matrix_of.
  destruct (cb_type =? "protanopia")%string;
    [|destruct (cb_type =? "deuteranopia")%string;
      [|destruct (cb_type =? "tritanopia")%string]].
  - exact (grey_px_protanopia x0 B).
  - exact (grey_px_deuteranopia x0 B).
  - exact (grey_px_tritanopia x0 B).
  - unfold one_below. lia.
Qed.

(** X13. [apply_correction] never changes the red channel (the third,
    in the BGR order of the frames): on every non-empty image of bytes
    each output pixel has the red value of the input pixel, provided
    floating-point sums whose exact value is an integer are exact.  And
    it leaves the grey pixels nearly as they are: every channel of a grey
    pixel comes back with its value or one less.  Both hold under the
    rounding-error model [FloatSpec]. *)
Theorem apply_correction_red_and_greys (F : FloatOps) (FS : FloatSpec F)
  (m : string) (img : ndarray Z) :
  is_image img -> valid_image img -> data img <> [] ->
  exists out,
    apply_correction (color_corrector_init m) img = Ok out /\
    (fadd_exact_on_integers F ->
     map third (pixels out) = map third (pixels img)) /\
    forall (k : nat) (p : pixel),
      nth_error (pixels img) k = Some p -> grey p ->
      exists q, nth_error (pixels out) k = Some q /\ one_below p q.
Proof.
  intros Himg Hvalid Hne. pose proof Himg as (h & w & Hs & Hl).
  assert (Hhw : (h * w)%nat <> 0%nat).
  { intros H0. rewrite H0 in Hl. destruct (data img); [now apply Hne | discriminate]. }
  eexists. split; [exact (apply_correction_pixels _ img Hs Hl Hhw)|].
  unfold pixels. cbn [data]. rewrite rows3_flatten3. split.
  - intros Hexact. rewrite map_map. apply map_ext_in.
    intros [[b g] r] Hin. apply In_nth_error in Hin as [k Hk].
    destruct (pixel_in_byte img k b g r Hvalid Hk) as (Bb & Bg & Br).
    now apply apply_correction_px_red.
  - intros k [[x0 x1] x2] Hk [<- <-].
    rewrite nth_error_map, Hk. cbn [option_map].
    eexists. split; [reflexivity|].
    destruct (pixel_in_byte img k x0 x0 x0 Hvalid Hk) as (B & _ & _).
    now apply apply_correction_px_grey.
Qed.

Lemma greys_is_image : is_image greys.
Proof. exists 2%nat, 2%nat. split; reflexivity. Qed.

Lemma greys_valid : valid_image greys.
Proof. unfold valid_image, greys, in_byte. cbn [data]. repeat constructor; lia. Qed.

Lemma exact_ops_fadd_exact : fadd_exact_on_integers exact_ops.
Proof. intros x y z H _. exact H. Qed.

Lemma daltonize_keeps_greys_witness :
  exists out,
    @daltonize exact_ops (@corrector_init exact_ops) greys "protanopia" = Ok out /\
    forall (k : nat) (p : pixel),
      nth_error (pixels greys) k = Some p -> grey p ->
      exists q, nth_error (pixels out) k = Some q /\ one_below p q.
Proof.
  exact (daltonize_keeps_greys exact_ops exact_ops_spec greys "protanopia"
           greys_is_image greys_valid).
Defined.

Lemma apply_correction_red_and_greys_witness :
  exists out,
    @apply_correction exact_ops (@color_corrector_init exact_ops "deuteranopia")
      greys = Ok out /\
    map third (pixels out) = map third (pixels greys) /\
    forall (k : nat) (p : pixel),
      nth_error (pixels greys) k = Some p -> grey p ->
      exists q, nth_error (pixels out) k = Some q /\ one_below p q.
Proof.
  destruct (apply_correction_red_and_greys exact_ops exact_ops_spec
              "deuteranopia" greys greys_is_image greys_valid
              ltac:(discriminate)) as (out & H1 & H2 & H3).
  exists out. split; [exact H1|].
  split; [exact (H2 exact_ops_fadd_exact) | exact H3].
Defined.

(* ================================================================= *)
(** * The simulation of a deficiency *)

Lemma Qabs_scale (x c C : Q) : Qabs c <= C -> Qabs (x * c) <= C * Qabs x.
Proof.
  intros Hc. rewrite Qabs_Qmult.
  pose proof (Qabs_nonneg x). pose proof (Qabs_nonneg c). nra.
Qed.

Lemma Qabs_bounds (x : Q) : - Qabs x <= x /\ x <= Qabs x.
Proof. apply Qabs_le_elim. apply Qle_refl. Qed.

Lemma Forall2_map_self {A B} (R : A -> B -> Prop) (f : A -> B) (l : list A) :
  (forall a, R a (f a)) -> Forall2 R l (map f l).
Proof.
  intros H. induction l as [|a l IH]; cbn [map]; constructor; auto.
Qed.

Section Simulation.

Context {F : FloatOps} {FS : FloatSpec F}.

Ltac scale := apply Qabs_scale; apply Qabs_le_intro; lra.

Lemma simulate_px_close (cb_type : string) (sim ec : matrix) (v : vec3) :
  sim_matrix_of corrector_init cb_type = Some (sim, ec) ->
  vec_close (eps64 * 3 * remaining cb_type v) (mv sim v) (simulated cb_type v).
Proof.
  destruct v as [[l m] s]. unfold sim_matrix_of, simulated, remaining.
  pose proof (Qabs_nonneg l) as Al. pose proof (Qabs_nonneg m) as Am.
  pose proof (Qabs_nonneg s) as As.
  destruct (Qabs_bounds l). destruct (Qabs_bounds m). destruct (Qabs_bounds s).
  destruct (cb_type =? "protanopia")%string;
    [|destruct (cb_type =? "deuteranopia")%string;
      [|destruct (cb_type =? "tritanopia")%string]];
    intros [= <- _]; try discriminate;
    cbv [mv row0 row1 row2 fst snd vec_close
         protanopia_sim deuteranopia_sim tritanopia_sim corrector_init
         PROTANOPIA_SIM DEUTERANOPIA_SIM TRITANOPIA_SIM].
  - pose proof (fdot3_enclose l m s 0 2.02344 (-2.52581)
                  (0 * Qabs l) (2.02344 * Qabs m) (2.52581 * Qabs s)
                  ltac:(scale) ltac:(scale) ltac:(scale)) as D0.
    pose proof (fdot3_enclose l m s 0 1 0
                  (0 * Qabs l) (1 * Qabs m) (0 * Qabs s)
                  ltac:(scale) ltac:(scale) ltac:(scale)) as D1.
    pose proof (fdot3_enclose l m s 0 0 1
                  (0 * Qabs l) (0 * Qabs m) (1 * Qabs s)
                  ltac:(scale) ltac:(scale) ltac:(scale)) as D2.
    unfold eps64 in *. repeat split; apply Qabs_le_intro; lra.
  - pose proof (fdot3_enclose l m s 1 0 0
                  (1 * Qabs l) (0 * Qabs m) (0 * Qabs s)
                  ltac:(scale) ltac:(scale) ltac:(scale)) as D0.
    pose proof (fdot3_enclose l m s 0.494207 0 1.24827
                  (0.494207 * Qabs l) (0 * Qabs m) (1.24827 * Qabs s)
                  ltac:(scale) ltac:(scale) ltac:(scale)) as D1.
    pose proof (fdot3_enclose l m s 0 0 1
                  (0 * Qabs l) (0 * Qabs m) (1 * Qabs s)
                  ltac:(scale) ltac:(scale) ltac:(scale)) as D2.
    unfold eps64 in *. repeat split; apply Qabs_le_intro; lra.
  - pose proof (fdot3_enclose l m s 1 0 0
                  (1 * Qabs l) (0 * Qabs m) (0 * Qabs s)
                  ltac:(scale) ltac:(scale) ltac:(scale)) as D0.
    pose proof (fdot3_enclose l m s 0 1 0
                  (0 * Qabs l) (1 * Qabs m) (0 * Qabs s)
                  ltac:(scale) ltac:(scale) ltac:(scale)) as D1.
    pose proof (fdot3_enclose l m s (-0.395913) 0.801109 0
                  (0.395913 * Qabs l) (0.801109 * Qabs m) (0 * Qabs s)
                  ltac:(scale) ltac:(scale) ltac:(scale)) as D2.
    unfold eps64 in *. repeat split; apply Qabs_le_intro; lra.
Qed.

End Simulation.

(** X17. On an LMS image, [simulate_colorblindness] with one of the
    three deficiency names returns an image of the same shape in which,
    pixel by pixel, the two remaining cone responses are kept and the
    missing one is rebuilt from them alone: the response the viewer lacks
    has no influence on the result beyond rounding (a relative 3 * 10^-15
    of the two remaining responses).  With any other name the image is
    returned as it is.  This holds under the rounding-error model
    [FloatSpec]. *)
Theorem simulate_drops_missing_cone (F : FloatOps) (FS : FloatSpec F)
  (lms : ndarray Q) (cb_type : string) :
  is_image lms ->
  exists out,
    simulate_colorblindness corrector_init lms cb_type = Ok out /\
    shape out = shape lms /\
    Forall2 (fun v o =>
               vec_close (eps64 * 3 * remaining cb_type v) o
                         (simulated cb_type v))
            (rows3 (data lms)) (rows3 (data out)) /\
    (sim_matrix_of corrector_init cb_type = None -> out = lms).
Proof.
  intros (h & w & Hs & Hl).
  destruct (image_rows lms Hs Hl) as [Hn Hf].
  assert (Hlms : lms = mk_ndarray [h; w; 3%nat] (flatten3 (rows3 (data lms)))).
  { destruct lms as [sh d]. cbn [shape data] in *. now rewrite Hf, Hs. }
  eexists. split.
  { rewrite Hlms at 1. apply simulate_pixels. exact Hn. }
  cbn [shape data]. split; [now rewrite Hs|].
  rewrite rows3_flatten3.
  destruct (sim_matrix_of corrector_init cb_type) as [[sim ec]|] eqn:E.
  - split; [|discriminate].
    apply Forall2_map_self. intros v.
    exact (simulate_px_close cb_type sim ec v E).
  - split; [|intros _; now rewrite Hlms at 2].
    assert (Hrem : forall v, vec_close (eps64 * 3 * remaining cb_type v) v
                               (simulated cb_type v)).
    { intros [[l m] s]. unfold sim_matrix_of in E. unfold simulated, remaining.
      destruct (cb_type =? "protanopia")%string; [discriminate|].
      destruct (cb_type =? "deuteranopia")%string; [discriminate|].
      destruct (cb_type =? "tritanopia")%string; [discriminate|].
      unfold vec_close, eps64. repeat split; apply Qabs_le_intro; lra. }
    rewrite <- (map_id (rows3 (data lms))) at 2.
    apply Forall2_map_self. exact Hrem.
Qed.

Lemma lms_two_is_image : is_image lms_two.
Proof. exists 1%nat, 2%nat. split; reflexivity. Qed.

Lemma simulate_drops_missing_cone_witness :
  exists out,
    @simulate_colorblindness exact_ops (@corrector_init exact_ops) lms_two
      "deuteranopia" = Ok out /\
    shape out = shape lms_two /\
    Forall2 (fun v o =>
               vec_close (eps64 * 3 * remaining "deuteranopia" v) o
                         (simulated "deuteranopia" v))
            (rows3 (data lms_two)) (rows3 (data out)) /\
    (sim_matrix_of (@corrector_init exact_ops) "deuteranopia" = None ->
     out = lms_two).
Proof.
  exact (simulate_drops_missing_cone exact_ops exact_ops_spec lms_two
           "deuteranopia" lms_two_is_image).
Defined.

(* ================================================================= *)
(** * The range of LMS values *)

Lemma to_lms_px_range {F : FloatOps} {FS : FloatSpec F} (x0 x1 x2 : Z) :
  in_byte x0 -> in_byte x1 -> in_byte x2 ->
  lms_in_range (to_lms_px corrector_init (x0, x1, x2)).
Proof.
  intros B0 B1 B2.
  unfold to_lms_px, normalize_px, mv, lms_in_range.
  cbn [rgb2lms corrector_init vmap].
  cbv [row0 row1 row2 fst snd RGB2LMS].
  destruct (normalize_enclose x0 B0) as (Q0a & Q0b & N0a & N0b).
  destruct (normalize_enclose x1 B1) as (Q1a & Q1b & N1a & N1b).
  destruct (normalize_enclose x2 B2) as (Q2a & Q2b & N2a & N2b).
  set (n0 := fdiv32 (astype_float x0) 255) in *.
  set (n1 := fdiv32 (astype_float x1) 255) in *.
  set (n2 := fdiv32 (astype_float x2) 255) in *.
  set (q0 := inject_Z x0 * (1 # 255)) in *.
  set (q1 := inject_Z x1 * (1 # 255)) in *.
  set (q2 := inject_Z x2 * (1 # 255)) in *.
  unfold eps32 in *.
  pose proof (fdot3_enclose n0 n1 n2 17.8824 43.5161 4.11935
                (n0 * 17.8824) (n1 * 43.5161) (n2 * 4.11935)
                ltac:(abs_le) ltac:(abs_le) ltac:(abs_le)) as L0.
  pose proof (fdot3_enclose n0 n1 n2 3.45565 27.1554 3.86714
                (n0 * 3.45565) (n1 * 27.1554) (n2 * 3.86714)
                ltac:(abs_le) ltac:(abs_le) ltac:(abs_le)) as L1.
  pose proof (fdot3_enclose n0 n1 n2 0.0299566 0.184309 1.46709
                (n0 * 0.0299566) (n1 * 0.184309) (n2 * 1.46709)
                ltac:(abs_le) ltac:(abs_le) ltac:(abs_le)) as L2.
  unfold eps64 in L0, L1, L2.
  repeat split; lra.
Qed.

(** X14. For every image of bytes, [rgb_to_lms] returns an array of the
    same shape whose triples are not negative and at most 65.52 (L),
    34.48 (M) and 1.69 (S), the sums of the rows of the matrix up to
    rounding.  This holds under the rounding-error model [FloatSpec]. *)
Theorem rgb_to_lms_range (F : FloatOps) (FS : FloatSpec F) (img : ndarray Z) :
  is_image img -> valid_image img ->
  exists lms,
    rgb_to_lms corrector_init img = Ok lms /\
    shape lms = shape img /\
    length (data lms) = length (data img) /\
    Forall lms_in_range (rows3 (data lms)).
Proof.
  intros (h & w & Hs & Hl) Hvalid.
  destruct (image_rows img Hs Hl) as [Hn _].
  eexists. split; [exact (rgb_to_lms_pixels corrector_init img Hs Hl)|].
  cbn [shape data]. split; [now rewrite Hs|]. split.
  - rewrite length_flatten3, length_map.
    etransitivity; [exact (f_equal (fun n => (n * 3)%nat) Hn) | now rewrite Hl].
  - rewrite rows3_flatten3. apply Forall_map.
    apply Forall_rows3 in Hvalid. revert Hvalid. apply Forall_impl.
    intros [[x0 x1] x2] (B0 & B1 & B2). now apply to_lms_px_range.
Qed.

Lemma rgb_to_lms_range_witness :
  exists lms,
    @rgb_to_lms exact_ops (@corrector_init exact_ops) red_green = Ok lms /\
    shape lms = shape red_green /\
    length (data lms) = length (data red_green) /\
    Forall lms_in_range (rows3 (data lms)).
Proof.
  exact (rgb_to_lms_range exact_ops exact_ops_spec red_green
           red_green_is_image red_green_valid).
Defined.

(* ================================================================= *)
(** * How often the detector runs *)

Lemma ceil5_succ (c : nat) :
  ((S c + 4) / 5 = (c + 4) / 5 + (if (c mod 5 =? 0) then 1 else 0))%nat.
Proof.
  pose proof (Nat.div_mod_eq c 5) as Hc.
  pose proof (Nat.mod_upper_bound c 5 ltac:(discriminate)) as Hr.
  rewrite <- (Nat.div_unique (S c + 4) 5 (c / 5 + 1) (c mod 5) Hr ltac:(lia)).
  destruct (Nat.eqb_spec (c mod 5) 0) as [Hm|Hm].
  - rewrite <- (Nat.div_unique (c + 4) 5 (c / 5) 4 ltac:(lia) ltac:(lia)). lia.
  - rewrite <- (Nat.div_unique (c + 4) 5 (c / 5 + 1) (c mod 5 - 1)
                  ltac:(lia) ltac:(lia)). lia.
Qed.

Lemma detector_runs_from (det : Frame -> list detection) (frames : list Frame) :
  forall st : loop_state,
    (detector_runs (run_loop det SKIP_FRAMES st frames)
     + (frame_count st + 4) / 5
     = (frame_count st + length frames + 4) / 5)%nat.
Proof.
  unfold detector_runs, SKIP_FRAMES.
  induction frames as [|f rest IH]; intros st.
  - cbn [run_loop filter length]. now rewrite Nat.add_0_r.
  - cbn [run_loop loop_body filter detector_ran].
    specialize (IH {| frame_count := S (frame_count st);
                      current_detections :=
                        if (frame_count st mod 5 =? 0)%nat
                        then det f else current_detections st |}).
    cbn [frame_count] in IH.
    pose proof (ceil5_succ (frame_count st)) as Hc.
    replace (frame_count st + length (f :: rest) + 4)%nat
      with (S (frame_count st) + length rest + 4)%nat by (cbn [length]; lia).
    destruct (frame_count st mod 5 =? 0)%nat; cbn [length]; lia.
Qed.

(** X15. Over [n] frames the camera loop runs the detector on
    [ceil (n / 5)] of them, the first included, and goes through one
    iteration for every frame. *)
Theorem main_loop_detector_runs (det : Frame -> list detection)
  (frames : list Frame) :
  detector_runs (main_loop det frames) = ((length frames + 4) / 5)%nat /\
  length (main_loop det frames) = length frames.
Proof.
  split.
  - unfold main_loop.
    pose proof (detector_runs_from det frames loop_init) as H.
    cbn [loop_init frame_count] in H.
    change ((0 + 4) / 5)%nat with 0%nat in H.
    rewrite Nat.add_0_r, Nat.add_0_l in H. exact H.
  - apply length_run_loop.
Qed.

(* ================================================================= *)
(** * Boxes inside the frame *)

Lemma Qtrunc_bounds (x : Q) (n : Z) :
  0 <= x -> x <= inject_Z n -> (0 <= Qtrunc x <= n)%Z /\ Qtrunc x = Qfloor x.
Proof.
  intros H0 Hn. rewrite (Qtrunc_nonneg x H0). split; [|reflexivity]. split.
  - apply Qfloor_lower. exact H0.
  - rewrite <- (Qfloor_Z n). now apply Qfloor_resp_le.
Qed.

(** X16. For a box of class 9 or 11 that the model reports inside the
    frame, the clamping changes nothing: the loop corrects the rows
    [floor y1] to [floor y2] and the columns [floor x1] to [floor x2],
    and it drops the box exactly when these have no pixel. *)
Theorem box_in_frame_region (yolo : Frame -> list (list box)) (h w : Z)
  (b : box) :
  box_in_frame h w b ->
  Qtrunc (box_cls b) = 9%Z \/ Qtrunc (box_cls b) = 11%Z ->
  exists d,
    detection_of_box (object_detector_init yolo) b = Some d /\
    process_detection h w d
    = (let '(x1, y1, x2, y2) := box_xyxy b in
       if ((Qfloor x1 <? Qfloor x2) && (Qfloor y1 <? Qfloor y2))%Z
       then Some (mk_roi (Qfloor y1) (Qfloor y2) (Qfloor x1) (Qfloor x2))
       else None).
Proof.
  unfold box_in_frame. intros Hin Hcls.
  eexists. split; [apply detection_of_box_some; split; [exact Hcls | reflexivity]|].
  destruct (box_xyxy b) as [[[x1 y1] x2] y2]. cbv beta iota.
  destruct Hin as (X1 & X12 & X2 & Y1 & Y12 & Y2).
  destruct (Qtrunc_bounds x1 w X1 ltac:(lra)) as [Bx1 Ex1].
  destruct (Qtrunc_bounds x2 w ltac:(lra) X2) as [Bx2 Ex2].
  destruct (Qtrunc_bounds y1 h Y1 ltac:(lra)) as [By1 Ey1].
  destruct (Qtrunc_bounds y2 h ltac:(lra) Y2) as [By2 Ey2].
  rewrite Ex1, Ex2, Ey1, Ey2 in *.
  rewrite process_detection_nonneg by lia.
  rewrite !Z.max_r, !Z.min_r by lia. reflexivity.
Qed.

Lemma box_in_frame_region_witness :
  exists d,
    detection_of_box (object_detector_init three_boxes) stop_sign = Some d /\
    process_detection 480 640 d
    = (let '(x1, y1, x2, y2) := box_xyxy stop_sign in
       if ((Qfloor x1 <? Qfloor x2) && (Qfloor y1 <? Qfloor y2))%Z
       then Some (mk_roi (Qfloor y1) (Qfloor y2) (Qfloor x1) (Qfloor x2))
       else None).
Proof.
  apply (box_in_frame_region three_boxes 480 640 stop_sign).
  - unfold box_in_frame, stop_sign. cbn [box_xyxy].
    change (inject_Z 640) with 640. change (inject_Z 480) with 480.
    repeat split; lra.
  - right. reflexivity.
Defined.
